(** * ROMS v2 webhook pipeline: a shallow embedding and its properties

    The development follows [backend-v2/services]:
    - [order_processor.py]: alias mapping and the create/update engine,
    - [webhook_queue.py]: the worker loop, retries and the dead-letter deque,
    - [webhook_parser.py]: the labelled-text and embed normaliser,
    [backend-v2/database/schemas.py] for the validation schemas, and
    [backend-v2/api] for the acceptor ([webhooks.py]) and the listing of
    orders ([orders.py]).

    Python objects are dynamically typed, so values are a tagged union
    ([value]); dictionaries that are iterated keep their insertion order
    (association lists), database rows are finite maps from column names to
    values.  Floats are IEEE binary64 numbers (Rocq's primitive floats), so
    [==], truthiness and NaN behave as in Python.  Integers are unbounded,
    as in Python; what the SQLite driver does with a value it is given (an
    integer beyond 64 bits, a NaN, a date with a time zone) is written out
    where the rows are written.  A string is a string of Python whose
    characters lie below 256. *)

From Stdlib Require Import ZArith String Ascii List Bool Lia.
From Stdlib Require Import PrimFloat FloatOps SpecFloat.
From stdpp Require Import base option list strings gmap.

Set Warnings "-register-all,-inexact-float,-abstract-large-number".

Local Open Scope string_scope.
Local Open Scope Z_scope.
Local Open Scope list_scope.

(** ** Python values *)

(** A [datetime] is a number of microseconds since the epoch. *)
Definition datetime := Z.

(** A [datetime] object is naive or aware.  A naive one is its reading of
    the wall clock; an aware one carries, next to the reading of its wall
    clock, its offset from UTC (in microseconds).  [datetime.utcnow()] and
    the values read back from the database are naive; the dates of a
    validated payload are what the validation library made of the input,
    naive or aware. *)
Inductive pydatetime : Type :=
| Naive (t : Z)
| Aware (t : Z) (utcoffset : Z).

Coercion Naive : Z >-> pydatetime.

(** [a == b] on two [datetime] objects: a naive and an aware one are never
    equal, two aware ones are equal when they are the same instant. *)
Definition datetime_eq (a b : pydatetime) : bool :=
  match a, b with
  | Naive x, Naive y => Z.eqb x y
  | Aware x ox, Aware y oy => Z.eqb (x - ox) (y - oy)
  | _, _ => false
  end.

Inductive value : Type :=
| VNone
| VBool (b : bool)
| VInt (z : Z)
| VFloat (f : float)
| VStr (s : string)
| VDatetime (t : pydatetime)
| VList (l : list value)
| VDict (d : list (string * value)).

(** [bool(v)]: what [if v], [v or w] and [not v] look at. *)
Definition truthy (v : value) : bool :=
  match v with
  | VNone => false
  | VBool b => b
  | VInt z => negb (Z.eqb z 0)
  | VFloat f => negb (PrimFloat.eqb f 0%float)
  | VStr s => negb (String.eqb s "")
  | VDatetime _ => true
  | VList l => match l with [] => false | _ => true end
  | VDict d => match d with [] => false | _ => true end
  end.

(** [a or b] evaluates to [a] when [a] is truthy and to [b] otherwise. *)
Definition py_or (a b : value) : value := if truthy a then a else b.

(** Injections of the typed, optional fields of a validated payload. *)
Definition ostr (o : option string) : value :=
  match o with Some s => VStr s | None => VNone end.
Definition ofloat (o : option float) : value :=
  match o with Some f => VFloat f | None => VNone end.
Definition oint (o : option Z) : value :=
  match o with Some z => VInt z | None => VNone end.
Definition odatetime (o : option pydatetime) : value :=
  match o with Some t => VDatetime t | None => VNone end.

(** [str.lower()] on the ASCII range. *)
Definition lower_ascii (c : ascii) : ascii :=
  let n := nat_of_ascii c in
  if ((65 <=? n)%nat && (n <=? 90)%nat)%bool then ascii_of_nat (n + 32) else c.

Fixpoint lower (s : string) : string :=
  match s with
  | EmptyString => EmptyString
  | String c r => String (lower_ascii c) (lower r)
  end.

(** [str.isascii()].  A string of the embedding is a string of Python whose
    characters lie below 256; on the ASCII ones the string functions and
    the patterns of the embedding are those of Python. *)
Definition isascii (s : string) : bool :=
  forallb (fun c => (nat_of_ascii c <? 128)%nat) (list_ascii_of_string s).

(** ** schemas.py: [WebhookPayload] after validation *)

Record WebhookPayload : Type := mkWebhookPayload {
  order_number : string;
  product : option string;
  product_name : option string;
  item : option string;
  price : option float;
  unit_price : option float;
  total : option float;
  total_price : option float;
  amount : option float;
  commission : option float;
  profit : option float;
  quantity : option Z;
  qty : option Z;
  email : option string;
  customer_email : option string;
  customer_name : option string;
  name : option string;
  profile : option string;
  proxy_list : option string;
  proxy : option string;
  reference : option string;
  reference_number : option string;
  status : option string;
  order_status : option string;
  tracking : option string;
  tracking_number : option string;
  shipment_id : option string;
  order_date : option pydatetime;
  created_at : option pydatetime;
  date : option pydatetime;
  order_time : option string;
  payment_method : option string;
  shipping_address : option string;
  shipping_method : option string;
  notes : option string
}.

(** A payload that carries the business key and nothing else. *)
Definition bare_payload (k : string) : WebhookPayload :=
  mkWebhookPayload k None None None None None None None None None None None
    None None None None None None None None None None None None None None
    None None None None None None None None None.

(** ** order_processor.py: [OrderProcessor._map_webhook_to_order] *)

(** The [status_map] dictionary of [_map_webhook_to_order]. *)
Definition status_map : list (string * string) :=
  [("pending", "pending"); ("processing", "processing");
   ("shipped", "shipped"); ("delivered", "delivered");
   ("cancelled", "cancelled"); ("refunded", "refunded");
   ("verified", "verified"); ("unverified", "unverified")].

(** [d.get(k, None)] on a dictionary of strings. *)
Fixpoint str_dict_get (d : list (string * string)) (k : string) : value :=
  match d with
  | [] => VNone
  | (k', v) :: r => if String.eqb k' k then VStr v else str_dict_get r k
  end.

Definition map_status (p : WebhookPayload) : value :=
  let status_str := py_or (ostr p.(status)) (ostr p.(order_status)) in
  if truthy status_str then
    match status_str with
    | VStr s => str_dict_get status_map (lower s)
    | _ => VNone
    end
  else VNone.

(** The dictionary returned by [_map_webhook_to_order], in the order in which
    the source lists its keys.  [now] is the reading of [datetime.utcnow()]. *)
Definition _map_webhook_to_order (now : datetime) (p : WebhookPayload)
  : list (string * value) :=
  let product := py_or (ostr p.(product)) (py_or (ostr p.(product_name))
                   (py_or (ostr p.(item)) (VStr "Unknown Product"))) in
  let price := py_or (ofloat p.(price)) (py_or (ofloat p.(unit_price))
                   (VFloat 0%float)) in
  let total := py_or (ofloat p.(total)) (py_or (ofloat p.(total_price))
                   (ofloat p.(amount))) in
  let commission := py_or (ofloat p.(commission)) (py_or (ofloat p.(profit))
                   (VFloat 0%float)) in
  let quantity := py_or (oint p.(quantity)) (py_or (oint p.(qty)) (VInt 1)) in
  let email := py_or (ostr p.(email)) (ostr p.(customer_email)) in
  let customer_name := py_or (ostr p.(customer_name)) (ostr p.(name)) in
  let proxy_list := py_or (ostr p.(proxy_list)) (ostr p.(proxy)) in
  let reference_number :=
    py_or (ostr p.(reference)) (ostr p.(reference_number)) in
  let status := map_status p in
  let tracking_number :=
    py_or (ostr p.(tracking)) (py_or (ostr p.(tracking_number))
      (ostr p.(shipment_id))) in
  let order_date :=
    py_or (odatetime p.(order_date)) (py_or (odatetime p.(created_at))
      (py_or (odatetime p.(date)) (VDatetime now))) in
  let order_time := ostr p.(order_time) in
  let payment_method := ostr p.(payment_method) in
  let shipping_address := ostr p.(shipping_address) in
  let shipping_method := ostr p.(shipping_method) in
  let notes := ostr p.(notes) in
  [ ("order_number", VStr p.(order_number));
    ("product", product);
    ("price", price);
    ("total", total);
    ("commission", commission);
    ("quantity", quantity);
    ("email", email);
    ("customer_name", customer_name);
    ("profile", ostr p.(profile));
    ("proxy_list", proxy_list);
    ("reference_number", reference_number);
    ("status", status);
    ("tracking_number", tracking_number);
    ("order_date", order_date);
    ("order_time", order_time);
    ("payment_method", payment_method);
    ("shipping_address", shipping_address);
    ("shipping_method", shipping_method);
    ("notes", notes);
    ("source", VStr "webhook") ].

(** [d[k]] / [d.get(k)] on an insertion-ordered dictionary. *)
Fixpoint dict_get (d : list (string * value)) (k : string) : option value :=
  match d with
  | [] => None
  | (k', v) :: r => if String.eqb k' k then Some v else dict_get r k
  end.

(** ** Exceptions *)

(** A computation either returns or raises; the payload of [Raise] is the
    text [str(e)] of the exception. *)
Inductive result (A : Type) : Type :=
| Ok (a : A)
| Raise (e : string).
Arguments Ok {A} a.
Arguments Raise {A} e.

#[global] Instance result_bind : MBind result := fun A B k r =>
  match r with
  | Ok a => k a
  | Raise e => Raise e
  end.

#[global] Instance result_ret : MRet result := fun A a => Ok a.

Definition is_ok {A : Type} (r : result A) : bool :=
  match r with
  | Ok _ => true
  | Raise _ => false
  end.

#[global] Instance result_fmap : FMap result := fun A B f r =>
  match r with
  | Ok a => Ok (f a)
  | Raise e => Raise e
  end.

(** ** Python equality *)

(** Exact comparison of a binary64 number with an integer, as Python's
    [float.__eq__] does against an [int]. *)
Definition float_eq_Z (f : float) (z : Z) : bool :=
  match Prim2SF f with
  | S754_zero _ => Z.eqb z 0
  | S754_finite s m e =>
      let sm := if s then Z.neg m else Z.pos m in
      if (0 <=? e)%Z then Z.eqb z (sm * 2 ^ e)
      else Z.eqb (z * 2 ^ (- e)) sm
  | _ => false
  end.

Definition Z_of_bool (b : bool) : Z := if b then 1 else 0.

(** [a == b].  Numbers compare by value across [bool], [int] and [float];
    NaN is different from everything, itself included; dictionaries compare
    regardless of insertion order. *)
Fixpoint py_eq (a b : value) {struct a} : bool :=
  match a, b with
  | VNone, VNone => true
  | VBool x, VBool y => Bool.eqb x y
  | VBool x, VInt y => Z.eqb (Z_of_bool x) y
  | VInt x, VBool y => Z.eqb x (Z_of_bool y)
  | VBool x, VFloat y => float_eq_Z y (Z_of_bool x)
  | VFloat x, VBool y => float_eq_Z x (Z_of_bool y)
  | VInt x, VInt y => Z.eqb x y
  | VInt x, VFloat y => float_eq_Z y x
  | VFloat x, VInt y => float_eq_Z x y
  | VFloat x, VFloat y => PrimFloat.eqb x y
  | VStr x, VStr y => String.eqb x y
  | VDatetime x, VDatetime y => datetime_eq x y
  | VList l1, VList l2 =>
      (fix go (l1 l2 : list value) {struct l1} : bool :=
         match l1, l2 with
         | [], [] => true
         | x :: r1, y :: r2 => py_eq x y && go r1 r2
         | _, _ => false
         end) l1 l2
  | VDict d1, VDict d2 =>
      Nat.eqb (length d1) (length d2) &&
      (fix go (d : list (string * value)) {struct d} : bool :=
         match d with
         | [] => true
         | (k, v) :: r =>
             match dict_get d2 k with
             | Some w => py_eq v w
             | None => false
             end && go r
         end) d1
  | _, _ => false
  end.

(** ** models.py: the [orders] and [order_events] tables *)

(** A row of [orders]: column name to value.  A column that was never set
    reads as [None], which is what [getattr(order, key, None)] returns. *)
Abbreviation Order := (gmap string value).

Definition getattr (o : Order) (key : string) : value :=
  default VNone (o !! key).

Definition setattr (o : Order) (key : string) (v : value) : Order :=
  <[key := v]> o.

(** A change recorded by [_update_existing_order]: the source renders
    [(key, old, new)] as the text [key: old -> new]. *)
Definition change : Type := string * value * value.

(** A row of [order_events].  [description] is kept as the list of changes
    the source joins into the description text (empty for a creation);
    [event_metadata] is the payload that [serialize_payload] dumps. *)
Record OrderEvent : Type := mkOrderEvent {
  order_id : Z;
  event_type : string;
  description : list change;
  event_metadata : WebhookPayload;
  event_source : string;
  event_created_at : datetime
}.

Record database : Type := mkDatabase {
  orders : list Order;
  events : list OrderEvent
}.

Definition empty_db : database := mkDatabase [] [].

(** Rows whose [order_number] column equals [k]. *)
Definition has_number (k : string) (o : Order) : bool :=
  py_eq (getattr o "order_number") (VStr k).

Definition rows_with_number (k : string) (db : database) : list Order :=
  List.filter (has_number k) db.(orders).

(** [OrderProcessor._get_order_by_number]: [scalar_one_or_none] raises when
    the query returns more than one row. *)
Definition _get_order_by_number (db : database) (k : string)
  : result (option Order) :=
  match rows_with_number k db with
  | [] => Ok None
  | [o] => Ok (Some o)
  | _ => Raise "MultipleResultsFound"
  end.

(** The constructor call of [Order] with [order_data] as keyword arguments. *)
Definition Order_of_data (order_data : list (string * value)) : Order :=
  fold_left (fun o kv => setattr o (fst kv) (snd kv)) order_data ∅.

(** The primary key the database hands out: rows are never deleted. *)
Definition next_order_id (db : database) : Z := Z.of_nat (length db.(orders)) + 1.

(** What SQLite hands back for a value it was given.  A NaN is written as
    NULL and comes back as [None]; an aware [datetime] is written with the
    fields of its wall clock and comes back naive; an integer, any other
    float, a string and [None] come back as they went. *)
Definition sqlite_roundtrip (v : value) : value :=
  match v with
  | VFloat f => if PrimFloat.eqb f f then v else VNone
  | VDatetime (Aware t _) => VDatetime (Naive t)
  | _ => v
  end.

(** The driver refuses to bind an integer that does not fit 64 bits: it
    raises [OverflowError]. *)
Definition sqlite_overflows (v : value) : bool :=
  match v with
  | VInt z => negb ((- 2 ^ 63 <=? z) && (z <? 2 ^ 63))%bool
  | _ => false
  end.

(** [OrderProcessor._create_new_order].  The flush binds the values of the
    row (and fails on one the driver refuses), assigns the primary key and
    the column defaults of the columns the mapping does not set
    ([qty_received], [created_at], [updated_at]); the unique index on
    [order_number] rejects a second row with the same key.  The row
    returned is the row as [refresh] reads it back.  [t_db] is the reading
    of the clock at the flush. *)
Definition _create_new_order (t_db : datetime) (order_data : list (string * value))
    (raw_payload : WebhookPayload) (db : database) : result (database * Order) :=
  let order := Order_of_data order_data in
  if existsb (fun kv => sqlite_overflows kv.2) order_data
  then Raise "OverflowError"
  else
  match rows_with_number raw_payload.(order_number) db with
  | _ :: _ => Raise "IntegrityError"
  | [] =>
      let order := sqlite_roundtrip <$> order in
      let order :=
        setattr (setattr (setattr (setattr order
          "id" (VInt (next_order_id db)))
          "qty_received" (VInt 0))
          "created_at" (VDatetime t_db))
          "updated_at" (VDatetime t_db) in
      let event :=
        mkOrderEvent (next_order_id db) "created" [] raw_payload "webhook" t_db in
      Ok (mkDatabase (db.(orders) ++ [order]) (db.(events) ++ [event]), order)
  end.

(** One iteration of the loop of [_update_existing_order]. *)
Definition update_field (acc : Order * list change) (kv : string * value)
  : Order * list change :=
  let '(order, changes) := acc in
  let '(key, v) := kv in
  if String.eqb key "order_number" || String.eqb key "source" then acc
  else
    match v with
    | VNone => acc
    | _ =>
        let old_value := getattr order key in
        if negb (py_eq old_value v)
        then (setattr order key v, changes ++ [(key, old_value, v)])
        else acc
    end.

(** The row of the table that holds the same primary key is replaced by the
    session's copy at commit. *)
Definition commit_order (order : Order) (rows : list Order) : list Order :=
  (fun o => if py_eq (getattr o "id") (getattr order "id") then order else o)
    <$> rows.

(** The attributes that were set, as [refresh] reads them back after the
    commit. *)
Definition refresh (changes : list change) (order : Order) : Order :=
  fold_left (fun o c => setattr o c.1.1 (sqlite_roundtrip c.2)) changes order.

(** [OrderProcessor._update_existing_order].  Nothing is written when no
    attribute was set; otherwise the commit binds the values that were set
    (and fails on one the driver refuses), updates the row (and with it the
    [onupdate] column [updated_at]) and inserts the [updated] event; the
    row returned is the row as [refresh] reads it back. *)
Definition _update_existing_order (t_db : datetime) (order : Order)
    (new_data : list (string * value)) (raw_payload : WebhookPayload)
    (db : database) : result (database * Order) :=
  let '(order', changes) := fold_left update_field new_data (order, []) in
  match changes with
  | [] => Ok (db, order')
  | _ :: _ =>
      if existsb (fun c => sqlite_overflows c.2) changes
      then Raise "OverflowError"
      else
      let order' := refresh changes order' in
      let order' := setattr order' "updated_at" (VDatetime t_db) in
      let oid := match getattr order "id" with VInt i => i | _ => 0 end in
      let event := mkOrderEvent oid "updated" changes raw_payload "webhook" t_db in
      Ok (mkDatabase (commit_order order' db.(orders)) (db.(events) ++ [event]),
          order')
  end.

(** [OrderProcessor.create_order_from_webhook].  [t_map] is the clock read by
    the mapping (the default of [order_date]), [t_db] the clock read by the
    database layer. *)
Definition create_order_from_webhook (t_map t_db : datetime)
    (payload : WebhookPayload) (db : database) : result (database * Order) :=
  let order_data := _map_webhook_to_order t_map payload in
  existing_order ← _get_order_by_number db payload.(order_number);
  match existing_order with
  | Some o => _update_existing_order t_db o order_data payload db
  | None => _create_new_order t_db order_data payload db
  end.

(** ** Alias tables *)

(** What a chain [a or b or ... or z] computes over an ordered alias list:
    the first truthy entry, and the last entry when none is truthy. *)
Fixpoint first_truthy (l : list value) : value :=
  match l with
  | [] => VNone
  | v :: r =>
      match r with
      | [] => v
      | _ :: _ => if truthy v then v else first_truthy r
      end
  end.

(** The resolution rule in the words of the specification: the first entry
    that is present and not null. *)
Fixpoint spec_first_present (l : list value) : value :=
  match l with
  | [] => VNone
  | VNone :: r => spec_first_present r
  | v :: _ => v
  end.

(** A payload for examples: the business key, and the fields the examples
    vary; every other field is absent. *)
Definition example_payload (k : string) (product_ : option string)
    (price_ unit_price_ : option float) (quantity_ : option Z)
    (reference_ reference_number_ tracking_ tracking_number_ : option string)
    (order_date_ : option datetime) : WebhookPayload :=
  {| order_number := k;
     product := product_; product_name := None; item := None;
     price := price_; unit_price := unit_price_;
     total := None; total_price := None; amount := None;
     commission := None; profit := None;
     quantity := quantity_; qty := None;
     email := None; customer_email := None;
     customer_name := None; name := None;
     profile := None; proxy_list := None; proxy := None;
     reference := reference_; reference_number := reference_number_;
     status := None; order_status := None;
     tracking := tracking_; tracking_number := tracking_number_;
     shipment_id := None;
     order_date := Naive <$> order_date_; created_at := None; date := None;
     order_time := None; payment_method := None; shipping_address := None;
     shipping_method := None; notes := None |}.

(** Both spellings of the tracking number and of the reference number, with
    different values. *)
Definition two_aliases_payload : WebhookPayload :=
  example_payload "A1" None None None None
    (Some "R-short") (Some "R-canonical")
    (Some "T-short") (Some "T-canonical") None.

(** An explicit zero price next to a unit price, and an explicit zero
    quantity. *)
Definition zero_price_payload : WebhookPayload :=
  example_payload "A1" (Some "") (Some 0%float) (Some 5%float) (Some 0)
    None None None None None.

(** A field as the alias chains read it: a falsy value is no value. *)
Definition unless_falsy {A : Type} (inj : option A -> value) (o : option A)
  : option A :=
  if truthy (inj o) then o else None.

(** The payload without the falsy values of its alias fields.  The last
    alias of a chain that ends without a literal default is left as it is:
    [amount], [customer_email], [name], [proxy], [reference_number] and
    [shipment_id]; so are the dates, which are never falsy, and the fields
    that have no alias. *)
Definition clear_falsy (p : WebhookPayload) : WebhookPayload :=
  {| order_number := p.(order_number);
     product := unless_falsy ostr p.(product);
     product_name := unless_falsy ostr p.(product_name);
     item := unless_falsy ostr p.(item);
     price := unless_falsy ofloat p.(price);
     unit_price := unless_falsy ofloat p.(unit_price);
     total := unless_falsy ofloat p.(total);
     total_price := unless_falsy ofloat p.(total_price);
     amount := p.(amount);
     commission := unless_falsy ofloat p.(commission);
     profit := unless_falsy ofloat p.(profit);
     quantity := unless_falsy oint p.(quantity);
     qty := unless_falsy oint p.(qty);
     email := unless_falsy ostr p.(email);
     customer_email := p.(customer_email);
     customer_name := unless_falsy ostr p.(customer_name);
     name := p.(name);
     profile := p.(profile);
     proxy_list := unless_falsy ostr p.(proxy_list);
     proxy := p.(proxy);
     reference := unless_falsy ostr p.(reference);
     reference_number := p.(reference_number);
     status := unless_falsy ostr p.(status);
     order_status := unless_falsy ostr p.(order_status);
     tracking := unless_falsy ostr p.(tracking);
     tracking_number := unless_falsy ostr p.(tracking_number);
     shipment_id := p.(shipment_id);
     order_date := p.(order_date);
     created_at := p.(created_at);
     date := p.(date);
     order_time := p.(order_time);
     payment_method := p.(payment_method);
     shipping_address := p.(shipping_address);
     shipping_method := p.(shipping_method);
     notes := p.(notes) |}.

(** A payload whose only amount is an explicit zero under [amount], the
    last alias of the total, and whose only name is an empty string under
    [name], the last alias of the customer name. *)
Definition falsy_last_alias_payload : WebhookPayload :=
  {| order_number := "A1";
     product := None; product_name := None; item := None;
     price := None; unit_price := None;
     total := None; total_price := None; amount := Some 0%float;
     commission := None; profit := None;
     quantity := None; qty := None;
     email := None; customer_email := None;
     customer_name := None; name := Some "";
     profile := None; proxy_list := None; proxy := None;
     reference := None; reference_number := None;
     status := None; order_status := None;
     tracking := None; tracking_number := None; shipment_id := None;
     order_date := None; created_at := None; date := None;
     order_time := None; payment_method := None; shipping_address := None;
     shipping_method := None; notes := None |}.

(** A price with three decimals. *)
Definition three_decimals_payload : WebhookPayload :=
  example_payload "A1" (Some "Widget") (Some 9.999%float) None None
    None None None None (Some 1000).

(** ** schemas.py: [OrderBase.round_currency] *)

(** The integer nearest to [m * 2^e * 100], ties to even. *)
Definition round_half_even_cents (neg : bool) (m : positive) (e : Z) : Z :=
  let num := Z.pos m * 100 * (if 0 <=? e then 2 ^ e else 1) in
  let den := if 0 <=? e then 1 else 2 ^ (- e) in
  let q := num / den in
  let r := num mod den in
  let n := if 2 * r <? den then q
           else if den <? 2 * r then q + 1
           else if Z.even q then q else q + 1 in
  if neg then - n else n.

Definition float_of_Z (z : Z) : float :=
  SF2Prim (binary_normalize prec emax z 0 false).

(** [round(v, 2)]: the binary64 number nearest to the two-decimal number
    nearest to [v].  Cents below [2^53] are exact in binary64, and the
    division is correctly rounded, so the quotient below is that number. *)
Definition py_round2 (v : float) : float :=
  match Prim2SF v with
  | S754_finite s m e =>
      let n := round_half_even_cents s m e in
      if Z.abs n <? 2 ^ 53 then PrimFloat.div (float_of_Z n) 100%float else v
  | _ => v
  end.

Definition round_currency (v : option float) : option float :=
  match v with
  | Some x => Some (py_round2 x)
  | None => None
  end.

(** ** webhook_parser.py: strings and regular expressions *)

(** The line feed. *)
Definition nl : ascii := ascii_of_nat 10.

Definition is_digit (c : ascii) : bool :=
  let n := nat_of_ascii c in ((48 <=? n)%nat && (n <=? 57)%nat)%bool.

Definition is_digit_or_comma (c : ascii) : bool :=
  (is_digit c || Ascii.eqb c ",")%bool.

(** The characters [str.strip()] removes, on the ASCII range. *)
Definition is_space (c : ascii) : bool :=
  let n := nat_of_ascii c in
  (((9 <=? n)%nat && (n <=? 13)%nat) || ((28 <=? n)%nat && (n <=? 32)%nat))%bool.

Fixpoint lstrip_with (f : ascii -> bool) (s : string) : string :=
  match s with
  | String c r => if f c then lstrip_with f r else s
  | EmptyString => s
  end.

Fixpoint rstrip_with (f : ascii -> bool) (s : string) : string :=
  match s with
  | String c r =>
      match rstrip_with f r with
      | EmptyString => if f c then EmptyString else String c EmptyString
      | r' => String c r'
      end
  | EmptyString => EmptyString
  end.

Definition strip (s : string) : string :=
  rstrip_with is_space (lstrip_with is_space s).

(** [s.replace(',', '')]. *)
Fixpoint remove_commas (s : string) : string :=
  match s with
  | String c r =>
      if Ascii.eqb c "," then remove_commas r else String c (remove_commas r)
  | EmptyString => EmptyString
  end.

(** [s.startswith(p)]; the rest of [s] on success. *)
Fixpoint strip_prefix (p s : string) : option string :=
  match p, s with
  | EmptyString, _ => Some s
  | String a p', String b s' =>
      if Ascii.eqb a b then strip_prefix p' s' else None
  | String _ _, EmptyString => None
  end.

(** [p in s] for strings. *)
Fixpoint str_in (p s : string) : bool :=
  match strip_prefix p s with
  | Some _ => true
  | None =>
      match s with
      | String _ s' => str_in p s'
      | EmptyString => false
      end
  end.

Fixpoint last_char (s : string) : option ascii :=
  match s with
  | EmptyString => None
  | String c EmptyString => Some c
  | String _ r => last_char r
  end.

(** The fragment of Python's [re] syntax the parser uses.  Every pattern is
    compiled with [re.IGNORECASE], so a literal character matches either
    case (characters are taken from the ASCII range); the patterns have one
    capturing group. *)
Inductive regex : Type :=
| Eps                            (* the empty pattern *)
| Chr (c : ascii)                (* a literal character *)
| Seq (r1 r2 : regex)            (* r1 r2 *)
| Alt (r1 r2 : regex)            (* (?:r1|r2) *)
| Opt (r : regex)                (* r?, greedy *)
| Plus (cls : ascii -> bool)     (* [cls]+, greedy *)
| Star (cls : ascii -> bool)     (* [cls]*, greedy *)
| LazyDot                        (* .*? *)
| Group (r : regex)              (* ( r ) *)
| Eos.                           (* $ *)

Section Matcher.
Context {R : Type}.

(** The continuation receives the rest of the subject and the text of the
    group; [None] makes the matcher backtrack. *)
Definition cont : Type := string -> option string -> option R.

Fixpoint star (cls : ascii -> bool) (s : string) (g : option string)
    (k : cont) : option R :=
  match s with
  | String d s' =>
      if cls d then
        match star cls s' g k with
        | Some x => Some x
        | None => k s g
        end
      else k s g
  | EmptyString => k s g
  end.

Fixpoint lazy_dot (s : string) (g : option string) (k : cont) : option R :=
  match k s g with
  | Some x => Some x
  | None =>
      match s with
      | String d s' => if Ascii.eqb d nl then None else lazy_dot s' g k
      | EmptyString => None
      end
  end.

(** The text consumed between the subject [s] and its suffix [s']. *)
Definition consumed (s s' : string) : string :=
  substring 0 (String.length s - String.length s') s.

Fixpoint rmatch (r : regex) (s : string) (g : option string) (k : cont)
  : option R :=
  match r with
  | Eps => k s g
  | Chr c =>
      match s with
      | String d s' =>
          if Ascii.eqb (lower_ascii d) (lower_ascii c) then k s' g else None
      | EmptyString => None
      end
  | Seq r1 r2 => rmatch r1 s g (fun s' g' => rmatch r2 s' g' k)
  | Alt r1 r2 =>
      match rmatch r1 s g k with
      | Some x => Some x
      | None => rmatch r2 s g k
      end
  | Opt r1 =>
      match rmatch r1 s g k with
      | Some x => Some x
      | None => k s g
      end
  | Plus cls =>
      match s with
      | String d s' => if cls d then star cls s' g k else None
      | EmptyString => None
      end
  | Star cls => star cls s g k
  | LazyDot => lazy_dot s g k
  | Group r1 => rmatch r1 s g (fun s' _ => k s' (Some (consumed s s')))
  | Eos =>
      (* the end of the subject, or just before a final line feed *)
      match s with
      | EmptyString => k s g
      | String d EmptyString => if Ascii.eqb d nl then k s g else None
      | _ => None
      end
  end.
End Matcher.

(** [re.search(r, s, re.IGNORECASE)]: the leftmost match; the result is
    [group(1)]. *)
Fixpoint search (r : regex) (s : string) : option string :=
  match rmatch r s None (fun _ g => Some (default EmptyString g)) with
  | Some x => Some x
  | None =>
      match s with
      | String _ s' => search r s'
      | EmptyString => None
      end
  end.

Infix "+++" := Seq (at level 60, right associativity).

(** A literal word. *)
Fixpoint lit (w : string) : regex :=
  match w with
  | EmptyString => Eps
  | String c w' => Chr c +++ lit w'
  end.

(** The tail [(.*?)(?:\n|$)] of the label patterns: the rest of the line. *)
Definition rest_of_line : regex := Group LazyDot +++ Alt (Chr nl) Eos.

(** The tail of the amount patterns: an optional dollar sign, then the group
    of digits and commas, an optional point and digits. *)
Definition amount_re : regex :=
  Opt (Chr "$") +++
  Group (Plus is_digit_or_comma +++ Opt (Chr ".") +++ Star is_digit).

(** The patterns of [parse_refract_message], in the order of the source. *)
Definition product_re : regex := lit "Product" +++ Chr nl +++ rest_of_line.
Definition price_re : regex := lit "Price" +++ Chr nl +++ amount_re.
Definition profile_re : regex := lit "Profile" +++ Chr nl +++ rest_of_line.
Definition proxy_re : regex :=
  Alt (lit "Proxy Details") (Alt (lit "Proxy List") (lit "Proxy")) +++
  Chr nl +++ rest_of_line.
Definition order_re : regex :=
  lit "Order Number" +++ Chr nl +++ Opt (Chr "#") +++ rest_of_line.
Definition email_re : regex := lit "Email" +++ Chr nl +++ rest_of_line.
Definition quantity_re : regex :=
  lit "Quantity" +++ Chr nl +++ Group (Plus is_digit).
Definition total_re : regex := lit "Total" +++ Chr nl +++ amount_re.
Definition commission_re : regex :=
  lit "Commission" +++ Chr nl +++ amount_re.
Definition tracking_re : regex :=
  lit "Tracking" +++ Opt (lit " Number") +++ Chr nl +++ rest_of_line.
Definition reference_re : regex :=
  lit "Reference" +++ Opt (lit " #") +++ Chr nl +++ rest_of_line.
Definition status_re : regex := lit "Status" +++ Chr nl +++ rest_of_line.
Definition payment_re : regex :=
  lit "Payment" +++ Opt (lit " Method") +++ Chr nl +++ rest_of_line.
Definition shipping_address_re : regex :=
  lit "Shipping Address" +++ Chr nl +++ rest_of_line.
Definition shipping_method_re : regex :=
  lit "Shipping Method" +++ Chr nl +++ rest_of_line.

(** ** webhook_parser.py: numbers and times *)

(** The number written by a string of decimal digits. *)
Fixpoint digits_value (acc : Z) (s : string) : Z :=
  match s with
  | String c r => digits_value (10 * acc + Z.of_nat (nat_of_ascii c - 48)) r
  | EmptyString => acc
  end.

Fixpoint all_digits (s : string) : bool :=
  match s with
  | String c r => (is_digit c && all_digits r)%bool
  | EmptyString => true
  end.

(** The binary64 number nearest to [n / 10^k] (ties to even): the quotient
    is taken with more than 64 bits and a sticky last bit, then rounded. *)
Definition float_of_decimal (n k : Z) : float :=
  let s := 64 + 4 * k in
  let num := n * 2 ^ s in
  let den := 10 ^ k in
  let q := num / den in
  let m := if num mod den =? 0 then q else Z.lor q 1 in
  SF2Prim (binary_normalize prec emax m (- s) false).

(** Splits at the first point. *)
Fixpoint split_point (s : string) : string * option string :=
  match s with
  | EmptyString => (EmptyString, None)
  | String c r =>
      if Ascii.eqb c "." then (EmptyString, Some r)
      else let '(a, b) := split_point r in (String c a, b)
  end.

(** [float(s)] on the strings an amount group yields once the commas are
    removed: digits, an optional point, digits.  Python raises [ValueError]
    when there is no digit at all. *)
Definition py_float (s : string) : result float :=
  let '(ip, fp) := split_point s in
  let fp := default EmptyString fp in
  if (all_digits ip && all_digits fp &&
      negb (String.eqb (ip ++ fp)%string EmptyString))%bool
  then Ok (float_of_decimal (digits_value 0 (ip ++ fp)%string)
             (Z.of_nat (String.length fp)))
  else Raise "ValueError: could not convert string to float".

(** The longest run of digits [int] converts
    ([sys.get_int_max_str_digits()]). *)
Definition int_max_str_digits : nat := 4300.

(** [int(s)] on a non-empty string of digits: a string of more than 4300
    digits is refused. *)
Definition py_int (s : string) : result Z :=
  if (all_digits s && negb (String.eqb s EmptyString))%bool
  then
    if (int_max_str_digits <? String.length s)%nat
    then Raise "ValueError: Exceeds the limit (4300 digits) for integer string conversion"
    else Ok (digits_value 0 s)
  else Raise "ValueError: invalid literal for int()".

Definition two_digits (n : Z) : string :=
  String (ascii_of_nat (48 + Z.to_nat (n / 10)))
    (String (ascii_of_nat (48 + Z.to_nat (n mod 10))) EmptyString).

(** [t.strftime('%I:%M:%S %p')]: the twelve-hour clock time. *)
Definition strftime_12h (t : datetime) : string :=
  let sod := (t / 1000000) mod 86400 in
  let h := sod / 3600 in
  let m := (sod / 60) mod 60 in
  let s := sod mod 60 in
  let h12 := if h mod 12 =? 0 then 12 else h mod 12 in
  let ampm := if h <? 12 then "AM" else "PM" in
  (two_digits h12 ++ ":" ++ two_digits m ++ ":" ++ two_digits s ++ " " ++
   ampm)%string.

(** ** webhook_parser.py: [parse_refract_message] *)

(** [d[k] = v]: an existing key keeps its place. *)
Fixpoint dict_set (d : list (string * value)) (k : string) (v : value)
  : list (string * value) :=
  match d with
  | [] => [(k, v)]
  | (k', v') :: r =>
      if String.eqb k' k then (k', v) :: r else (k', v') :: dict_set r k v
  end.

(** The [status_map] of the text parser (it has no [refunded]). *)
Definition text_status_map : list (string * string) :=
  [("pending", "pending"); ("processing", "processing");
   ("shipped", "shipped"); ("delivered", "delivered");
   ("cancelled", "cancelled"); ("verified", "verified");
   ("unverified", "unverified")].

(** A label whose value is the stripped rest of the line. *)
Definition set_line (r : regex) (key : string) (text : string)
    (data : list (string * value)) : list (string * value) :=
  match search r text with
  | Some g => dict_set data key (VStr (strip g))
  | None => data
  end.

(** [parse_refract_message].  [now] is the reading of [datetime.utcnow()]. *)
Definition parse_refract_message (now : datetime) (text : string)
  : result (list (string * value)) :=
  let data := [] in
  let data := set_line product_re "product" text data in
  data ← match search price_re text with
         | Some g =>
             f ← py_float (remove_commas g);
             Ok (dict_set (dict_set data "price" (VFloat f)) "total" (VFloat f))
         | None => Ok data
         end;
  let data := set_line profile_re "profile" text data in
  let data := set_line proxy_re "proxy_list" text data in
  let data := match search order_re text with
              | Some g =>
                  let order_num := strip g in
                  dict_set data "order_number"
                    (VStr (lstrip_with (Ascii.eqb "#") order_num))
              | None => data
              end in
  let data := set_line email_re "email" text data in
  data ← match search quantity_re text with
         | Some g => q ← py_int g; Ok (dict_set data "quantity" (VInt q))
         | None => Ok (dict_set data "quantity" (VInt 1))
         end;
  data ← match search total_re text with
         | Some g =>
             f ← py_float (remove_commas g);
             Ok (dict_set data "total" (VFloat f))
         | None => Ok data
         end;
  data ← match search commission_re text with
         | Some g =>
             f ← py_float (remove_commas g);
             Ok (dict_set data "commission" (VFloat f))
         | None => Ok data
         end;
  let data := set_line tracking_re "tracking_number" text data in
  let data := set_line reference_re "reference_number" text data in
  let data := match search status_re text with
              | Some g =>
                  dict_set data "status"
                    (str_dict_get text_status_map (lower (strip g)))
              | None => data
              end in
  let data := set_line payment_re "payment_method" text data in
  let data := set_line shipping_address_re "shipping_address" text data in
  let data := set_line shipping_method_re "shipping_method" text data in
  let data := dict_set data "order_date" (VDatetime now) in
  let data := dict_set data "order_time" (VStr (strftime_12h now)) in
  Ok data.

(** ** webhook_parser.py: [is_text_webhook] and [parse_discord_embed] *)

Definition indicators : list string :=
  [ "Successful Checkout";
    ("Product" ++ String nl "")%string;
    ("Price" ++ String nl "")%string;
    ("Order Number" ++ String nl "")%string;
    ("Email" ++ String nl "")%string ].

Definition is_text_webhook (content : string) : bool :=
  existsb (fun indicator => str_in indicator content) indicators.

(** [key in v] for a string [key]; containers that are not iterable raise. *)
Definition py_contains (key : string) (v : value) : result bool :=
  match v with
  | VDict d => Ok (bool_decide (is_Some (dict_get d key)))
  | VList l => Ok (existsb (fun x => py_eq (VStr key) x) l)
  | VStr s => Ok (str_in key s)
  | _ => Raise "TypeError: argument is not iterable"
  end.

(** [v[key]] for a string [key]. *)
Definition py_getitem (v : value) (key : string) : result value :=
  match v with
  | VDict d =>
      match dict_get d key with
      | Some x => Ok x
      | None => Raise "KeyError"
      end
  | _ => Raise "TypeError: indices must be integers"
  end.

(** [v[0]]. *)
Definition py_first (v : value) : result value :=
  match v with
  | VList (x :: _) => Ok x
  | VList [] => Raise "IndexError"
  | VStr (String c _) => Ok (VStr (String c EmptyString))
  | VStr EmptyString => Raise "IndexError"
  | VDict _ => Raise "KeyError"
  | _ => Raise "TypeError: object is not subscriptable"
  end.

(** [len(v)]. *)
Definition py_len (v : value) : result Z :=
  match v with
  | VList l => Ok (Z.of_nat (length l))
  | VStr s => Ok (Z.of_nat (String.length s))
  | VDict d => Ok (Z.of_nat (length d))
  | _ => Raise "TypeError: object has no len()"
  end.

Fixpoint chars (s : string) : list value :=
  match s with
  | String c r => VStr (String c EmptyString) :: chars r
  | EmptyString => []
  end.

(** The items a [for] loop over [v] visits. *)
Definition py_iter (v : value) : result (list value) :=
  match v with
  | VList l => Ok l
  | VStr s => Ok (chars s)
  | VDict d => Ok (List.map (fun kv => VStr (fst kv)) d)
  | _ => Raise "TypeError: object is not iterable"
  end.

(** [sep.join(parts)]: every part has to be a string. *)
Fixpoint py_join (sep : string) (parts : list value) : result string :=
  match parts with
  | [] => Ok EmptyString
  | [VStr s] => Ok s
  | VStr s :: r => t ← py_join sep r; Ok (s ++ sep ++ t)%string
  | _ => Raise "TypeError: sequence item: expected str instance"
  end.

(** The body of the loop over [embed['fields']]. *)
Definition field_parts (field : value) : result (list value) :=
  has_name ← py_contains "name" field;
  a ← (if has_name : bool then x ← py_getitem field "name"; Ok [x] else Ok []);
  has_value ← py_contains "value" field;
  b ← (if has_value : bool then x ← py_getitem field "value"; Ok [x] else Ok []);
  Ok (a ++ b).

Fixpoint fields_parts (fields : list value) : result (list value) :=
  match fields with
  | [] => Ok []
  | f :: r => a ← field_parts f; b ← fields_parts r; Ok (a ++ b)
  end.

(** The [text_parts] list built from the first embed. *)
Definition embed_text_parts (embed : value) : result (list value) :=
  has_author ← py_contains "author" embed;
  author ← (if has_author : bool then
              a ← py_getitem embed "author";
              has_name ← py_contains "name" a;
              if has_name : bool then x ← py_getitem a "name"; Ok [x] else Ok []
            else Ok []);
  has_title ← py_contains "title" embed;
  title ← (if has_title : bool
           then x ← py_getitem embed "title"; Ok [x] else Ok []);
  has_description ← py_contains "description" embed;
  description ← (if has_description : bool
                 then x ← py_getitem embed "description"; Ok [x] else Ok []);
  has_fields ← py_contains "fields" embed;
  fields ← (if has_fields : bool then
              fs ← py_getitem embed "fields";
              items ← py_iter fs;
              fields_parts items
            else Ok []);
  Ok (author ++ title ++ description ++ fields).

(** [parse_discord_embed]: a payload without [embeds] is returned as it
    is. *)
Definition parse_discord_embed (now : datetime) (payload : value)
  : result value :=
  match payload with
  | VDict d =>
      match dict_get d "embeds" with
      | None => Ok payload
      | Some embeds =>
          if negb (truthy embeds) then
            Raise "ValueError: Discord webhook has no embeds"
          else
            n ← py_len embeds;
            if n =? 0 then Raise "ValueError: Discord webhook has no embeds"
            else
              embed ← py_first embeds;
              text_parts ← embed_text_parts embed;
              full_text ← py_join (String nl "") text_parts;
              data ← parse_refract_message now full_text;
              Ok (VDict data)
      end
  | _ => Ok payload
  end.

(** ** webhook_parser.py: [parse_webhook_content] *)

Section Normaliser.
(** [json.loads] belongs to Python's library: it is a parameter. *)
Variable json_loads : string -> result value.

(** The body of each of the three [try] blocks. *)
Definition try_json (now : datetime) (content : string) : result value :=
  payload ← json_loads content;
  match payload with
  | VDict d =>
      if bool_decide (is_Some (dict_get d "embeds"))
      then parse_discord_embed now payload
      else Ok payload
  | _ => Ok payload
  end.

Definition looks_like_json (content : string) : bool :=
  let content_stripped := strip content in
  (bool_decide (is_Some (strip_prefix "{" content_stripped)) &&
   bool_decide (last_char content_stripped = Some "}"%char))%bool.

Definition says_json (content_type : option string) : bool :=
  match content_type with
  | Some ct => (negb (String.eqb ct "") && str_in "json" (lower ct))%bool
  | None => false
  end.

(** [parse_webhook_content]: an exception inside a [try] block is dropped
    and the next format is tried; only the last block re-raises. *)
Definition parse_webhook_content (now : datetime) (content : string)
    (content_type : option string) : result value :=
  let fallback :=
    if is_text_webhook content then
      data ← parse_refract_message now content; Ok (VDict data)
    else
      match try_json now content with
      | Ok v => Ok v
      | Raise _ =>
          Raise "Could not parse webhook content as JSON or text format"
      end in
  let second :=
    if looks_like_json content then
      match try_json now content with
      | Ok v => Ok v
      | Raise _ => fallback
      end
    else fallback in
  if says_json content_type then
    match try_json now content with
    | Ok v => Ok v
    | Raise _ => second
    end
  else second.
End Normaliser.

(** ** schemas.py: validation of [WebhookPayload] *)

Section Validation.
(** The field validators of the validation library, one per annotated
    type ([str], [float], [int], [EmailStr], [datetime]). *)
Variable validate_str : value -> result string.
Variable validate_float : value -> result float.
Variable validate_int : value -> result Z.
Variable validate_email : value -> result string.
Variable validate_datetime : value -> result pydatetime.

(** A field annotated [Optional[T] = None]. *)
Definition optional {T : Type} (validate : value -> result T)
    (d : list (string * value)) (key : string) : result (option T) :=
  match dict_get d key with
  | None | Some VNone => Ok None
  | Some v => x ← validate v; Ok (Some x)
  end.

(** A field annotated [T] without a default: it has to be there. *)
Definition required {T : Type} (validate : value -> result T)
    (d : list (string * value)) (key : string) : result T :=
  match dict_get d key with
  | None => Raise "ValidationError: Field required"
  | Some v => validate v
  end.

(** The constructor call of [WebhookPayload] with the parsed dictionary as
    keyword arguments. *)
Definition validate_WebhookPayload (payload_dict : value)
  : result WebhookPayload :=
  match payload_dict with
  | VDict d =>
      let str := optional validate_str d in
      let flt := optional validate_float d in
      let int := optional validate_int d in
      let eml := optional validate_email d in
      let dtm := optional validate_datetime d in
      f1 ← required validate_str d "order_number";
      f2 ← str "product"; f3 ← str "product_name"; f4 ← str "item";
      f5 ← flt "price"; f6 ← flt "unit_price";
      f7 ← flt "total"; f8 ← flt "total_price"; f9 ← flt "amount";
      f10 ← flt "commission"; f11 ← flt "profit";
      f12 ← int "quantity"; f13 ← int "qty";
      f14 ← eml "email"; f15 ← eml "customer_email";
      f16 ← str "customer_name"; f17 ← str "name";
      f18 ← str "profile"; f19 ← str "proxy_list"; f20 ← str "proxy";
      f21 ← str "reference"; f22 ← str "reference_number";
      f23 ← str "status"; f24 ← str "order_status";
      f25 ← str "tracking"; f26 ← str "tracking_number";
      f27 ← str "shipment_id";
      f28 ← dtm "order_date"; f29 ← dtm "created_at"; f30 ← dtm "date";
      f31 ← str "order_time";
      f32 ← str "payment_method"; f33 ← str "shipping_address";
      f34 ← str "shipping_method"; f35 ← str "notes";
      Ok (mkWebhookPayload f1 f2 f3 f4 f5 f6 f7 f8 f9 f10 f11 f12 f13 f14
            f15 f16 f17 f18 f19 f20 f21 f22 f23 f24 f25 f26 f27 f28 f29
            f30 f31 f32 f33 f34 f35)
  | _ => Raise "TypeError: argument after ** must be a mapping"
  end.
End Validation.

(** Validators that accept exactly the values that already have the
    annotated type (an integer is accepted for a float). *)
Definition exact_str (v : value) : result string :=
  match v with VStr s => Ok s | _ => Raise "ValidationError: str" end.
Definition exact_float (v : value) : result float :=
  match v with
  | VFloat f => Ok f
  | VInt z => Ok (float_of_Z z)
  | _ => Raise "ValidationError: float"
  end.
Definition exact_int (v : value) : result Z :=
  match v with VInt z => Ok z | _ => Raise "ValidationError: int" end.
Definition exact_datetime (v : value) : result pydatetime :=
  match v with VDatetime t => Ok t | _ => Raise "ValidationError: datetime" end.

(** ** webhook_queue.py: [WebhookQueue] *)

(** The dictionary the acceptor enqueues; the worker reads two of its
    keys. *)
Record webhook_data : Type := mkWebhookData {
  body : string;
  content_type : string
}.

(** A queued message.  [message_id] keeps the two numbers the source
    formats into the identifier (the enqueue time and the value of
    [total_received]); [failed_at] and [error] are the keys a dead letter
    adds. *)
Record message : Type := mkMessage {
  data : webhook_data;
  received_at : datetime;
  retry_count : Z;
  message_id : datetime * Z;
  failed_at : option datetime;
  error : option string
}.

Record WebhookQueue : Type := mkWebhookQueue {
  queue : list message;
  dead_letter_queue : list message;
  max_workers : Z;
  max_retries : Z;
  is_running : bool;
  total_received : Z;
  total_processed : Z;
  total_failed : Z;
  queue_size_peak : Z;
  processing_times : list Z
}.

(** The capacities fixed in [__init__]. *)
Definition queue_maxsize : nat := 10000.
Definition dead_letter_maxlen : nat := 1000.
Definition processing_times_maxlen : nat := 100.

Definition new_WebhookQueue (max_workers max_retries : Z) : WebhookQueue :=
  mkWebhookQueue [] [] max_workers max_retries false 0 0 0 0 [].

(** [deque(maxlen=n).append(x)]: the oldest entries make room. *)
Definition deque_append {A : Type} (maxlen : nat) (l : list A) (x : A)
  : list A :=
  let l' := l ++ [x] in drop (length l' - maxlen) l'.

(** [WebhookQueue.enqueue]: the put waits one second for room and times
    out when the queue stays full. *)
Definition enqueue (now : datetime) (wd : webhook_data) (q : WebhookQueue)
  : WebhookQueue * bool :=
  let m := mkMessage wd now 0 (now, q.(total_received)) None None in
  if (length q.(queue) <? queue_maxsize)%nat then
    let queue' := q.(queue) ++ [m] in
    let current_size := Z.of_nat (length queue') in
    (mkWebhookQueue queue' q.(dead_letter_queue) q.(max_workers)
       q.(max_retries) q.(is_running) (q.(total_received) + 1)
       q.(total_processed) q.(total_failed)
       (if q.(queue_size_peak) <? current_size
        then current_size else q.(queue_size_peak))
       q.(processing_times), true)
  else
    (mkWebhookQueue q.(queue) q.(dead_letter_queue) q.(max_workers)
       q.(max_retries) q.(is_running) q.(total_received)
       q.(total_processed) (q.(total_failed) + 1) q.(queue_size_peak)
       q.(processing_times), false).

(** The clock readings of one iteration of a worker. *)
Record clock : Type := mkClock {
  t_start : datetime;
  t_parse : datetime;
  t_map : datetime;
  t_db : datetime;
  t_end : datetime
}.

(** [message["retry_count"] += 1]. *)
Definition retried (m : message) : message :=
  mkMessage m.(data) m.(received_at) (m.(retry_count) + 1) m.(message_id)
    m.(failed_at) m.(error).

(** The dictionary appended to the dead-letter deque: the message with the
    time of the failure and the text of the exception. *)
Definition dead_letter_of (now : datetime) (e : string) (m : message)
  : message :=
  mkMessage m.(data) m.(received_at) m.(retry_count) m.(message_id)
    (Some now) (Some e).

(** What an iteration of the worker loop did. *)
Inductive outcome : Type :=
| Idle
| Committed (m : message)
| Requeued (m : message)
| DeadLettered (m : message).

Section Worker.
(** The store the processing step works on, and the processing step: it
    returns the new store or raises, leaving the store as it was. *)
Context {W : Type}.
Variable process : clock -> message -> W -> result W.

(** The body of the loop of [WebhookQueue._worker].  An empty queue makes
    the wait time out and the loop continue. *)
Definition worker_iteration (clk : clock) (q : WebhookQueue) (w : W)
  : WebhookQueue * W * outcome :=
  match q.(queue) with
  | [] => (q, w, Idle)
  | m :: rest =>
      match process clk m w with
      | Ok w' =>
          let processing_time := clk.(t_end) - clk.(t_start) in
          (mkWebhookQueue rest q.(dead_letter_queue) q.(max_workers)
             q.(max_retries) q.(is_running) q.(total_received)
             (q.(total_processed) + 1) q.(total_failed)
             q.(queue_size_peak)
             (deque_append processing_times_maxlen q.(processing_times)
                processing_time),
           w', Committed m)
      | Raise e =>
          let m := retried m in
          if m.(retry_count) <=? q.(max_retries) then
            (mkWebhookQueue (rest ++ [m]) q.(dead_letter_queue)
               q.(max_workers) q.(max_retries) q.(is_running)
               q.(total_received) q.(total_processed) q.(total_failed)
               q.(queue_size_peak) q.(processing_times),
             w, Requeued m)
          else
            let dead := dead_letter_of clk.(t_end) e m in
            (mkWebhookQueue rest
               (deque_append dead_letter_maxlen q.(dead_letter_queue) dead)
               q.(max_workers) q.(max_retries) q.(is_running)
               q.(total_received) q.(total_processed)
               (q.(total_failed) + 1) q.(queue_size_peak)
               q.(processing_times),
             w, DeadLettered dead)
      end
  end.

(** [WebhookQueue._worker]: one iteration per clock reading, for as long
    as [is_running] holds. *)
Fixpoint _worker (clks : list clock) (q : WebhookQueue) (w : W)
  : WebhookQueue * W * list outcome :=
  match clks with
  | [] => (q, w, [])
  | clk :: clks' =>
      if q.(is_running) then
        let '(q1, w1, o) := worker_iteration clk q w in
        let '(q2, w2, os) := _worker clks' q1 w1 in
        (q2, w2, o :: os)
      else (q, w, [])
  end.
End Worker.

(** Python's [l[start:]]. *)
Definition slice_from {A : Type} (start : Z) (l : list A) : list A :=
  let n := Z.of_nat (length l) in
  let i := if start <? 0 then Z.max (start + n) 0 else Z.min start n in
  drop (Z.to_nat i) l.

(** [WebhookQueue.get_dead_letters]. *)
Definition get_dead_letters (limit : Z) (q : WebhookQueue) : list message :=
  slice_from (- limit) q.(dead_letter_queue).

(** [message["retry_count"] = 0]. *)
Definition reset_retry_count (m : message) : message :=
  mkMessage m.(data) m.(received_at) 0 m.(message_id) m.(failed_at) m.(error).

(** How a call of [retry_dead_letters] goes on: it returns the number of
    messages it put back, or it waits in [queue.put] for room in a full
    queue, holding the message it took off the deque. *)
Inductive retry_outcome : Type :=
| Retried (retried : Z)
| WaitingToPut (m : message) (retried : Z).

(** The loop of [retry_dead_letters], up to its return or to the first
    [put] that has to wait. *)
Fixpoint retry_loop (dead_letter_queue queue : list message) (retried : Z)
  : list message * list message * retry_outcome :=
  match dead_letter_queue with
  | [] => ([], queue, Retried retried)
  | m :: rest =>
      let m := reset_retry_count m in
      if (length queue <? queue_maxsize)%nat
      then retry_loop rest (queue ++ [m]) (retried + 1)
      else (rest, queue, WaitingToPut m retried)
  end.

(** [WebhookQueue.retry_dead_letters]: the dead letters go back to the
    queue, oldest first, with their counters reset. *)
Definition retry_dead_letters (q : WebhookQueue)
  : WebhookQueue * retry_outcome :=
  let '(dead, queue', out) := retry_loop q.(dead_letter_queue) q.(queue) 0 in
  (mkWebhookQueue queue' dead
     q.(max_workers) q.(max_retries) q.(is_running) q.(total_received)
     q.(total_processed) q.(total_failed) q.(queue_size_peak)
     q.(processing_times),
   out).

(** ** webhook_queue.py: [WebhookQueue._process_webhook] *)

Section Pipeline.
Variable json_loads : string -> result value.
Variable validate_str : value -> result string.
Variable validate_float : value -> result float.
Variable validate_int : value -> result Z.
Variable validate_email : value -> result string.
Variable validate_datetime : value -> result pydatetime.

(** Parse, validate, store.  The broadcast that follows the commit
    swallows its own exceptions and is left out. *)
Definition _process_webhook (clk : clock) (m : message) (db : database)
  : result database :=
  let webhook_data := m.(data) in
  let body_text := webhook_data.(body) in
  let content_type := webhook_data.(content_type) in
  payload_dict ← parse_webhook_content json_loads clk.(t_parse) body_text
                   (Some content_type);
  webhook_payload ← validate_WebhookPayload validate_str validate_float
                      validate_int validate_email validate_datetime
                      payload_dict;
  r ← create_order_from_webhook clk.(t_map) clk.(t_db) webhook_payload db;
  Ok (fst r).
End Pipeline.

(** ** Scenarios *)

(** The same payload applied twice, the second time later on the clock. *)
Definition apply_two (t1 : datetime) (p1 : WebhookPayload) (t2 : datetime)
    (p2 : WebhookPayload) (db : database) : result (database * database) :=
  r1 ← create_order_from_webhook t1 t1 p1 db;
  r2 ← create_order_from_webhook t2 t2 p2 (fst r1);
  Ok (fst r1, fst r2).

Definition replay (t1 t2 : datetime) (p : WebhookPayload) (db : database)
  : result (database * database) :=
  apply_two t1 p t2 p db.

(** What the event log says: the type and the changes of every event. *)
Definition event_log (db : database) : list (string * list change) :=
  List.map (fun e => (e.(event_type), e.(description))) db.(events).

(** A later message for the same order whose price differs from the stored
    one in the fourth decimal. *)
Definition four_decimals_payload : WebhookPayload :=
  example_payload "A1" (Some "Widget") (Some 9.9994%float) None None
    None None None None (Some 1000).

(** [p in s], ignoring case: how the label patterns look for a label. *)
Fixpoint ci_strip_prefix (p s : string) : option string :=
  match p, s with
  | EmptyString, _ => Some s
  | String a p', String b s' =>
      if Ascii.eqb (lower_ascii b) (lower_ascii a)
      then ci_strip_prefix p' s' else None
  | String _ _, EmptyString => None
  end.

Fixpoint ci_in (p s : string) : bool :=
  match ci_strip_prefix p s with
  | Some _ => true
  | None =>
      match s with
      | String _ s' => ci_in p s'
      | EmptyString => false
      end
  end.

(** A label is a word followed by a line feed. *)
Definition has_label (label text : string) : bool :=
  ci_in (label ++ String nl "")%string text.

(** Lines joined by line feeds. *)
Fixpoint lines (l : list string) : string :=
  match l with
  | [] => EmptyString
  | [x] => x
  | x :: r => (x ++ String nl (lines r))%string
  end.

(** The labelled text of the embed example. *)
Definition refract_text : string :=
  lines ["Product"; "A"; "Price"; "$9.99"; "Order Number"; "#123";
         "Email"; "e@x.com"].

(** An embed envelope whose first embed has that text as description. *)
Definition embed_envelope : value :=
  VDict [("embeds", VList [VDict [("description", VStr refract_text)]])].

(** A flat object with a price and no total. *)
Definition flat_priced_dict : list (string * value) :=
  [("order_number", VStr "A1"); ("price", VFloat 5%float)].

(** A labelled text without an order number. *)
Definition keyless_text : string := lines ["Product"; "A"].

(** [json.loads] as it behaves on a body that is not a JSON document. *)
Definition json_loads_rejecting (s : string) : result value :=
  Raise "JSONDecodeError".

(** A well-typed embed: author name, title, description, and fields given
    as pairs of a name and a value. *)
Definition embed_of (author title description : string)
    (fields : list (string * string)) : value :=
  VDict [("author", VDict [("name", VStr author)]);
         ("title", VStr title);
         ("description", VStr description);
         ("fields",
          VList (List.map (fun f => VDict [("name", VStr (fst f));
                                           ("value", VStr (snd f))]) fields))].

(** The strings the embed parser joins for such an embed. *)
Definition embed_strings (author title description : string)
    (fields : list (string * string)) : list string :=
  author :: title :: description ::
  List.concat (List.map (fun f => [fst f; snd f]) fields).

(** A queued message with the labelled text without order number as body. *)
Definition keyless_message : message :=
  mkMessage (mkWebhookData keyless_text "text/plain") 0 0 (0, 0) None None.

Definition clock0 : clock := mkClock 0 0 0 0 0.

(** ** Observations on a run of the worker *)

(** [WebhookQueue.start], without the tasks it spawns. *)
Definition start (q : WebhookQueue) : WebhookQueue :=
  mkWebhookQueue q.(queue) q.(dead_letter_queue) q.(max_workers)
    q.(max_retries) true q.(total_received) q.(total_processed)
    q.(total_failed) q.(queue_size_peak) q.(processing_times).

Definition same_id (mid : datetime * Z) (m : message) : bool :=
  (Z.eqb (fst m.(message_id)) (fst mid) &&
   Z.eqb (snd m.(message_id)) (snd mid))%bool.

(** How often the envelope [mid] was put back on the queue. *)
Fixpoint requeues_of (mid : datetime * Z) (os : list outcome) : nat :=
  match os with
  | [] => 0
  | Requeued m :: r =>
      if same_id mid m then S (requeues_of mid r) else requeues_of mid r
  | _ :: r => requeues_of mid r
  end.

(** The dead letters a run wrote, oldest first. *)
Fixpoint dead_lettered (os : list outcome) : list message :=
  match os with
  | [] => []
  | DeadLettered m :: r => m :: dead_lettered r
  | _ :: r => dead_lettered r
  end.

(** The attempts the queued messages still have before they are dead:
    the number of iterations after which the queue is drained. *)
Fixpoint work (max_retries : Z) (l : list message) : nat :=
  match l with
  | [] => 0
  | m :: r => Z.to_nat (max_retries + 1 - m.(retry_count)) + work max_retries r
  end.

(** The last [n] entries of a list. *)
Definition lastn {A : Type} (n : nat) (l : list A) : list A :=
  drop (length l - n) l.

(** The listing in the words of the specification: most recent first. *)
Definition spec_get_dead_letters (limit : nat) (q : WebhookQueue)
  : list message :=
  take limit (reverse q.(dead_letter_queue)).

(** A processing step that raises on every message. *)
Definition always_raises (e : string) (clk : clock) (m : message) (w : unit)
  : result unit :=
  Raise e.

(** Two accepted envelopes in a started queue that does not retry. *)
Definition two_message_queue : WebhookQueue :=
  fst (enqueue 20 (mkWebhookData "second" "text/plain")
         (fst (enqueue 10 (mkWebhookData "first" "text/plain")
                 (start (new_WebhookQueue 1 0))))).

(** That queue after two iterations of a worker whose processing raises. *)
Definition two_dead_letters : WebhookQueue :=
  (_worker (always_raises "boom")
     [mkClock 30 30 30 30 31; mkClock 40 40 40 40 41]
     two_message_queue tt).1.1.

(** One accepted envelope in a started queue with three retries. *)
Definition one_message_queue : WebhookQueue :=
  fst (enqueue 10 (mkWebhookData "body" "text/plain")
         (start (new_WebhookQueue 1 3))).

(** ** Conditions under which a replay is silent *)

(** The payload carries a date of its own. *)
Definition has_date (p : WebhookPayload) : bool :=
  (bool_decide (is_Some p.(order_date)) ||
   bool_decide (is_Some p.(created_at)) ||
   bool_decide (is_Some p.(date)))%bool.

Definition not_nan (o : option float) : bool :=
  match o with
  | Some f => PrimFloat.eqb f f
  | None => true
  end.

(** None of the amounts of the payload is NaN. *)
Definition nan_free (p : WebhookPayload) : bool :=
  (not_nan p.(price) && not_nan p.(unit_price) && not_nan p.(total) &&
   not_nan p.(total_price) && not_nan p.(amount) && not_nan p.(commission) &&
   not_nan p.(profit))%bool.

Definition is_naive (o : option pydatetime) : bool :=
  match o with
  | Some (Aware _ _) => false
  | _ => true
  end.

(** The dates of the payload are naive: none carries a time zone. *)
Definition naive_dates (p : WebhookPayload) : bool :=
  (is_naive p.(order_date) && is_naive p.(created_at) &&
   is_naive p.(date))%bool.

(** A value that comes back from the driver equal to what went in. *)
Definition comes_back (v : value) : Prop :=
  py_eq (sqlite_roundtrip v) v = true.

(** The primary keys are the ones the database hands out: the row at
    position [i] has the key [i + 1]. *)
Definition sequential_ids (rows : list Order) : Prop :=
  forall (i : nat) (o : Order),
    rows !! i = Some o -> getattr o "id" = VInt (Z.of_nat i + 1).

(** ** Invariants of the store *)

(** What the pipeline keeps true of the two tables: the primary keys are
    sequential, an order number is held by at most one row, and every event
    points at a row. *)
Definition store_ok (db : database) : Prop :=
  sequential_ids db.(orders) /\
  (forall k : string, (length (rows_with_number k db) <= 1)%nat) /\
  Forall (fun e => 1 <= e.(order_id) <= Z.of_nat (length db.(orders)))
         db.(events).

(** A history: payloads applied one after the other, each with the two
    readings of the clock of its application. *)
Fixpoint apply_all (l : list (datetime * datetime * WebhookPayload))
    (db : database) : result database :=
  match l with
  | [] => Ok db
  | (t_map, t_db, p) :: r =>
      x ← create_order_from_webhook t_map t_db p db;
      apply_all r x.1
  end.

(** The quantity the mapping takes from the payload fits the 64 bits of
    the driver. *)
Definition quantity_fits (p : WebhookPayload) : bool :=
  negb (sqlite_overflows
          (py_or (oint p.(quantity)) (py_or (oint p.(qty)) (VInt 1)))).

(** ** Accounts of the queue *)

(** The messages a run committed, oldest first. *)
Fixpoint committed (os : list outcome) : list message :=
  match os with
  | [] => []
  | Committed m :: r => m :: committed r
  | _ :: r => committed r
  end.

(** The bounds of the three buffers of [__init__], and the high-water
    mark. *)
Definition queue_ok (q : WebhookQueue) : Prop :=
  (length q.(queue) <= queue_maxsize)%nat /\
  (length q.(dead_letter_queue) <= dead_letter_maxlen)%nat /\
  (length q.(processing_times) <= processing_times_maxlen)%nat /\
  Z.of_nat (length q.(queue)) <= q.(queue_size_peak).

(** ** Observations on the text parser *)

(** The amount label [r] is there and [float] rejects its group. *)
Definition bad_amount (r : regex) (text : string) : bool :=
  match search r text with
  | Some g => negb (is_ok (py_float (remove_commas g)))
  | None => false
  end.

(** The [Quantity] label is there and [int] rejects its group. *)
Definition bad_quantity (text : string) : bool :=
  match search quantity_re text with
  | Some g => negb (is_ok (py_int g))
  | None => false
  end.

(** The status tokens of the text parser. *)
Definition text_statuses : list string := text_status_map.*2.

(** The status tokens of the mapping. *)
Definition statuses : list string := status_map.*2.

(** ** Observations on validation *)

(** The optional fields [WebhookPayload] declares, in the order of the
    source. *)
Definition optional_fields : list string :=
  [ "product"; "product_name"; "item"; "price"; "unit_price";
    "total"; "total_price"; "amount"; "commission"; "profit";
    "quantity"; "qty"; "email"; "customer_email";
    "customer_name"; "name"; "profile"; "proxy_list"; "proxy";
    "reference"; "reference_number"; "status"; "order_status";
    "tracking"; "tracking_number"; "shipment_id";
    "order_date"; "created_at"; "date"; "order_time";
    "payment_method"; "shipping_address"; "shipping_method"; "notes" ].

(** What a dictionary carries under a key: an explicit [None] counts as
    nothing. *)
Definition present (d : list (string * value)) (k : string) : option value :=
  match dict_get d k with
  | Some VNone => None
  | x => x
  end.

(** ** order_processor.py: [OrderProcessor.get_order_by_id] *)

Definition has_id (oid : Z) (o : Order) : bool :=
  py_eq (getattr o "id") (VInt oid).

(** The query by primary key; [scalar_one_or_none] raises when it returns
    more than one row. *)
Definition get_order_by_id (db : database) (oid : Z) : result (option Order) :=
  match List.filter (has_id oid) db.(orders) with
  | [] => Ok None
  | [o] => Ok (Some o)
  | _ => Raise "MultipleResultsFound"
  end.

(** ** api/webhooks.py: the acceptor *)

(** A row of [webhook_logs] as the acceptor writes it ([headers] is the
    dictionary the source dumps as JSON). *)
Record WebhookLog : Type := mkWebhookLog {
  endpoint : string;
  method : string;
  headers : list (string * string);
  payload : string;
  status_code : Z;
  processed : bool
}.

(** What the acceptor reads of a request: the bytes of the body, the
    headers (their names in lower case) and the [X-Webhook-Signature]
    header. *)
Record request : Type := mkRequest {
  raw_body : string;
  request_headers : list (string * string);
  x_webhook_signature : option string
}.

(** The answer: the acknowledgement with the size of the queue, an
    [HTTPException], or an exception nothing handles. *)
Inductive response : Type :=
| Queued (queue_size : Z)
| HTTPException (code : Z) (detail : string)
| Unhandled (e : string).

(** [headers.get(k, dflt)]. *)
Fixpoint header_get (h : list (string * string)) (k dflt : string) : string :=
  match h with
  | [] => dflt
  | (k', v) :: r => if String.eqb k' k then v else header_get r k dflt
  end.

(** [bytes.hex()]: two hexadecimal digits for each byte. *)
Definition hex_digit (n : nat) : ascii :=
  match n with
  | 0 => "0" | 1 => "1" | 2 => "2" | 3 => "3" | 4 => "4" | 5 => "5"
  | 6 => "6" | 7 => "7" | 8 => "8" | 9 => "9" | 10 => "a" | 11 => "b"
  | 12 => "c" | 13 => "d" | 14 => "e" | _ => "f"
  end%nat%char.

Fixpoint hex (bytes : string) : string :=
  match bytes with
  | EmptyString => EmptyString
  | String b r =>
      String (hex_digit (nat_of_ascii b / 16))
        (String (hex_digit (nat_of_ascii b mod 16)) (hex r))
  end.

(** [hmac.compare_digest] on two [str]: it raises [TypeError] unless both
    are ASCII. *)
Definition compare_digest (a b : string) : result bool :=
  if (isascii a && isascii b)%bool then Ok (String.eqb a b)
  else Raise "TypeError: comparing strings with non-ASCII characters is not supported".

Section Acceptor.
(** The HMAC-SHA256 digest of the body under the configured secret, and the
    decoding of the body as UTF-8: functions of Python's library. *)
Variable hmac_sha256_digest : string -> string.
Variable decode : string -> result string.

(** [hmac.new(secret, payload, hashlib.sha256).hexdigest()]. *)
Definition hmac_sha256_hexdigest (payload_bytes : string) : string :=
  hex (hmac_sha256_digest payload_bytes).

(** [verify_webhook_signature]. *)
Definition verify_webhook_signature (payload_bytes : string)
    (signature : option string) : result bool :=
  match signature with
  | None => Ok false
  | Some s =>
      if negb (truthy (VStr s)) then Ok false
      else
        let expected_signature := hmac_sha256_hexdigest payload_bytes in
        compare_digest s expected_signature
  end.

(** [receive_order_webhook].  [logs] is the table [webhook_logs]; [db_up]
    says whether the write of the audit row goes through (a failure is
    logged and otherwise ignored); [now] is the clock read by [enqueue]. *)
Definition receive_order_webhook (now : datetime) (db_up : bool)
    (req : request) (logs : list WebhookLog) (q : WebhookQueue)
  : list WebhookLog * WebhookQueue * response :=
  match decode req.(raw_body) with
  | Raise e => (logs, q, Unhandled e)
  | Ok body_text =>
      let content_type := header_get req.(request_headers) "content-type" "" in
      let verified :=
        if truthy (ostr req.(x_webhook_signature))
        then verify_webhook_signature req.(raw_body) req.(x_webhook_signature)
        else Ok true in
      match verified with
      | Raise e => (logs, q, Unhandled e)
      | Ok false => (logs, q, HTTPException 401 "Invalid webhook signature")
      | Ok true =>
          let webhook_log :=
            mkWebhookLog "/api/v2/webhooks/orders" "POST"
              req.(request_headers) body_text 202 false in
          let logs := if db_up then logs ++ [webhook_log] else logs in
          let '(q, enqueued) :=
            enqueue now (mkWebhookData body_text content_type) q in
          if negb enqueued
          then (logs, q, HTTPException 503 "Service busy - retry")
          else (logs, q, Queued (Z.of_nat (length q.(queue))))
      end
  end.
End Acceptor.

(** ** api/orders.py: [get_orders] *)

(** The page the endpoint returns. *)
Record orders_page : Type := mkOrdersPage {
  page_orders : list Order;
  page_total : Z;
  page : Z;
  page_size : Z;
  has_next : bool;
  has_previous : bool
}.

(** [get_orders].  [matching] is what the filtered query selects, in the
    order of the query (latest [created_at] first); the count, the offset
    and the limit are taken on it.  The bounds on [page] and [page_size]
    are those of the [Query] declarations, which answer 422; the offset is
    bound as a parameter of the query, and the driver refuses to bind an
    integer that does not fit 64 bits.  The page holds the rows as the
    query returns them: their rendering as JSON objects is left out. *)
Definition get_orders (matching : list Order) (page page_size : Z)
  : result orders_page :=
  if ((page <? 1) || (page_size <? 1) || (1000 <? page_size))%bool
  then Raise "422 Unprocessable Entity"
  else if sqlite_overflows (VInt ((page - 1) * page_size))
  then Raise "OverflowError"
  else
    let total := Z.of_nat (length matching) in
    let orders :=
      take (Z.to_nat page_size)
        (drop (Z.to_nat ((page - 1) * page_size)) matching) in
    Ok (mkOrdersPage orders total page page_size
          (page * page_size <? total) (1 <? page)).

(** * Properties *)

(** ** Alias resolution in [_map_webhook_to_order] *)

Lemma py_or_truthy (a b : value) : truthy a = true -> py_or a b = a.
Proof. unfold py_or. now intros ->. Qed.

Lemma py_or_falsy (a b : value) : truthy a = false -> py_or a b = b.
Proof. unfold py_or. now intros ->. Qed.

Lemma truthy_ostr (s : string) : s <> "" -> truthy (ostr (Some s)) = true.
Proof.
  intros Hs. simpl. destruct (String.eqb_spec s ""); [contradiction | reflexivity].
Qed.

(** A scan of an alias list stops at the first truthy entry. *)
Lemma first_truthy_skip (pre : list value) (v : value) (post : list value) :
  Forall (fun x => truthy x = false) pre ->
  truthy v = true ->
  first_truthy (pre ++ v :: post) = v.
Proof.
  induction pre as [|x pre IH]; intros Hpre Hv; simpl.
  - destruct post; [reflexivity | now rewrite Hv].
  - inversion Hpre as [|? ? Hx Hrest]; subst.
    destruct (pre ++ v :: post) eqn:E.
    + destruct pre; discriminate.
    + rewrite Hx. now apply IH.
Qed.

(** When no entry is truthy the scan ends on the last one. *)
Lemma first_truthy_none (l : list value) (d : value) :
  Forall (fun x => truthy x = false) l ->
  first_truthy (l ++ [d]) = d.
Proof.
  induction l as [|x l IH]; intros Hl; simpl; [reflexivity|].
  inversion Hl as [|? ? Hx Hrest]; subst.
  destruct (l ++ [d]) eqn:E.
  - destruct l; discriminate.
  - rewrite Hx. now apply IH.
Qed.

(** C5 (as amended).  Every canonical field is the scan of its alias list
    for the first truthy entry; the tracking number is scanned in the order
    [tracking], [tracking_number], [shipment_id] and the reference number in
    the order [reference], [reference_number], so that of two aliases that
    carry different non-empty values the one listed first in that order
    wins. *)
Theorem alias_resolution_order (now : datetime) (p : WebhookPayload) :
  let d := _map_webhook_to_order now p in
  dict_get d "product" =
    Some (first_truthy [ostr p.(product); ostr p.(product_name);
                        ostr p.(item); VStr "Unknown Product"]) /\
  dict_get d "price" =
    Some (first_truthy [ofloat p.(price); ofloat p.(unit_price);
                        VFloat 0%float]) /\
  dict_get d "total" =
    Some (first_truthy [ofloat p.(total); ofloat p.(total_price);
                        ofloat p.(amount)]) /\
  dict_get d "commission" =
    Some (first_truthy [ofloat p.(commission); ofloat p.(profit);
                        VFloat 0%float]) /\
  dict_get d "quantity" =
    Some (first_truthy [oint p.(quantity); oint p.(qty); VInt 1]) /\
  dict_get d "email" =
    Some (first_truthy [ostr p.(email); ostr p.(customer_email)]) /\
  dict_get d "customer_name" =
    Some (first_truthy [ostr p.(customer_name); ostr p.(name)]) /\
  dict_get d "proxy_list" =
    Some (first_truthy [ostr p.(proxy_list); ostr p.(proxy)]) /\
  dict_get d "reference_number" =
    Some (first_truthy [ostr p.(reference); ostr p.(reference_number)]) /\
  dict_get d "tracking_number" =
    Some (first_truthy [ostr p.(tracking); ostr p.(tracking_number);
                        ostr p.(shipment_id)]) /\
  (forall a b : string,
      p.(tracking) = Some a -> p.(tracking_number) = Some b -> a <> "" ->
      dict_get d "tracking_number" = Some (VStr a)) /\
  (forall b c : string,
      p.(tracking) = None -> p.(tracking_number) = Some b ->
      p.(shipment_id) = Some c -> b <> "" ->
      dict_get d "tracking_number" = Some (VStr b)) /\
  (forall a b : string,
      p.(reference) = Some a -> p.(reference_number) = Some b -> a <> "" ->
      dict_get d "reference_number" = Some (VStr a)).
Proof.
  repeat split; try reflexivity.
  - intros a b Ha Hb Hne. simpl. rewrite Ha.
    now rewrite py_or_truthy by now apply truthy_ostr.
  - intros b c Ha Hb Hc Hne. simpl. rewrite Ha, Hb.
    rewrite py_or_falsy by reflexivity.
    now rewrite py_or_truthy by now apply truthy_ostr.
  - intros a b Ha Hb Hne. simpl. rewrite Ha.
    now rewrite py_or_truthy by now apply truthy_ostr.
Qed.

(** C5 (as stated) fails: with both spellings present the specification's
    order picks the canonical spelling, the source picks the short one. *)
Lemma alias_order_counterexample :
  let p := two_aliases_payload in
  let d := _map_webhook_to_order 0 p in
  spec_first_present [ostr p.(tracking_number); ostr p.(tracking);
                      ostr p.(shipment_id)] = VStr "T-canonical" /\
  dict_get d "tracking_number" = Some (VStr "T-short") /\
  spec_first_present [ostr p.(reference_number); ostr p.(reference)]
    = VStr "R-canonical" /\
  dict_get d "reference_number" = Some (VStr "R-short") /\
  py_eq (VStr "T-short") (VStr "T-canonical") = false /\
  py_eq (VStr "R-short") (VStr "R-canonical") = false.
Proof. repeat split; reflexivity. Qed.

Lemma py_or_unless_falsy {A : Type} (inj : option A -> value) (o : option A)
    (b : value) :
  inj None = VNone ->
  py_or (inj (unless_falsy inj o)) b = py_or (inj o) b.
Proof.
  intros Hn. unfold unless_falsy, py_or.
  destruct (truthy (inj o)) eqn:E; [now rewrite E|]. now rewrite Hn.
Qed.

Lemma map_status_clear_falsy (p : WebhookPayload) :
  map_status (clear_falsy p) = map_status p.
Proof.
  unfold map_status, clear_falsy. cbn [status order_status].
  rewrite (py_or_unless_falsy ostr) by reflexivity.
  destruct p.(status) as [[|c s]|], p.(order_status) as [[|c' s']|];
    reflexivity.
Qed.

(** C10 (as stated) fails for the last alias of a chain that ends without
    a literal default: an explicit [0.0] under [amount] is the total of the
    mapping and an empty string under [name] is its customer name, where an
    absent field gives [None]. *)
Lemma falsy_last_alias_counterexample :
  let p := falsy_last_alias_payload in
  let d := _map_webhook_to_order 0 p in
  let d' := _map_webhook_to_order 0 (bare_payload "A1") in
  p.(amount) = Some 0%float /\ truthy (ofloat p.(amount)) = false /\
  p.(name) = Some "" /\ truthy (ostr p.(name)) = false /\
  dict_get d "total" = Some (VFloat 0%float) /\
  dict_get d' "total" = Some VNone /\
  dict_get d "customer_name" = Some (VStr "") /\
  dict_get d' "customer_name" = Some VNone /\
  py_eq (VFloat 0%float) VNone = false /\
  py_eq (VStr "") VNone = false.
Proof. repeat split; reflexivity. Qed.

(** C10 (amended).  Alias fallback looks at truthiness, not presence.  In
    every alias field but the last alias of a chain without a literal
    default, an explicit [0.0], [0] or empty string is treated exactly as
    an absent field: the mapping of a payload is the mapping of the payload
    without these values.  So a price of [0.0] next to a unit price of
    [5.0] gives the price [5.0], and a quantity of [0] without a [qty]
    gives the quantity [1].  The last alias of [total], [email],
    [customer_name], [proxy_list], [reference_number] and
    [tracking_number] is taken as it is, falsy or not, when the aliases
    before it are falsy. *)
Theorem falsy_is_absent (now : datetime) (p : WebhookPayload) :
  let d := _map_webhook_to_order now p in
  _map_webhook_to_order now (clear_falsy p) = d /\
  (p.(price) = Some 0%float -> p.(unit_price) = Some 5%float ->
   dict_get d "price" = Some (VFloat 5%float)) /\
  (p.(quantity) = Some 0 -> p.(qty) = None ->
   dict_get d "quantity" = Some (VInt 1)) /\
  (truthy (ofloat p.(total)) = false ->
   truthy (ofloat p.(total_price)) = false ->
   dict_get d "total" = Some (ofloat p.(amount))) /\
  (truthy (ostr p.(email)) = false ->
   dict_get d "email" = Some (ostr p.(customer_email))) /\
  (truthy (ostr p.(customer_name)) = false ->
   dict_get d "customer_name" = Some (ostr p.(name))) /\
  (truthy (ostr p.(proxy_list)) = false ->
   dict_get d "proxy_list" = Some (ostr p.(proxy))) /\
  (truthy (ostr p.(reference)) = false ->
   dict_get d "reference_number" = Some (ostr p.(reference_number))) /\
  (truthy (ostr p.(tracking)) = false ->
   truthy (ostr p.(tracking_number)) = false ->
   dict_get d "tracking_number" = Some (ostr p.(shipment_id))).
Proof.
  cbv zeta. split.
  - unfold _map_webhook_to_order. cbv zeta.
    rewrite map_status_clear_falsy. unfold clear_falsy.
    cbn [order_number product product_name item price unit_price total
         total_price amount commission profit quantity qty email
         customer_email customer_name name profile proxy_list proxy
         reference reference_number tracking tracking_number shipment_id
         order_date created_at date order_time payment_method
         shipping_address shipping_method notes].
    rewrite !(py_or_unless_falsy ostr) by reflexivity.
    rewrite !(py_or_unless_falsy ofloat) by reflexivity.
    rewrite !(py_or_unless_falsy oint) by reflexivity.
    reflexivity.
  - repeat split.
    + intros H1 H2. simpl. now rewrite H1, H2.
    + intros H1 H2. simpl. now rewrite H1, H2.
    + intros H1 H2. cbn [_map_webhook_to_order dict_get String.eqb Ascii.eqb
                         Bool.eqb].
      unfold py_or. now rewrite H1, H2.
    + intros H1. simpl. unfold py_or. now rewrite H1.
    + intros H1. simpl. unfold py_or. now rewrite H1.
    + intros H1. simpl. unfold py_or. now rewrite H1.
    + intros H1. simpl. unfold py_or. now rewrite H1.
    + intros H1 H2. simpl. unfold py_or. now rewrite H1, H2.
Qed.

(** The example of C10, evaluated. *)
Lemma falsy_is_absent_witness :
  let d := _map_webhook_to_order 0 zero_price_payload in
  dict_get d "price" = Some (VFloat 5%float) /\
  dict_get d "quantity" = Some (VInt 1).
Proof.
  destruct (falsy_is_absent 0 zero_price_payload) as (_ & Hp & Hq & _).
  split; [apply Hp | apply Hq]; reflexivity.
Defined.

(** ** The row an application leaves *)

Lemma getattr_setattr (o : Order) (k : string) (v : value) :
  getattr (setattr o k v) k = v.
Proof. unfold getattr, setattr. now rewrite lookup_insert_eq. Qed.

Lemma getattr_setattr_ne (o : Order) (k k' : string) (v : value) :
  k <> k' -> getattr (setattr o k v) k' = getattr o k'.
Proof. intros H. unfold getattr, setattr. now rewrite lookup_insert_ne. Qed.

(** Only a string is equal to a string. *)
Lemma py_eq_VStr (x : value) (s : string) : py_eq x (VStr s) = true -> x = VStr s.
Proof.
  destruct x; simpl; try discriminate.
  intros H. apply String.eqb_eq in H. now subst.
Qed.

(** The constructor keeps the last value given for a key. *)
Lemma getattr_fold_setattr (d : list (string * value)) (o : Order) (k : string) :
  getattr (fold_left (fun o kv => setattr o (fst kv) (snd kv)) d o) k =
  match dict_get (rev d) k with
  | Some v => v
  | None => getattr o k
  end.
Proof.
  revert o. induction d as [|[k' v'] d IH]; intros o; simpl; [reflexivity|].
  rewrite IH. clear IH.
  assert (Hget : forall l, dict_get (l ++ [(k', v')]) k =
            match dict_get l k with
            | Some v => Some v
            | None => if String.eqb k' k then Some v' else None
            end).
  { induction l as [|[a b] l IHl]; simpl; [reflexivity|].
    destruct (String.eqb a k); [reflexivity | apply IHl]. }
  rewrite Hget. destruct (dict_get (rev d) k); [reflexivity|].
  destruct (String.eqb_spec k' k) as [->|Hne].
  - apply getattr_setattr.
  - now apply getattr_setattr_ne.
Qed.

(** A key the loop does not visit keeps its value. *)
Lemma update_fold_other (new_data : list (string * value)) (k : string) :
  forall (o o' : Order) (ch ch' : list change),
    k ∉ new_data.*1 ->
    fold_left update_field new_data (o, ch) = (o', ch') ->
    getattr o' k = getattr o k.
Proof.
  induction new_data as [|[k1 v1] l IH]; intros o o' ch ch' Hk Hf; simpl in *.
  - now inversion Hf.
  - apply not_elem_of_cons in Hk as [Hne Hl].
    destruct (String.eqb k1 "order_number" || String.eqb k1 "source");
      [now apply (IH _ _ _ _ Hl Hf)|].
    destruct v1; try (now apply (IH _ _ _ _ Hl Hf));
      match type of Hf with
      | context [ if ?c then _ else _ ] => destruct c
      end;
      try (now apply (IH _ _ _ _ Hl Hf));
      rewrite (IH _ _ _ _ Hl Hf); apply getattr_setattr_ne; congruence.
Qed.

(** A visited key ends up holding the new value, or keeps an old value that
    is equal to it. *)
Lemma update_fold_visited (new_data : list (string * value)) (k : string)
    (v : value) :
  forall (o o' : Order) (ch ch' : list change),
    NoDup new_data.*1 ->
    (k, v) ∈ new_data ->
    k <> "order_number" -> k <> "source" -> v <> VNone ->
    fold_left update_field new_data (o, ch) = (o', ch') ->
    getattr o' k = v \/
    (py_eq (getattr o k) v = true /\ getattr o' k = getattr o k).
Proof.
  induction new_data as [|[k1 v1] l IH];
    intros o o' ch ch' Hnd Hin Hk1 Hk2 Hv Hf; simpl in *;
    [now apply elem_of_nil in Hin|].
  apply NoDup_cons in Hnd as [Hnotin Hnd'].
  apply elem_of_cons in Hin as [Heq | Hin].
  - inversion Heq; subst k1 v1. clear Heq.
    destruct (String.eqb_spec k "order_number"); [contradiction|].
    destruct (String.eqb_spec k "source"); [contradiction|].
    simpl in Hf.
    destruct (py_eq (getattr o k) v) eqn:E.
    + right. split; [reflexivity|].
      destruct v; try contradiction; simpl in Hf;
        now apply (update_fold_other _ _ _ _ _ _ Hnotin Hf).
    + left.
      destruct v; try contradiction; simpl in Hf;
        rewrite (update_fold_other _ _ _ _ _ _ Hnotin Hf);
        apply getattr_setattr.
  - assert (Hne : k1 <> k).
    { intros ->. apply Hnotin. now apply (list_elem_of_fmap_2 fst _ (k, v)). }
    destruct (String.eqb k1 "order_number" || String.eqb k1 "source");
      [now apply (IH _ _ _ _ Hnd' Hin Hk1 Hk2 Hv Hf)|].
    destruct v1; try (now apply (IH _ _ _ _ Hnd' Hin Hk1 Hk2 Hv Hf));
      match type of Hf with
      | context [ if ?c then _ else _ ] => destruct c
      end;
      try (now apply (IH _ _ _ _ Hnd' Hin Hk1 Hk2 Hv Hf));
      (destruct (IH _ _ _ _ Hnd' Hin Hk1 Hk2 Hv Hf) as [H | [H1 H2]];
       [now left | right];
       rewrite getattr_setattr_ne in H1, H2 by assumption; now split).
Qed.

Lemma dict_get_app (l : list (string * value)) (k' : string) (v' : value)
    (k : string) :
  dict_get (l ++ [(k', v')]) k =
  match dict_get l k with
  | Some v => Some v
  | None => if String.eqb k' k then Some v' else None
  end.
Proof.
  induction l as [|[a b] l IHl]; simpl; [reflexivity|].
  destruct (String.eqb a k); [reflexivity | apply IHl].
Qed.

Lemma dict_get_elem_of (d : list (string * value)) (k : string) (v : value) :
  dict_get d k = Some v -> (k, v) ∈ d.
Proof.
  induction d as [|[a b] d IH]; simpl; [discriminate|].
  destruct (String.eqb_spec a k) as [->|Hne].
  - intros [= ->]. apply elem_of_cons. now left.
  - intros H. apply elem_of_cons. right. now apply IH.
Qed.

Lemma dict_get_not_elem_of (d : list (string * value)) (k : string) :
  k ∉ d.*1 -> dict_get d k = None.
Proof.
  induction d as [|[a b] d IH]; simpl; [reflexivity|].
  intros H. apply not_elem_of_cons in H as [Hne Hd].
  destruct (String.eqb_spec a k); [congruence | now apply IH].
Qed.

(** With distinct keys, the first and the last binding of a key agree. *)
Lemma dict_get_rev (d : list (string * value)) (k : string) :
  NoDup d.*1 -> dict_get (rev d) k = dict_get d k.
Proof.
  induction d as [|[a b] d IH]; simpl; [reflexivity|].
  intros H. apply NoDup_cons in H as [Hnotin Hnd].
  rewrite dict_get_app, (IH Hnd).
  destruct (String.eqb_spec a k) as [->|Hne].
  - now rewrite (dict_get_not_elem_of _ _ Hnotin).
  - now destruct (dict_get d k).
Qed.

(** The keys of the mapping's dictionary are fixed and distinct. *)
Lemma map_keys (now : datetime) (p : WebhookPayload) :
  (_map_webhook_to_order now p).*1 =
  [ "order_number"; "product"; "price"; "total"; "commission"; "quantity";
    "email"; "customer_name"; "profile"; "proxy_list"; "reference_number";
    "status"; "tracking_number"; "order_date"; "order_time";
    "payment_method"; "shipping_address"; "shipping_method"; "notes";
    "source" ].
Proof. reflexivity. Qed.

Lemma map_keys_NoDup (now : datetime) (p : WebhookPayload) :
  NoDup (_map_webhook_to_order now p).*1.
Proof. rewrite map_keys. apply (bool_decide_unpack _). vm_compute. exact I. Qed.

(** The loop only appends changes, and a run that appends none leaves the
    row alone. *)
Lemma update_fold_changes (new_data : list (string * value)) :
  forall (o o' : Order) (ch ch' : list change),
    fold_left update_field new_data (o, ch) = (o', ch') ->
    exists new, ch' = ch ++ new /\ (new = [] -> o' = o).
Proof.
  induction new_data as [|[k v] l IH]; intros o o' ch ch' Hf; simpl in Hf.
  - inversion Hf; subst. exists []. split; [now rewrite app_nil_r | reflexivity].
  - destruct (String.eqb k "order_number" || String.eqb k "source");
      [now apply IH|].
    destruct v; try (now apply IH);
      match type of Hf with
      | context [ if ?c then _ else _ ] => destruct c
      end;
      try (now apply IH);
      (destruct (IH _ _ _ _ Hf) as (new & -> & _);
       eexists (_ :: new); split;
       [now rewrite <- app_assoc | discriminate]).
Qed.

Lemma elem_of_dict_get (d : list (string * value)) (k : string) (v : value) :
  NoDup d.*1 -> (k, v) ∈ d -> dict_get d k = Some v.
Proof.
  induction d as [|[a b] d IH]; intros Hnd Hin;
    [now apply elem_of_nil in Hin|].
  apply NoDup_cons in Hnd as [Hnotin Hnd].
  apply elem_of_cons in Hin as [[= -> ->] | Hin]; cbn [dict_get].
  - now rewrite String.eqb_refl.
  - destruct (String.eqb_spec a k) as [->|Hne]; [|now apply IH].
    exfalso. apply Hnotin. now apply (list_elem_of_fmap_2 fst _ (k, v)).
Qed.

(** A key has a logged change, or none. *)
Lemma change_for_key (ch : list change) (k : string) :
  (exists old v, (k, old, v) ∈ ch) \/ (forall old v, (k, old, v) ∉ ch).
Proof.
  induction ch as [|[[k' old'] v'] ch IH].
  - right. intros old v Hc. now apply elem_of_nil in Hc.
  - destruct (decide (k' = k)) as [->|Hne].
    + left. exists old', v'. apply elem_of_cons. now left.
    + destruct IH as [(old & v & Hc) | Hnone].
      * left. exists old, v. apply elem_of_cons. now right.
      * right. intros old v Hc. apply elem_of_cons in Hc as [[= -> _ _] | Hc];
          [contradiction | now apply (Hnone old v)].
Qed.

(** The loop records a change exactly for the keys it sets: the old value
    is the one the row held, the new value is the one of the dictionary and
    the one the row holds afterwards, the two differ, and every other
    attribute of the row is as it was. *)
Lemma update_fold_exact (new_data : list (string * value)) :
  forall (o o' : Order) (ch ch' : list change),
    NoDup new_data.*1 ->
    fold_left update_field new_data (o, ch) = (o', ch') ->
    exists new,
      ch' = ch ++ new /\
      (forall k old v,
          (k, old, v) ∈ new ->
          (k, v) ∈ new_data /\ v <> VNone /\
          k <> "order_number" /\ k <> "source" /\
          getattr o k = old /\ getattr o' k = v /\ py_eq old v = false) /\
      (forall k, (forall old v, (k, old, v) ∉ new) ->
                 getattr o' k = getattr o k) /\
      (forall k v,
          (k, v) ∈ new_data ->
          k <> "order_number" -> k <> "source" -> v <> VNone ->
          (exists old, (k, old, v) ∈ new) \/ py_eq (getattr o k) v = true).
Proof.
  induction new_data as [|[k1 v1] l IH]; intros o o' ch ch' Hnd Hf.
  - cbn [fold_left] in Hf. injection Hf as <- <-. exists [].
    split; [now rewrite app_nil_r|]. split; [|split; [reflexivity|]].
    + intros k old v Hin. now apply elem_of_nil in Hin.
    + intros k v Hin. now apply elem_of_nil in Hin.
  - cbn [fmap list_fmap fst] in Hnd.
    apply NoDup_cons in Hnd as [Hnotin Hnd]. cbn [fold_left] in Hf.
    assert (Hskip : (update_field (o, ch) (k1, v1) = (o, ch) /\
                     (k1 = "order_number" \/ k1 = "source" \/ v1 = VNone \/
                      py_eq (getattr o k1) v1 = true)) \/
                    (update_field (o, ch) (k1, v1)
                       = (setattr o k1 v1, ch ++ [(k1, getattr o k1, v1)]) /\
                     v1 <> VNone /\ k1 <> "order_number" /\ k1 <> "source" /\
                     py_eq (getattr o k1) v1 = false)).
    { unfold update_field.
      destruct (String.eqb_spec k1 "order_number"); [left; auto|].
      destruct (String.eqb_spec k1 "source"); [left; auto|]. cbn [orb].
      destruct v1; try (left; now auto 6);
        (destruct (py_eq (getattr o k1) _) eqn:E; cbn [negb];
         [left; now auto 6
         | right; repeat split; (assumption || discriminate)]). }
    assert (Hne : forall k v, (k, v) ∈ l -> k1 <> k).
    { intros k v Hk ->. apply Hnotin.
      now apply (list_elem_of_fmap_2 fst _ (k, v)). }
    destruct Hskip as [[Hsame Hwhy] | (Hset & Hv & Hk1 & Hk2 & Hneq)].
    + rewrite Hsame in Hf.
      destruct (IH _ _ _ _ Hnd Hf) as (new & -> & Hin & Hout & Hall).
      exists new. split; [reflexivity|]. split; [|split; [exact Hout|]].
      * intros k old v Hk. destruct (Hin k old v Hk) as (H1 & H2).
        split; [apply elem_of_cons; now right | exact H2].
      * intros k v Hk N1 N2 N3.
        apply elem_of_cons in Hk as [[= -> ->] | Hk]; [|now apply Hall].
        right. destruct Hwhy as [? | [? | [? | ?]]]; try contradiction.
        assumption.
    + rewrite Hset in Hf.
      destruct (IH _ _ _ _ Hnd Hf) as (new & -> & Hin & Hout & Hall).
      exists ((k1, getattr o k1, v1) :: new).
      split; [now rewrite <- app_assoc|]. split; [|split].
      * intros k old v Hk. apply elem_of_cons in Hk as [[= -> -> ->] | Hk].
        -- split; [apply elem_of_cons; now left|].
           repeat split; try assumption.
           rewrite (update_fold_other _ _ _ _ _ _ Hnotin Hf).
           apply getattr_setattr.
        -- destruct (Hin k old v Hk) as (H1 & H2 & H3 & H4 & H5 & H6 & H7).
           rewrite getattr_setattr_ne in H5 by (now apply (Hne k v)).
           split; [apply elem_of_cons; now right|]. now repeat split.
      * intros k Hk.
        assert (Hkk : k1 <> k).
        { intros ->. apply (Hk (getattr o k) v1). apply elem_of_cons. now left. }
        rewrite Hout.
        -- now apply getattr_setattr_ne.
        -- intros old v Hin'. apply (Hk old v). apply elem_of_cons. now right.
      * intros k v Hk N1 N2 N3.
        apply elem_of_cons in Hk as [[= -> ->] | Hk].
        -- left. exists (getattr o k1). apply elem_of_cons. now left.
        -- destruct (Hall k v Hk N1 N2 N3) as [(old & Hold) | Heq].
           ++ left. exists old. apply elem_of_cons. now right.
           ++ right. rewrite getattr_setattr_ne in Heq; [exact Heq|].
              now apply (Hne k v).
Qed.

(** What [refresh] reads back: the driver's version of a value that was
    set, and every other column as it was. *)
Lemma refresh_changed (ch : list change) (o : Order) (k : string)
    (old v : value) :
  (k, old, v) ∈ ch ->
  (forall old' v', (k, old', v') ∈ ch -> v' = v) ->
  getattr (refresh ch o) k = sqlite_roundtrip v.
Proof.
  unfold refresh. induction ch as [|c ch IH] using rev_ind; intros Hin Huniq;
    [now apply elem_of_nil in Hin|].
  rewrite fold_left_app. cbn [fold_left].
  destruct (decide (c.1.1 = k)) as [Hk|Hk].
  - rewrite Hk, getattr_setattr. f_equal.
    destruct c as [[k' old'] v']. cbn [fst snd] in *. subst k'.
    apply (Huniq old'). apply elem_of_app. right. now apply list_elem_of_singleton.
  - rewrite getattr_setattr_ne by exact Hk. apply IH.
    + apply elem_of_app in Hin as [Hin | Hin]; [exact Hin|].
      apply list_elem_of_singleton in Hin. subst c. now cbn in Hk.
    + intros old' v' Hc. apply (Huniq old'). apply elem_of_app. now left.
Qed.

Lemma refresh_other (ch : list change) (o : Order) (k : string) :
  (forall old v, (k, old, v) ∉ ch) ->
  getattr (refresh ch o) k = getattr o k.
Proof.
  unfold refresh. induction ch as [|c ch IH] using rev_ind; intros Hnot;
    [reflexivity|].
  rewrite fold_left_app. cbn [fold_left].
  destruct c as [[k' old'] v']. cbn [fst snd].
  rewrite getattr_setattr_ne.
  - apply IH. intros old v Hc. apply (Hnot old v). apply elem_of_app. now left.
  - intros ->. apply (Hnot old' v'). apply elem_of_app. right.
    now apply list_elem_of_singleton.
Qed.

(** The two ways an update ends: nothing was set and nothing is written,
    or the driver accepted the values that were set and the row returned is
    the row read back. *)
Lemma update_existing_result (t_db : datetime) (o0 : Order)
    (d : list (string * value)) (p : WebhookPayload) (db db' : database)
    (o : Order) :
  _update_existing_order t_db o0 d p db = Ok (db', o) ->
  exists o1 ch,
    fold_left update_field d (o0, []) = (o1, ch) /\
    ((ch = [] /\ db' = db /\ o = o1) \/
     (ch <> [] /\
      existsb (fun c => sqlite_overflows c.2) ch = false /\
      o = setattr (refresh ch o1) "updated_at" (VDatetime t_db) /\
      db' = mkDatabase (commit_order o db.(orders))
              (db.(events) ++
               [mkOrderEvent
                  match getattr o0 "id" with VInt i => i | _ => 0 end
                  "updated" ch p "webhook" t_db]))).
Proof.
  unfold _update_existing_order.
  destruct (fold_left update_field d (o0, [])) as [o1 ch].
  intros H. exists o1, ch. split; [reflexivity|].
  destruct ch as [|c ch].
  - left. injection H as <- <-. now repeat split.
  - right.
    destruct (existsb (fun c => sqlite_overflows c.2) (c :: ch));
      [discriminate H|].
    injection H as <- <-. now repeat split.
Qed.

(** The row a creation returns. *)
Lemma create_new_order_returns (t_db : datetime)
    (order_data : list (string * value)) (p : WebhookPayload)
    (db db' : database) (o : Order) :
  _create_new_order t_db order_data p db = Ok (db', o) ->
  o = setattr (setattr (setattr (setattr
        (sqlite_roundtrip <$> Order_of_data order_data)
        "id" (VInt (next_order_id db)))
        "qty_received" (VInt 0))
        "created_at" (VDatetime t_db))
        "updated_at" (VDatetime t_db) /\
  db'.(orders) = db.(orders) ++ [o] /\
  rows_with_number p.(order_number) db = [] /\
  exists e, db'.(events) = db.(events) ++ [e] /\ e.(event_type) = "created".
Proof.
  unfold _create_new_order.
  destruct (existsb _ order_data); [discriminate|].
  destruct (rows_with_number _ _); [|discriminate].
  intros H. injection H as Hdb Ho. subst db' o. simpl.
  repeat split. eexists. split; reflexivity.
Qed.

(** Reading a column of a row that went through the driver. *)
Lemma getattr_roundtrip (o : Order) (k : string) :
  getattr (sqlite_roundtrip <$> o) k = sqlite_roundtrip (getattr o k).
Proof. unfold getattr. rewrite lookup_fmap. now destruct (o !! k). Qed.

(** An application is an update of the row found or a creation. *)
Lemma create_order_from_webhook_cases (t_map t_db : datetime)
    (p : WebhookPayload) (db db' : database) (o : Order) :
  create_order_from_webhook t_map t_db p db = Ok (db', o) ->
  (exists o0, _get_order_by_number db p.(order_number) = Ok (Some o0) /\
     _update_existing_order t_db o0 (_map_webhook_to_order t_map p) p db
       = Ok (db', o)) \/
  (_get_order_by_number db p.(order_number) = Ok None /\
   _create_new_order t_db (_map_webhook_to_order t_map p) p db = Ok (db', o)).
Proof.
  unfold create_order_from_webhook.
  destruct (_get_order_by_number db p.(order_number)) as [[o0|]|e];
    cbn [mbind result_bind]; intros H; [left | right | discriminate]; eauto.
Qed.

Lemma created_value (t_db : datetime) (d : list (string * value))
    (p : WebhookPayload) (db db' : database) (o : Order) (k : string)
    (v : value) :
  NoDup d.*1 ->
  _create_new_order t_db d p db = Ok (db', o) ->
  dict_get d k = Some v ->
  k <> "id" -> k <> "qty_received" -> k <> "created_at" ->
  k <> "updated_at" ->
  getattr o k = sqlite_roundtrip v.
Proof.
  intros Hnd H Hk N3 N4 N5 N6.
  apply create_new_order_returns in H as (Ho & _). rewrite Ho.
  rewrite !getattr_setattr_ne by congruence.
  rewrite getattr_roundtrip.
  unfold Order_of_data. rewrite getattr_fold_setattr.
  rewrite dict_get_rev by exact Hnd. now rewrite Hk.
Qed.

Lemma updated_value (t_db : datetime) (d : list (string * value))
    (p : WebhookPayload) (db db' : database) (o0 o : Order) (k : string)
    (v : value) :
  NoDup d.*1 ->
  _update_existing_order t_db o0 d p db = Ok (db', o) ->
  dict_get d k = Some v ->
  k <> "order_number" -> k <> "source" -> v <> VNone ->
  k <> "updated_at" ->
  getattr o k = sqlite_roundtrip v \/ py_eq (getattr o k) v = true.
Proof.
  intros Hnd H Hk N1 N2 Hv N6.
  apply update_existing_result in H
    as (o1 & ch & Hfold & [(-> & _ & ->) | (_ & _ & -> & _)]);
    destruct (update_fold_exact _ _ _ _ _ Hnd Hfold)
      as (new & Hnew & Hin & Hout & Hall);
    cbn [app] in Hnew; subst new;
    destruct (Hall k v (dict_get_elem_of _ _ _ Hk) N1 N2 Hv)
      as [(old & Hold) | Heq].
  - now apply elem_of_nil in Hold.
  - right. rewrite Hout; [exact Heq|].
    intros old v' Hc. now apply elem_of_nil in Hc.
  - left. rewrite getattr_setattr_ne by congruence.
    apply (refresh_changed _ _ _ old _ Hold).
    intros old' v' Hc. destruct (Hin _ _ _ Hc) as (Hd & _).
    apply elem_of_dict_get in Hd; [|exact Hnd]. congruence.
  - destruct (change_for_key ch k) as [(old & v' & Hc) | Hnone].
    + left. rewrite getattr_setattr_ne by congruence.
      destruct (Hin _ _ _ Hc) as (Hd & _).
      apply elem_of_dict_get in Hd; [|exact Hnd].
      assert (v' = v) by congruence. subst v'.
      apply (refresh_changed _ _ _ old _ Hc).
      intros old' v' Hc'. destruct (Hin _ _ _ Hc') as (Hd' & _).
      apply elem_of_dict_get in Hd'; [|exact Hnd]. congruence.
    + right. rewrite getattr_setattr_ne by congruence.
      rewrite refresh_other by exact Hnone.
      rewrite Hout by exact Hnone. exact Heq.
Qed.

(** What the row returned by an application holds for a key of the
    mapping that carries a value: the new value, or an old one equal to
    it. *)
Lemma applied_value (t_map t_db : datetime) (p : WebhookPayload)
    (db db' : database) (o : Order) (k : string) (v : value) :
  create_order_from_webhook t_map t_db p db = Ok (db', o) ->
  dict_get (_map_webhook_to_order t_map p) k = Some v ->
  k <> "order_number" -> k <> "source" -> v <> VNone ->
  k <> "id" -> k <> "qty_received" -> k <> "created_at" ->
  k <> "updated_at" ->
  getattr o k = sqlite_roundtrip v \/ py_eq (getattr o k) v = true.
Proof.
  intros H Hk N1 N2 Hv N3 N4 N5 N6.
  apply create_order_from_webhook_cases in H as [(o0 & _ & H) | (_ & H)].
  - exact (updated_value _ _ _ _ _ _ _ _ _ (map_keys_NoDup t_map p) H Hk
             N1 N2 Hv N6).
  - left.
    exact (created_value _ _ _ _ _ _ _ _ (map_keys_NoDup t_map p) H Hk
             N3 N4 N5 N6).
Qed.

(** ** Replay of a payload (C1) *)

(** C1 fails on a payload that carries no date of its own: the mapping
    fills [order_date] with the clock, so the second application finds a
    different value, sets it and logs an [updated] event.  There is still
    one row. *)
Theorem replay_without_date_logs_update :
  (fun '(db1, db2) =>
     (length db1.(orders), event_log db1,
      (fun o => (getattr o "order_date", getattr o "updated_at"))
        <$> db1.(orders),
      length db2.(orders), event_log db2,
      (fun o => (getattr o "order_date", getattr o "updated_at"))
        <$> db2.(orders)))
    <$> replay 100 200 (bare_payload "A1") empty_db
  = Ok (1%nat, [("created", [])], [(VDatetime 100, VDatetime 100)],
        1%nat,
        [("created", []);
         ("updated", [("order_date", VDatetime 100, VDatetime 200)])],
        [(VDatetime 200, VDatetime 200)]).
Proof. vm_compute. reflexivity. Qed.

(** ** Rounding (C4) *)

(** The mapping hands a price on bit for bit. *)
Lemma price_passes_unchanged (now : datetime) (p : WebhookPayload) (v : float) :
  p.(price) = Some v -> PrimFloat.eqb v 0%float = false ->
  dict_get (_map_webhook_to_order now p) "price" = Some (VFloat v).
Proof. intros Hp Hv. simpl. rewrite Hp. unfold py_or. simpl. now rewrite Hv. Qed.

(** C4 fails in the webhook path: a price of [9.999] is stored as it is,
    although [round_currency] would make it [10.0]; and a later price of
    [9.9994], which rounds to the same [10.0], is compared unrounded, found
    different, stored and logged. *)
Theorem webhook_price_not_rounded :
  round_currency (Some 9.999%float) = Some 10%float /\
  round_currency (Some 9.9994%float) = Some 10%float /\
  (fun '(db1, db2) =>
     ((fun o => getattr o "price") <$> db1.(orders),
      (fun o => getattr o "price") <$> db2.(orders),
      event_log db2))
    <$> apply_two 0 three_decimals_payload 1 four_decimals_payload empty_db
  = Ok ([VFloat 9.999%float], [VFloat 9.9994%float],
        [("created", []);
         ("updated", [("price", VFloat 9.999%float, VFloat 9.9994%float)])]).
Proof. repeat split; vm_compute; reflexivity. Qed.

(** ** The label patterns *)

(** A literal word in front of a pattern consumes that word, whatever the
    case. *)
Lemma rmatch_lit {R : Type} (w : string) (r : regex) (s : string)
    (g : option string) (k : @cont R) :
  rmatch (lit w +++ r) s g k =
  match ci_strip_prefix w s with
  | Some s' => rmatch r s' g k
  | None => None
  end.
Proof.
  revert s. induction w as [|c w IH]; intros s; [reflexivity|].
  destruct s as [|d s]; [reflexivity|].
  cbn [lit rmatch ci_strip_prefix].
  destruct (Ascii.eqb (lower_ascii d) (lower_ascii c)); [|reflexivity].
  apply (IH s).
Qed.

Lemma ci_strip_prefix_app (w : string) (c : ascii) (s : string) :
  ci_strip_prefix (w ++ String c "") s =
  match ci_strip_prefix w s with
  | Some (String d s') =>
      if Ascii.eqb (lower_ascii d) (lower_ascii c) then Some s' else None
  | _ => None
  end.
Proof.
  revert s. induction w as [|a w IH]; intros s; simpl.
  - destruct s as [|d s]; [reflexivity|].
    now destruct (Ascii.eqb (lower_ascii d) (lower_ascii c)).
  - destruct s as [|b s]; [reflexivity|].
    destruct (Ascii.eqb (lower_ascii b) (lower_ascii a)); [apply IH | reflexivity].
Qed.

(** A pattern that begins with a label finds nothing in a text that does
    not contain the label. *)
Lemma search_label_absent (w : string) (r : regex) (text : string) :
  has_label w text = false -> search (lit w +++ Chr nl +++ r) text = None.
Proof.
  unfold has_label. induction text as [|c text IH]; cbn [ci_in search];
    rewrite rmatch_lit, ci_strip_prefix_app;
    (destruct (ci_strip_prefix w _) as [[|d s']|]; cbn [rmatch];
     [ | destruct (Ascii.eqb (lower_ascii d) (lower_ascii nl));
         [discriminate|] | ]);
    intros H; first [reflexivity | now apply IH].
Qed.

(** A greedy repetition in front of a continuation that accepts stops
    where the class stops. *)
Lemma star_total {R : Type} (cls : ascii -> bool) (s : string)
    (g : option string) (k : @cont R) :
  (forall s' g', is_Some (k s' g')) ->
  star cls s g k = k (lstrip_with cls s) g.
Proof.
  intros Hk. induction s as [|d s IH]; cbn [star lstrip_with]; [reflexivity|].
  destruct (cls d); [|reflexivity].
  rewrite IH. now destruct (Hk (lstrip_with cls s) g) as [x ->].
Qed.

Lemma length_lstrip_with (f : ascii -> bool) (s : string) :
  (String.length (lstrip_with f s) <= String.length s)%nat.
Proof.
  induction s as [|c s IH]; simpl; [lia|]. destruct (f c); simpl; lia.
Qed.

(** The text a repetition consumes lies in the class. *)
Lemma consumed_lstrip_with (f : ascii -> bool) (s : string) :
  forall c, c ∈ list_ascii_of_string (consumed s (lstrip_with f s)) -> f c = true.
Proof.
  unfold consumed. induction s as [|d s IH]; intros c; cbn [lstrip_with].
  - simpl. intros H. now apply elem_of_nil in H.
  - destruct (f d) eqn:E.
    + pose proof (length_lstrip_with f s) as Hlen.
      replace (String.length (String d s) - String.length (lstrip_with f s))%nat
        with (S (String.length s - String.length (lstrip_with f s)))
        by (simpl; lia).
      simpl. intros H. apply elem_of_cons in H as [-> | H]; [exact E | now apply IH].
    + replace (String.length (String d s) - String.length (String d s))%nat
        with 0%nat by lia.
      simpl. intros H. now apply elem_of_nil in H.
Qed.

Lemma all_digits_spec (s : string) :
  (forall c, c ∈ list_ascii_of_string s -> is_digit c = true) ->
  all_digits s = true.
Proof.
  induction s as [|d s IH]; simpl; [reflexivity|]. intros H.
  rewrite (H d) by (apply elem_of_cons; now left). simpl.
  apply IH. intros c Hc. apply H. apply elem_of_cons. now right.
Qed.

(** The quantity group is a non-empty run of digits, so [int] accepts it
    unless it is longer than 4300 digits. *)
Lemma quantity_group_is_number (text g : string) :
  search quantity_re text = Some g ->
  py_int g =
  if (int_max_str_digits <? String.length g)%nat
  then Raise "ValueError: Exceeds the limit (4300 digits) for integer string conversion"
  else Ok (digits_value 0 g).
Proof.
  unfold quantity_re.
  induction text as [|c text IH]; [discriminate|].
  cbn [search]. rewrite rmatch_lit.
  destruct (ci_strip_prefix "Quantity" (String c text)) as [[|d s]|];
    cbn [rmatch]; try exact IH.
  destruct (Ascii.eqb (lower_ascii d) (lower_ascii nl)); [|exact IH].
  destruct s as [|e s]; [exact IH|].
  destruct (is_digit e) eqn:He; [|exact IH].
  rewrite star_total by (intros; eexists; reflexivity).
  cbn [default]. intros [= <-]. unfold py_int.
  pose proof (consumed_lstrip_with is_digit (String e s)) as Hc.
  cbn [lstrip_with] in Hc. rewrite He in Hc.
  rewrite (all_digits_spec _ Hc).
  unfold consumed.
  pose proof (length_lstrip_with is_digit s) as Hlen.
  replace (String.length (String e s) - String.length (lstrip_with is_digit s))%nat
    with (S (String.length s - String.length (lstrip_with is_digit s)))
    by (simpl; lia).
  cbn [substring String.eqb andb negb]. reflexivity.
Qed.

(** ** Total defaulting (C6) *)

Lemma dict_get_set (d : list (string * value)) (k : string) (v : value) :
  dict_get (dict_set d k v) k = Some v.
Proof.
  induction d as [|[a b] d IH]; simpl.
  - now rewrite String.eqb_refl.
  - destruct (String.eqb a k) eqn:E; simpl; now rewrite E.
Qed.

Lemma dict_get_set_ne (d : list (string * value)) (k k' : string) (v : value) :
  k <> k' -> dict_get (dict_set d k v) k' = dict_get d k'.
Proof.
  intros Hne. induction d as [|[a b] d IH]; simpl.
  - destruct (String.eqb_spec k k'); [contradiction | reflexivity].
  - destruct (String.eqb_spec a k) as [->|Ha]; simpl.
    + destruct (String.eqb_spec k k'); [contradiction | reflexivity].
    + destruct (String.eqb a k'); [reflexivity | exact IH].
Qed.

Lemma set_line_other (r : regex) (key text : string)
    (d : list (string * value)) (k : string) :
  key <> k -> dict_get (set_line r key text d) k = dict_get d k.
Proof.
  intros Hne. unfold set_line.
  destruct (search r text); [now apply dict_get_set_ne | reflexivity].
Qed.

(** Looks a key up through the assignments made after it was set. *)
Ltac lookup_through :=
  repeat match goal with
    | |- context [search order_re ?t] => destruct (search order_re t)
    | |- context [search status_re ?t] => destruct (search status_re t)
    | |- _ => rewrite set_line_other by discriminate
    | |- _ => rewrite dict_get_set_ne by discriminate
    end;
  apply dict_get_set.

(** What the text parser leaves under [price] and [total] after the price
    step: the later steps either leave both alone or raise. *)
Lemma parse_refract_message_total (now : datetime) (text g : string)
    (v : float) :
  search price_re text = Some g ->
  py_float (remove_commas g) = Ok v ->
  search total_re text = None ->
  (exists d, parse_refract_message now text = Ok d /\
     dict_get d "price" = Some (VFloat v) /\
     dict_get d "total" = Some (VFloat v)) \/
  (exists gc e, search commission_re text = Some gc /\
     py_float (remove_commas gc) = Raise e /\
     parse_refract_message now text = Raise e) \/
  (exists gq e, search quantity_re text = Some gq /\
     (int_max_str_digits < String.length gq)%nat /\
     py_int gq = Raise e /\
     parse_refract_message now text = Raise e).
Proof.
  intros Hprice Hfloat Htotal. unfold parse_refract_message.
  rewrite Hprice, Htotal. cbn [mbind result_bind]. rewrite Hfloat.
  cbn [mbind result_bind].
  destruct (search quantity_re text) as [gq|] eqn:Hq.
  - pose proof (quantity_group_is_number _ _ Hq) as Hint.
    destruct (Nat.ltb_spec int_max_str_digits (String.length gq)) as [Hlong|_].
    + right. right. exists gq. eexists. rewrite Hint.
      split; [reflexivity|]. split; [exact Hlong|]. split; reflexivity.
    + rewrite Hint. cbn [mbind result_bind].
      destruct (search commission_re text) as [gc|] eqn:Hc;
        [ destruct (py_float (remove_commas gc)) as [c|e] eqn:Hfc;
          cbn [mbind result_bind]; [|right; left; eauto] | ];
        left; eexists; (split; [reflexivity|]); split; lookup_through.
  - cbn [mbind result_bind].
    destruct (search commission_re text) as [gc|] eqn:Hc;
      [ destruct (py_float (remove_commas gc)) as [c|e] eqn:Hfc;
        cbn [mbind result_bind]; [|right; left; eauto] | ];
      left; eexists; (split; [reflexivity|]); split; lookup_through.
Qed.

(** Peels the binds of a validation that returned. *)
Ltac peel_binds H :=
  unfold mbind, result_bind in H;
  repeat match type of H with
    | (match ?m with Ok _ => _ | Raise _ => _ end) = Ok _ =>
        destruct m eqn:?; [cbv beta iota in H | discriminate H]
    end.

(** An optional field whose key is absent validates to [None]. *)
Lemma optional_absent {T : Type} (validate : value -> result T)
    (d : list (string * value)) (key : string) (x : option T) :
  dict_get d key = None -> optional validate d key = Ok x -> x = None.
Proof. unfold optional. intros ->. now intros [= <-]. Qed.

(** A flat object without the three total keys validates to a payload
    without them. *)
Lemma validate_without_total
    (validate_str : value -> result string)
    (validate_float : value -> result float)
    (validate_int : value -> result Z)
    (validate_email : value -> result string)
    (validate_datetime : value -> result pydatetime)
    (d : list (string * value)) (p : WebhookPayload) :
  validate_WebhookPayload validate_str validate_float validate_int
    validate_email validate_datetime (VDict d) = Ok p ->
  dict_get d "total" = None -> dict_get d "total_price" = None ->
  dict_get d "amount" = None ->
  p.(total) = None /\ p.(total_price) = None /\ p.(amount) = None.
Proof.
  intros H H1 H2 H3. unfold validate_WebhookPayload in H.
  cbv zeta in H. peel_binds H.
  injection H as <-. cbn [total total_price amount].
  repeat split; (eapply optional_absent; [|eassumption]; assumption).
Qed.

(** C6.  In a labelled text with a price and no [Total] label the total is
    the parsed price, unless the parser raises, which it does only on a
    malformed commission or on a quantity of more than 4300 digits; a flat
    object without [total], [total_price] and [amount] yields no total,
    whatever its price.  The text is taken in the ASCII range, where the
    patterns of the embedding are those of Python. *)
Theorem total_defaulting :
  (forall (now : datetime) (text g : string) (v : float),
      isascii text = true ->
      search price_re text = Some g ->
      py_float (remove_commas g) = Ok v ->
      has_label "Total" text = false ->
      (exists d, parse_refract_message now text = Ok d /\
         dict_get d "price" = Some (VFloat v) /\
         dict_get d "total" = Some (VFloat v)) \/
      (exists gc e, search commission_re text = Some gc /\
         py_float (remove_commas gc) = Raise e /\
         parse_refract_message now text = Raise e) \/
      (exists gq e, search quantity_re text = Some gq /\
         (int_max_str_digits < String.length gq)%nat /\
         py_int gq = Raise e /\
         parse_refract_message now text = Raise e)) /\
  (forall (now : datetime) (p : WebhookPayload),
      p.(total) = None -> p.(total_price) = None -> p.(amount) = None ->
      dict_get (_map_webhook_to_order now p) "total" = Some VNone) /\
  (forall validate_str validate_float validate_int validate_email
          validate_datetime (now : datetime) (d : list (string * value))
          (p : WebhookPayload),
      validate_WebhookPayload validate_str validate_float validate_int
        validate_email validate_datetime (VDict d) = Ok p ->
      dict_get d "total" = None -> dict_get d "total_price" = None ->
      dict_get d "amount" = None ->
      dict_get (_map_webhook_to_order now p) "total" = Some VNone).
Proof.
  split; [|split].
  - intros now text g v _ Hp Hf Ht.
    apply (parse_refract_message_total now text g v Hp Hf).
    now apply (search_label_absent "Total").
  - intros now p H1 H2 H3. simpl. now rewrite H1, H2, H3.
  - intros vs vf vi ve vd now d p Hv H1 H2 H3.
    destruct (validate_without_total _ _ _ _ _ _ _ Hv H1 H2 H3)
      as (E1 & E2 & E3).
    simpl. now rewrite E1, E2, E3.
Qed.

(** C6 on the text of the embed example and on a flat object with a
    price. *)
Lemma total_defaulting_witness :
  (exists d, parse_refract_message 0 refract_text = Ok d /\
     dict_get d "price" = Some (VFloat 9.99%float) /\
     dict_get d "total" = Some (VFloat 9.99%float)) /\
  (exists p,
     validate_WebhookPayload exact_str exact_float exact_int exact_str
       exact_datetime (VDict flat_priced_dict) = Ok p /\
     dict_get (_map_webhook_to_order 0 p) "price" = Some (VFloat 5%float) /\
     dict_get (_map_webhook_to_order 0 p) "total" = Some VNone).
Proof.
  destruct total_defaulting as (Htext & _ & Hflat). split.
  - destruct (Htext 0 refract_text "9.99" 9.99%float) as [H | [H | H]];
      [vm_compute; reflexivity .. | exact H | | ].
    + destruct H as (gc & e & Hc & _). vm_compute in Hc. discriminate Hc.
    + destruct H as (gq & e & Hq & _). vm_compute in Hq. discriminate Hq.
  - eexists. split; [vm_compute; reflexivity|].
    split; [vm_compute; reflexivity|].
    apply (Hflat exact_str exact_float exact_int exact_str exact_datetime 0
             flat_priced_dict); vm_compute; reflexivity.
Defined.

(** ** The embed envelope (C7) *)

Lemma py_join_strings (sep : string) (l : list string) :
  py_join sep (VStr <$> l) =
  Ok ((fix join (l : list string) : string :=
         match l with
         | [] => EmptyString
         | [x] => x
         | x :: r => (x ++ sep ++ join r)%string
         end) l).
Proof.
  induction l as [|x l IH]; [reflexivity|].
  destruct l as [|y l]; [reflexivity|].
  change (VStr <$> x :: y :: l) with (VStr x :: (VStr <$> y :: l)).
  cbn [py_join]. change (VStr y :: (VStr <$> l)) with (VStr <$> y :: l).
  rewrite IH. reflexivity.
Qed.

Lemma lines_join (l : list string) :
  (fix join (l : list string) : string :=
     match l with
     | [] => EmptyString
     | [x] => x
     | x :: r => (x ++ String nl "" ++ join r)%string
     end) l = lines l.
Proof.
  induction l as [|x l IH]; [reflexivity|].
  destruct l as [|y l]; [reflexivity|]. now rewrite IH.
Qed.

Lemma fields_parts_strings (fields : list (string * string)) :
  fields_parts (List.map (fun f => VDict [("name", VStr (fst f));
                                          ("value", VStr (snd f))]) fields)
  = Ok (VStr <$> List.concat (List.map (fun f => [fst f; snd f]) fields)).
Proof.
  induction fields as [|[n v] fields IH]; [reflexivity|].
  cbn [List.map fields_parts]. rewrite IH. reflexivity.
Qed.

(** The text parts of a well-typed embed, in the order author name, title,
    description, then each field's name and value. *)
Lemma embed_text_parts_strings (author title description : string)
    (fields : list (string * string)) :
  embed_text_parts (embed_of author title description fields)
  = Ok (VStr <$> embed_strings author title description fields).
Proof.
  unfold embed_text_parts, embed_of.
  cbn [py_contains py_getitem dict_get String.eqb Ascii.eqb Bool.eqb
       bool_decide mbind result_bind py_iter].
  simpl. rewrite fields_parts_strings. reflexivity.
Qed.

(** The example text, parsed at any time of day. *)
Lemma refract_text_parsed (now : datetime) :
  parse_refract_message now refract_text =
  Ok [("product", VStr "A"); ("price", VFloat 9.99%float);
      ("total", VFloat 9.99%float); ("order_number", VStr "123");
      ("email", VStr "e@x.com"); ("quantity", VInt 1);
      ("order_date", VDatetime now);
      ("order_time", VStr (strftime_12h now))].
Proof.
  unfold parse_refract_message.
  generalize (strftime_12h now). generalize now. clear now.
  intros now tm. vm_compute. reflexivity.
Qed.

(** An envelope whose first embed has the example text as description and
    neither author, title nor fields. *)
Lemma description_only_parsed (now : datetime) (d e : list (string * value))
    (more : list value) :
  dict_get d "embeds" = Some (VList (VDict e :: more)) ->
  dict_get e "description" = Some (VStr refract_text) ->
  dict_get e "author" = None -> dict_get e "title" = None ->
  dict_get e "fields" = None ->
  parse_discord_embed now (VDict d)
  = VDict <$> parse_refract_message now refract_text.
Proof.
  intros Hembeds Hdesc Hauthor Htitle Hfields.
  unfold parse_discord_embed. rewrite Hembeds.
  cbn [truthy negb py_len py_first mbind result_bind length].
  destruct (Z.eqb_spec (Z.of_nat (S (length more))) 0) as [Hz|_]; [lia|].
  unfold embed_text_parts. cbn [py_contains py_getitem].
  rewrite Hdesc, Hauthor, Htitle, Hfields.
  change (bool_decide (is_Some (@None value))) with false.
  change (bool_decide (is_Some (Some (VStr refract_text)))) with true.
  cbn [mbind result_bind app py_join].
  now destruct (parse_refract_message now refract_text).
Qed.

(** C7.  (1) For a well-typed first embed the parser joins author name,
    title, description and each field's name and value with line feeds and
    parses the result as labelled text.  (2) An envelope whose first embed
    carries the example description (and neither author, title nor fields)
    yields product [A], price [9.99], order number [123] without the
    leading [#], and e-mail [e@x.com].  (3) A body that decodes to such an
    envelope, and is announced or recognisable as JSON, is normalised to
    the same result. *)
Theorem embed_envelope_extraction :
  (forall (now : datetime) (author title description : string)
          (fields : list (string * string)) (more : list value),
      parse_discord_embed now
        (VDict [("embeds",
                 VList (embed_of author title description fields :: more))])
      = VDict <$> parse_refract_message now
                    (lines (embed_strings author title description fields))) /\
  (forall (now : datetime) (d e : list (string * value)) (more : list value),
      dict_get d "embeds" = Some (VList (VDict e :: more)) ->
      dict_get e "description" = Some (VStr refract_text) ->
      dict_get e "author" = None -> dict_get e "title" = None ->
      dict_get e "fields" = None ->
      exists data,
        parse_discord_embed now (VDict d) = Ok (VDict data) /\
        dict_get data "product" = Some (VStr "A") /\
        dict_get data "price" = Some (VFloat 9.99%float) /\
        dict_get data "order_number" = Some (VStr "123") /\
        dict_get data "email" = Some (VStr "e@x.com")) /\
  (forall (json_loads : string -> result value) (now : datetime)
          (body : string) (content_type : option string)
          (d e : list (string * value)) (more : list value),
      json_loads body = Ok (VDict d) ->
      says_json content_type = true \/ looks_like_json body = true ->
      dict_get d "embeds" = Some (VList (VDict e :: more)) ->
      dict_get e "description" = Some (VStr refract_text) ->
      dict_get e "author" = None -> dict_get e "title" = None ->
      dict_get e "fields" = None ->
      parse_webhook_content json_loads now body content_type
      = parse_discord_embed now (VDict d)).
Proof.
  split; [|split].
  - intros now author title description fields more.
    unfold parse_discord_embed.
    cbn [dict_get String.eqb Ascii.eqb Bool.eqb truthy negb py_len py_first
         mbind result_bind length].
    rewrite embed_text_parts_strings. cbn [mbind result_bind].
    rewrite py_join_strings, lines_join. cbn [mbind result_bind].
    now destruct (parse_refract_message now _).
  - intros now d e more H1 H2 H3 H4 H5.
    rewrite (description_only_parsed now d e more H1 H2 H3 H4 H5).
    rewrite refract_text_parsed. eexists. split; [reflexivity|].
    repeat split; reflexivity.
  - intros json_loads now body content_type d e more Hjson Hkind H1 H2 H3 H4 H5.
    pose proof (description_only_parsed now d e more H1 H2 H3 H4 H5) as Hparsed.
    rewrite refract_text_parsed in Hparsed.
    assert (Htry : try_json json_loads now body
                   = parse_discord_embed now (VDict d)).
    { unfold try_json. rewrite Hjson. cbn [mbind result_bind].
      now rewrite H1. }
    unfold parse_webhook_content. rewrite Htry, Hparsed.
    destruct (says_json content_type); [reflexivity|].
    destruct Hkind as [Hk | Hk]; [discriminate|]. now rewrite Hk.
Qed.

(** C7 on the envelope that holds nothing but the example description. *)
Lemma embed_envelope_extraction_witness :
  exists data,
    parse_discord_embed 0 embed_envelope = Ok (VDict data) /\
    dict_get data "product" = Some (VStr "A") /\
    dict_get data "price" = Some (VFloat 9.99%float) /\
    dict_get data "order_number" = Some (VStr "123") /\
    dict_get data "email" = Some (VStr "e@x.com").
Proof.
  destruct embed_envelope_extraction as (_ & Hdesc & _).
  apply (Hdesc 0 _ [("description", VStr refract_text)] []); reflexivity.
Defined.

(** ** The missing business key (C3) *)

(** Validation rejects whatever is not a dictionary with an order number. *)
Lemma validate_needs_order_number
    (validate_str : value -> result string)
    (validate_float : value -> result float)
    (validate_int : value -> result Z)
    (validate_email : value -> result string)
    (validate_datetime : value -> result pydatetime) (v : value) :
  (forall d, v = VDict d -> dict_get d "order_number" = None) ->
  exists e,
    validate_WebhookPayload validate_str validate_float validate_int
      validate_email validate_datetime v = Raise e.
Proof.
  intros Hv. destruct v; try (eexists; reflexivity).
  unfold validate_WebhookPayload, required.
  rewrite (Hv d eq_refl). eexists. reflexivity.
Qed.

(** C3 (as amended).  The normaliser itself returns what it parsed, with or
    without an order number; it is the validation that follows it in
    [_process_webhook] that raises when the order number is missing, so the
    message fails in processing and nothing is stored. *)
Theorem missing_order_number_fails_validation
    (json_loads : string -> result value)
    (validate_str : value -> result string)
    (validate_float : value -> result float)
    (validate_int : value -> result Z)
    (validate_email : value -> result string)
    (validate_datetime : value -> result pydatetime)
    (clk : clock) (m : message) (db : database) (v : value) :
  parse_webhook_content json_loads clk.(t_parse) m.(data).(body)
    (Some m.(data).(content_type)) = Ok v ->
  (forall d, v = VDict d -> dict_get d "order_number" = None) ->
  exists e,
    validate_WebhookPayload validate_str validate_float validate_int
      validate_email validate_datetime v = Raise e /\
    _process_webhook json_loads validate_str validate_float validate_int
      validate_email validate_datetime clk m db = Raise e.
Proof.
  intros Hparse Hv.
  destruct (validate_needs_order_number validate_str validate_float
              validate_int validate_email validate_datetime v Hv) as [e He].
  exists e. split; [exact He|].
  unfold _process_webhook. rewrite Hparse. cbn [mbind result_bind].
  now rewrite He.
Qed.

(** C3 on the labelled text without an order number. *)
Lemma missing_order_number_witness :
  exists e,
    _process_webhook json_loads_rejecting exact_str exact_float exact_int
      exact_str exact_datetime clock0 keyless_message empty_db = Raise e.
Proof.
  destruct (missing_order_number_fails_validation json_loads_rejecting
              exact_str exact_float exact_int exact_str exact_datetime
              clock0 keyless_message empty_db
              (VDict [("product", VStr "A"); ("quantity", VInt 1);
                      ("order_date", VDatetime 0);
                      ("order_time", VStr "12:00:00 AM")]))
    as (e & _ & He).
  - vm_compute. reflexivity.
  - intros d [= <-]. reflexivity.
  - exists e. exact He.
Defined.

(** C3 (as stated) fails: on a labelled text without an order number the
    normaliser returns a field map, and the map has no order number. *)
Lemma normaliser_returns_keyless_map :
  (fun d => (d, dict_get d "order_number"))
    <$> parse_refract_message 0 keyless_text
  = Ok ([("product", VStr "A"); ("quantity", VInt 1);
         ("order_date", VDatetime 0); ("order_time", VStr "12:00:00 AM")],
        None) /\
  parse_webhook_content json_loads_rejecting 0 keyless_text
    (Some "text/plain")
  = Ok (VDict [("product", VStr "A"); ("quantity", VInt 1);
               ("order_date", VDatetime 0);
               ("order_time", VStr "12:00:00 AM")]).
Proof. split; vm_compute; reflexivity. Qed.

(** ** Listing dead letters (C8) *)

Lemma last_drop {A : Type} (n : nat) (l : list A) :
  (n < length l)%nat -> last (drop n l) = last l.
Proof.
  intros Hn. rewrite !last_lookup, lookup_drop, length_drop.
  f_equal. lia.
Qed.

(** C8 (as amended).  For a limit of at least one, the listing is the tail
    of the dead-letter deque: at most [limit] entries, the most recently
    dead-lettered ones, in the order in which they were appended (oldest of
    them first, the most recent one last). *)
Theorem dead_letters_listing (limit : Z) (q : WebhookQueue) :
  1 <= limit ->
  let r := get_dead_letters limit q in
  Z.of_nat (length r) <= limit /\
  r = lastn (Z.to_nat limit) q.(dead_letter_queue) /\
  (exists older, q.(dead_letter_queue) = older ++ r) /\
  last r = last q.(dead_letter_queue).
Proof.
  intros Hl. cbv zeta. unfold get_dead_letters, slice_from, lastn.
  set (l := q.(dead_letter_queue)).
  assert (Hneg : (- limit <? 0) = true) by (apply Z.ltb_lt; lia).
  rewrite Hneg.
  replace (Z.to_nat (Z.max (- limit + Z.of_nat (length l)) 0))
    with (length l - Z.to_nat limit)%nat by lia.
  repeat split.
  - rewrite length_drop. lia.
  - exists (take (length l - Z.to_nat limit) l). now rewrite take_drop.
  - destruct l as [|x l']; [reflexivity|].
    apply last_drop. simpl. lia.
Qed.

(** C8 on two dead letters and a limit of two. *)
Lemma dead_letters_listing_witness :
  Z.of_nat (length (get_dead_letters 2 two_dead_letters)) <= 2 /\
  last (get_dead_letters 2 two_dead_letters)
    = last two_dead_letters.(dead_letter_queue).
Proof.
  destruct (dead_letters_listing 2 two_dead_letters) as (H1 & _ & _ & H4);
    [lia|]. split; [exact H1 | exact H4].
Defined.

(** C8 (as stated) fails: the envelope that failed first is listed first,
    where most-recent-first would list it last. *)
Lemma dead_letters_oldest_first :
  (fun m => (m.(data).(body), m.(failed_at)))
    <$> two_dead_letters.(dead_letter_queue)
    = [("first", Some 31); ("second", Some 41)] /\
  (fun m => (m.(data).(body), m.(failed_at)))
    <$> get_dead_letters 2 two_dead_letters
    = [("first", Some 31); ("second", Some 41)] /\
  (fun m => (m.(data).(body), m.(failed_at)))
    <$> spec_get_dead_letters 2 two_dead_letters
    = [("second", Some 41); ("first", Some 31)].
Proof. repeat split; vm_compute; reflexivity. Qed.

(** ** Retry, then dead letter (C2) *)

Section WorkerFacts.
Context {W : Type}.
Variable process : clock -> message -> W -> result W.

(** The four things an iteration can do. *)
Lemma worker_iteration_cases (clk : clock) (q q1 : WebhookQueue) (w w1 : W)
    (o : outcome) :
  worker_iteration process clk q w = (q1, w1, o) ->
  q1.(is_running) = q.(is_running) /\
  q1.(max_retries) = q.(max_retries) /\
  ((q.(queue) = [] /\ q1 = q /\ w1 = w /\ o = Idle) \/
   (exists h t, q.(queue) = h :: t /\ process clk h w = Ok w1 /\
      o = Committed h /\ q1.(queue) = t /\
      q1.(dead_letter_queue) = q.(dead_letter_queue) /\
      q1.(total_failed) = q.(total_failed)) \/
   (exists h t e, q.(queue) = h :: t /\ process clk h w = Raise e /\
      h.(retry_count) + 1 <= q.(max_retries) /\
      o = Requeued (retried h) /\ q1.(queue) = t ++ [retried h] /\
      q1.(dead_letter_queue) = q.(dead_letter_queue) /\
      q1.(total_failed) = q.(total_failed) /\ w1 = w) \/
   (exists h t e, q.(queue) = h :: t /\ process clk h w = Raise e /\
      q.(max_retries) < h.(retry_count) + 1 /\
      o = DeadLettered (dead_letter_of clk.(t_end) e (retried h)) /\
      q1.(queue) = t /\
      q1.(dead_letter_queue) =
        deque_append dead_letter_maxlen q.(dead_letter_queue)
          (dead_letter_of clk.(t_end) e (retried h)) /\
      q1.(total_failed) = q.(total_failed) + 1 /\ w1 = w)).
Proof.
  unfold worker_iteration.
  destruct q.(queue) as [|h t] eqn:Hq.
  - intros [= <- <- <-]. do 2 (split; [reflexivity|]). left. repeat split.
  - destruct (process clk h w) as [w'|e] eqn:Hp.
    + intros [= <- <- <-]. do 2 (split; [reflexivity|]). right. left.
      exists h, t. repeat split. exact Hp.
    + cbv zeta. cbn [retried retry_count].
      destruct (Z.leb_spec (h.(retry_count) + 1) q.(max_retries)) as [Hle|Hgt];
        intros [= <- <- <-]; do 2 (split; [reflexivity|]); right; right;
        [left | right]; exists h, t, e; repeat split; assumption.
Qed.

(** A run unrolled by one iteration. *)
Lemma worker_cons (clk : clock) (clks : list clock) (q : WebhookQueue)
    (w : W) :
  q.(is_running) = true ->
  _worker process (clk :: clks) q w =
  let it := worker_iteration process clk q w in
  let rest := _worker process clks it.1.1 it.1.2 in
  (rest.1.1, rest.1.2, it.2 :: rest.2).
Proof.
  intros Hr. cbn [_worker]. rewrite Hr.
  destruct (worker_iteration process clk q w) as [[q1 w1] o].
  cbn [fst snd].
  now destruct (_worker process clks q1 w1) as [[q2 w2] os].
Qed.

Lemma work_app (n : Z) (l1 l2 : list message) :
  work n (l1 ++ l2) = (work n l1 + work n l2)%nat.
Proof. induction l1 as [|m l1 IH]; simpl; [reflexivity | rewrite IH; lia]. Qed.

(** Enough iterations drain the queue. *)
Lemma worker_drains (clks : list clock) :
  forall (q : WebhookQueue) (w : W),
    q.(is_running) = true ->
    Forall (fun m => m.(retry_count) <= q.(max_retries)) q.(queue) ->
    (work q.(max_retries) q.(queue) <= length clks)%nat ->
    (_worker process clks q w).1.1.(queue) = [].
Proof.
  induction clks as [|clk clks IH]; intros q w Hrun Hb Hw.
  - cbn [_worker fst]. destruct q.(queue) as [|h t]; [reflexivity|].
    apply Forall_cons in Hb as [Hh _]. simpl in Hw. lia.
  - rewrite worker_cons by assumption. cbv zeta. cbn [fst snd].
    destruct (worker_iteration process clk q w) as [[q1 w1] o] eqn:Hit.
    cbn [fst snd].
    apply worker_iteration_cases in Hit as (Hr1 & Hm1 & Hcases).
    apply IH; [congruence | |]; rewrite Hm1.
    + destruct Hcases as [(Hq & -> & _) | [(h & t & Hq & _ & _ & Hq1 & _)
        | [(h & t & e & Hq & _ & Hle & _ & Hq1 & _)
          | (h & t & e & Hq & _ & _ & _ & Hq1 & _)]]];
        [assumption | rewrite Hq in Hb; rewrite Hq1 ..];
        apply Forall_cons in Hb as [Hh Ht]; try assumption.
      apply Forall_app. split; [assumption|].
      apply Forall_singleton. cbn [retried retry_count]. exact Hle.
    + simpl in Hw.
      destruct Hcases as [(Hq & -> & _) | [(h & t & Hq & _ & _ & Hq1 & _)
        | [(h & t & e & Hq & _ & Hle & _ & Hq1 & _)
          | (h & t & e & Hq & _ & _ & _ & Hq1 & _)]]].
      * rewrite Hq. simpl. lia.
      * rewrite Hq in Hw, Hb. rewrite Hq1.
        apply Forall_cons in Hb as [Hh _]. simpl in Hw. lia.
      * rewrite Hq in Hw, Hb. rewrite Hq1, work_app.
        apply Forall_cons in Hb as [Hh _]. simpl in Hw |- *. lia.
      * rewrite Hq in Hw, Hb. rewrite Hq1.
        apply Forall_cons in Hb as [Hh _]. simpl in Hw. lia.
Qed.

(** Every dead letter of a run is counted once in [total_failed] and
    appended once to the dead-letter deque. *)
Lemma worker_counts (clks : list clock) :
  forall (q : WebhookQueue) (w : W),
    let r := _worker process clks q w in
    r.1.1.(total_failed) =
      q.(total_failed) + Z.of_nat (length (dead_lettered r.2)) /\
    r.1.1.(dead_letter_queue) =
      fold_left (deque_append dead_letter_maxlen) (dead_lettered r.2)
        q.(dead_letter_queue) /\
    r.1.1.(max_retries) = q.(max_retries).
Proof.
  induction clks as [|clk clks IH]; intros q w; cbv zeta.
  - cbn [_worker fst snd dead_lettered length fold_left]. split; [lia|]. now split.
  - destruct q.(is_running) eqn:Hrun.
    2: { cbn [_worker]. rewrite Hrun.
         cbn [fst snd dead_lettered length fold_left]. split; [lia|]. now split. }
    rewrite worker_cons by assumption. cbv zeta. cbn [fst snd].
    destruct (worker_iteration process clk q w) as [[q1 w1] o] eqn:Hit.
    cbn [fst snd].
    apply worker_iteration_cases in Hit as (_ & Hm1 & Hcases).
    destruct (IH q1 w1) as (Hf & Hd & Hm). rewrite Hf, Hd, Hm.
    destruct Hcases as [(_ & -> & _ & ->) | [(h & t & _ & _ & -> & _ & Hd1 & Hf1)
      | [(h & t & e & _ & _ & _ & -> & _ & Hd1 & Hf1 & _)
        | (h & t & e & _ & _ & _ & -> & _ & Hd1 & Hf1 & _)]]];
      cbn [dead_lettered length fold_left];
      try rewrite Hd1; try rewrite Hf1; (split; [lia|]); now split.
Qed.

(** An envelope that is not in the queue is not heard of again. *)
Lemma worker_ignores_absent (mid : datetime * Z) (clks : list clock) :
  forall (q : WebhookQueue) (w : W),
    Forall (fun m => same_id mid m = false) q.(queue) ->
    let r := _worker process clks q w in
    requeues_of mid r.2 = 0%nat /\
    List.filter (same_id mid) (dead_lettered r.2) = [].
Proof.
  induction clks as [|clk clks IH]; intros q w Hq; cbv zeta.
  - now cbn.
  - destruct q.(is_running) eqn:Hrun.
    2: { cbn [_worker]. rewrite Hrun. now cbn. }
    rewrite worker_cons by assumption. cbv zeta. cbn [fst snd].
    destruct (worker_iteration process clk q w) as [[q1 w1] o] eqn:Hit.
    cbn [fst snd].
    apply worker_iteration_cases in Hit as (_ & _ & Hcases).
    destruct Hcases as [(_ & -> & _ & ->) | [(h & t & Hq0 & _ & -> & Hq1 & _)
      | [(h & t & e & Hq0 & _ & _ & -> & Hq1 & _)
        | (h & t & e & Hq0 & _ & _ & -> & Hq1 & _)]]].
    + now apply IH.
    + rewrite Hq0 in Hq. apply Forall_cons in Hq as [Hh Ht].
      apply IH. now rewrite Hq1.
    + rewrite Hq0 in Hq. apply Forall_cons in Hq as [Hh Ht].
      cbn [requeues_of dead_lettered].
      change (same_id mid (retried h)) with (same_id mid h). rewrite Hh.
      apply IH. rewrite Hq1. apply Forall_app. split; [assumption|].
      now apply Forall_singleton.
    + rewrite Hq0 in Hq. apply Forall_cons in Hq as [Hh Ht].
      cbn [requeues_of dead_lettered List.filter].
      change (same_id mid (dead_letter_of (t_end clk) e (retried h)))
        with (same_id mid h). rewrite Hh.
      apply IH. now rewrite Hq1.
Qed.

Lemma same_id_refl (m : message) : same_id m.(message_id) m = true.
Proof. unfold same_id. now rewrite !Z.eqb_refl. Qed.

(** The envelope [mid], queued once with [r] retries behind it and
    failing whenever it is processed, is put back until its counter
    passes [max_retries] and is then dead-lettered, once all of this has
    left the queue. *)
Lemma worker_tracks (mid : datetime * Z) (clks : list clock) :
  forall (q : WebhookQueue) (w : W) (before after : list message)
         (m : message),
    q.(is_running) = true ->
    q.(queue) = before ++ m :: after ->
    same_id mid m = true ->
    Forall (fun m' => same_id mid m' = false) (before ++ after) ->
    m.(retry_count) <= q.(max_retries) ->
    (forall clk m' w, same_id mid m' = true ->
                      exists e, process clk m' w = Raise e) ->
    let r := _worker process clks q w in
    Forall (fun m' => same_id mid m' = false) r.1.1.(queue) ->
    requeues_of mid r.2 = Z.to_nat (q.(max_retries) - m.(retry_count)) /\
    exists dead,
      List.filter (same_id mid) (dead_lettered r.2) = [dead] /\
      dead.(retry_count) = q.(max_retries) + 1 /\
      is_Some dead.(error) /\ dead.(data) = m.(data).
Proof.
  induction clks as [|clk clks IH];
    intros q w before after m Hrun Hq Hm Hothers Hrc Hfail; cbv zeta.
  - cbn [_worker fst snd]. rewrite Hq. intros Hfinal.
    apply Forall_app in Hfinal as [_ Hfinal].
    apply Forall_cons in Hfinal as [Hfinal _]. congruence.
  - rewrite worker_cons by assumption. cbv zeta. cbn [fst snd].
    destruct (worker_iteration process clk q w) as [[q1 w1] o] eqn:Hit.
    cbn [fst snd].
    apply worker_iteration_cases in Hit as (Hr1 & Hm1 & Hcases).
    rewrite Hrun in Hr1.
    destruct before as [|b before]; cbn [app] in Hq, Hothers.
    + (* the envelope is at the head *)
      destruct (Hfail clk m w Hm) as [e0 He0].
      destruct Hcases as [(Hq0 & _) | [(h & t & Hq0 & Hp & _)
        | [(h & t & e & Hq0 & Hp & Hle & -> & Hq1 & _)
          | (h & t & e & Hq0 & Hp & Hgt & -> & Hq1 & _)]]];
        rewrite Hq in Hq0; try discriminate;
        injection Hq0 as <- <-; try congruence.
      * intros Hfinal.
        destruct (IH q1 w1 after [] (retried m) Hr1 Hq1 Hm) as (Hn & dead & Hd);
          [ now rewrite app_nil_r
          | rewrite Hm1; exact Hle
          | exact Hfail
          | exact Hfinal | ].
        cbn [requeues_of dead_lettered].
        change (same_id mid (retried m)) with (same_id mid m). rewrite Hm.
        rewrite Hn, Hm1. cbn [retried retry_count]. split; [lia|].
        rewrite Hm1 in Hd. exists dead. exact Hd.
      * intros _.
        destruct (worker_ignores_absent mid clks q1 w1) as (Hn & Hd);
          [now rewrite Hq1|].
        cbn [requeues_of dead_lettered List.filter].
        change (same_id mid (dead_letter_of (t_end clk) e (retried m)))
          with (same_id mid m).
        rewrite Hm, Hn, Hd. split; [lia|].
        eexists. split; [reflexivity|].
        cbn [dead_letter_of retried retry_count error data].
        split; [lia|]. split; [eexists; reflexivity | reflexivity].
    + (* another message is at the head *)
      apply Forall_cons in Hothers as [Hb Hothers].
      destruct Hcases as [(Hq0 & _) | [(h & t & Hq0 & _ & -> & Hq1 & _)
        | [(h & t & e & Hq0 & _ & _ & -> & Hq1 & _)
          | (h & t & e & Hq0 & _ & _ & -> & Hq1 & _)]]];
        rewrite Hq in Hq0; try discriminate;
        injection Hq0 as <- <-; intros Hfinal;
        cbn [requeues_of dead_lettered List.filter].
      * rewrite <- Hm1.
        apply (IH q1 w1 before after m); try assumption; congruence.
      * change (same_id mid (retried b)) with (same_id mid b). rewrite Hb.
        rewrite <- Hm1.
        apply (IH q1 w1 before (after ++ [retried b]) m); try assumption.
        -- now rewrite Hq1, <- app_assoc.
        -- rewrite app_assoc. apply Forall_app. split; [assumption|].
           now apply Forall_singleton.
        -- congruence.
      * change (same_id mid (dead_letter_of (t_end clk) e (retried b)))
          with (same_id mid b). rewrite Hb.
        rewrite <- Hm1.
        apply (IH q1 w1 before after m); try assumption; congruence.
Qed.
End WorkerFacts.

(** The bounded deque keeps the last entries of everything appended. *)
Lemma lastn_app_lastn {A : Type} (n : nat) (a b : list A) :
  lastn n (lastn n a ++ b) = lastn n (a ++ b).
Proof.
  unfold lastn. rewrite !length_app, length_drop.
  destruct (decide (length a <= n)%nat) as [Hle|Hgt].
  - replace (length a - n)%nat with 0%nat by lia. now rewrite drop_0, Nat.sub_0_r.
  - replace (length a - (length a - n) + length b - n)%nat
      with (length b) by lia.
    replace (length a + length b - n)%nat
      with ((length a - n) + length b)%nat by lia.
    rewrite <- drop_drop. now rewrite (drop_app_le a b) by lia.
Qed.

Lemma fold_deque_append {A : Type} (n : nat) (D : list A) :
  forall l : list A,
    D <> [] ->
    fold_left (deque_append n) D l = lastn n (l ++ D).
Proof.
  induction D as [|x D IH]; intros l HD; [contradiction|].
  cbn [fold_left]. destruct D as [|y D].
  - reflexivity.
  - rewrite IH by discriminate. unfold deque_append.
    change (drop (length (l ++ [x]) - n) (l ++ [x])) with (lastn n (l ++ [x])).
    rewrite lastn_app_lastn. now rewrite <- app_assoc.
Qed.

Lemma elem_of_lastn_app {A : Type} (n : nat) (l D : list A) (x : A) :
  x ∈ D -> (length D <= n)%nat -> x ∈ lastn n (l ++ D).
Proof.
  intros Hx Hn. unfold lastn. rewrite length_app.
  rewrite drop_app_le by lia. apply elem_of_app. now right.
Qed.

(** C2.  An envelope that sits in the queue of a running worker with a
    retry count of zero, and whose processing raises on every attempt, is
    put back exactly [max_retries] times; it is then dead-lettered, once,
    with a retry count of [max_retries + 1] and the text of the exception;
    [total_failed] grows by one for each dead letter of the run, so by one
    for this envelope; and the dead letter is in the deque at the end of the
    run unless more than its capacity were written.  The other messages in
    the queue are arbitrary, and the run has as many iterations as drain
    the queue. *)
Theorem retry_then_dead_letter {W : Type}
    (process : clock -> message -> W -> result W) (clks : list clock)
    (q : WebhookQueue) (w : W) (before after : list message) (m : message) :
  q.(is_running) = true ->
  q.(queue) = before ++ m :: after ->
  Forall (fun m' => same_id m.(message_id) m' = false) (before ++ after) ->
  m.(retry_count) = 0 ->
  0 <= q.(max_retries) ->
  Forall (fun m' => m'.(retry_count) <= q.(max_retries)) (before ++ after) ->
  (forall clk m' w', same_id m.(message_id) m' = true ->
                     exists e, process clk m' w' = Raise e) ->
  (work q.(max_retries) q.(queue) <= length clks)%nat ->
  let r := _worker process clks q w in
  requeues_of m.(message_id) r.2 = Z.to_nat q.(max_retries) /\
  (exists dead,
      List.filter (same_id m.(message_id)) (dead_lettered r.2) = [dead] /\
      dead.(retry_count) = q.(max_retries) + 1 /\
      is_Some dead.(error) /\
      dead.(data) = m.(data) /\
      ((length (dead_lettered r.2) <= dead_letter_maxlen)%nat ->
       dead ∈ r.1.1.(dead_letter_queue))) /\
  r.1.1.(total_failed) =
    q.(total_failed) + Z.of_nat (length (dead_lettered r.2)) /\
  r.1.1.(queue) = [].
Proof.
  intros Hrun Hq Hothers Hrc Hmax Hbound Hfail Hfuel. cbv zeta.
  assert (Hall : Forall (fun m' => m'.(retry_count) <= q.(max_retries))
                   q.(queue)).
  { rewrite Hq. apply Forall_app in Hbound as [Hb1 Hb2].
    apply Forall_app. split; [assumption|].
    apply Forall_cons. split; [lia | assumption]. }
  pose proof (worker_drains process clks q w Hrun Hall Hfuel) as Hdrained.
  destruct (worker_counts process clks q w) as (Hfailed & Hdlq & _).
  destruct (worker_tracks process m.(message_id) clks q w before after m
              Hrun Hq (same_id_refl m) Hothers ltac:(lia) Hfail)
    as (Hn & dead & Hdead & Hdrc & Herr & Hdata).
  { rewrite Hdrained. constructor. }
  split; [rewrite Hn; f_equal; lia|].
  split; [|split; assumption].
  exists dead. repeat split; try assumption.
  intros Hlen. rewrite Hdlq.
  assert (Hin : dead ∈ dead_lettered (_worker process clks q w).2).
  { apply list_elem_of_In.
    apply (proj1 (filter_In (same_id m.(message_id)) dead _)).
    rewrite Hdead. now left. }
  rewrite fold_deque_append.
  - now apply elem_of_lastn_app.
  - intros Hnil. rewrite Hnil in Hin. now apply elem_of_nil in Hin.
Qed.

(** C2 on one envelope, three retries and a processing step that always
    raises: three requeues, then one dead letter with a count of four. *)
Lemma retry_then_dead_letter_witness :
  let r := _worker (always_raises "boom")
             (repeat clock0 4) one_message_queue tt in
  requeues_of (10, 0) r.2 = 3%nat /\
  (exists dead,
      List.filter (same_id (10, 0)) (dead_lettered r.2) = [dead] /\
      dead.(retry_count) = 4 /\ is_Some dead.(error) /\
      dead ∈ r.1.1.(dead_letter_queue)) /\
  r.1.1.(total_failed) = 1 /\
  r.1.1.(queue) = [].
Proof.
  cbv zeta.
  destruct (retry_then_dead_letter (always_raises "boom") (repeat clock0 4)
              one_message_queue tt [] []
              (mkMessage (mkWebhookData "body" "text/plain") 10 0 (10, 0)
                 None None))
    as (Hn & (dead & Hd & Hrc & He & _ & Hin) & Hf & Hq);
    [ reflexivity | reflexivity | constructor | reflexivity
    | vm_compute; discriminate | constructor
    | intros; eexists; reflexivity | vm_compute; lia | ].
  split; [exact Hn|]. split; [|split; [|exact Hq]].
  - exists dead. repeat split; try assumption.
    apply Hin. vm_compute. lia.
  - rewrite Hf. vm_compute. reflexivity.
Defined.

(** ** When a replay is silent *)

(** With a date of its own, the payload maps to the same dictionary at any
    time. *)
Lemma map_independent_of_clock (t1 t2 : datetime) (p : WebhookPayload) :
  has_date p = true ->
  _map_webhook_to_order t2 p = _map_webhook_to_order t1 p.
Proof.
  unfold has_date, _map_webhook_to_order.
  destruct p.(order_date), p.(created_at), p.(date); simpl;
    now (reflexivity || discriminate).
Qed.

Lemma py_or_comes_back (a b : value) :
  comes_back a -> comes_back b -> comes_back (py_or a b).
Proof. unfold py_or. now destruct (truthy a). Qed.

Lemma ostr_comes_back (o : option string) : comes_back (ostr o).
Proof. destruct o; unfold comes_back; simpl; [apply String.eqb_refl | reflexivity]. Qed.

Lemma oint_comes_back (o : option Z) : comes_back (oint o).
Proof. destruct o; unfold comes_back; simpl; [apply Z.eqb_refl | reflexivity]. Qed.

Lemma odatetime_comes_back (o : option pydatetime) :
  is_naive o = true -> comes_back (odatetime o).
Proof.
  destruct o as [[t|t off]|]; unfold comes_back; simpl;
    [intros _; apply Z.eqb_refl | discriminate | reflexivity].
Qed.

Lemma ofloat_comes_back (o : option float) :
  not_nan o = true -> comes_back (ofloat o).
Proof.
  destruct o as [f|]; unfold comes_back; simpl; [|reflexivity].
  intros H. now rewrite H.
Qed.

Lemma str_dict_get_comes_back (d : list (string * string)) (k : string) :
  comes_back (str_dict_get d k).
Proof.
  induction d as [|[a b] d IH]; simpl; [reflexivity|].
  destruct (String.eqb a k); [apply String.eqb_refl | exact IH].
Qed.

Lemma map_status_comes_back (p : WebhookPayload) : comes_back (map_status p).
Proof.
  unfold map_status.
  destruct (truthy (py_or (ostr p.(status)) (ostr p.(order_status))));
    [|reflexivity].
  destruct (py_or (ostr p.(status)) (ostr p.(order_status)));
    try reflexivity. apply str_dict_get_comes_back.
Qed.

(** Without NaN and without aware dates every value of the mapping comes
    back from the driver equal to what went in. *)
Lemma map_comes_back (now : datetime) (p : WebhookPayload) :
  nan_free p = true ->
  naive_dates p = true ->
  Forall (fun kv => comes_back kv.2) (_map_webhook_to_order now p).
Proof.
  unfold nan_free, naive_dates. intros H Hd.
  repeat (apply andb_prop in H as [H ?]).
  repeat (apply andb_prop in Hd as [Hd ?]).
  unfold _map_webhook_to_order.
  repeat (apply Forall_cons; split); try apply Forall_nil; cbn [snd];
    repeat (apply py_or_comes_back);
    first [ apply ostr_comes_back | apply oint_comes_back
          | now apply odatetime_comes_back | now apply ofloat_comes_back
          | apply map_status_comes_back
          | unfold comes_back; simpl; apply String.eqb_refl
          | unfold comes_back; simpl; apply Z.eqb_refl
          | reflexivity ].
Qed.

(** A loop over values the row already holds changes nothing. *)
Lemma update_fold_noop (new_data : list (string * value)) (o : Order)
    (ch : list change) :
  Forall (fun kv => kv.1 = "order_number" \/ kv.1 = "source" \/
                    kv.2 = VNone \/ py_eq (getattr o kv.1) kv.2 = true)
         new_data ->
  fold_left update_field new_data (o, ch) = (o, ch).
Proof.
  induction new_data as [|[k v] l IH]; intros H; [reflexivity|].
  apply Forall_cons in H as [Hkv Hl]. cbn [fold_left].
  replace (update_field (o, ch) (k, v)) with (o, ch); [now apply IH|].
  unfold update_field. cbn [fst snd] in Hkv.
  destruct Hkv as [-> | [-> | [-> | Heq]]]; try reflexivity;
    (destruct (String.eqb k "order_number" || String.eqb k "source");
     [reflexivity|]);
    [reflexivity|].
  destruct v; try reflexivity; now rewrite Heq.
Qed.

(** The loop leaves the business key alone, although the dictionary
    carries it. *)
Lemma update_fold_skips (new_data : list (string * value)) (k : string) :
  forall (o o' : Order) (ch ch' : list change),
    k = "order_number" \/ k = "source" \/ k ∉ new_data.*1 ->
    fold_left update_field new_data (o, ch) = (o', ch') ->
    getattr o' k = getattr o k.
Proof.
  induction new_data as [|[k1 v1] l IH]; intros o o' ch ch' Hk Hf;
    cbn [fold_left] in Hf.
  - now injection Hf as <- <-.
  - assert (Hk' : k = "order_number" \/ k = "source" \/ k ∉ l.*1).
    { destruct Hk as [? | [? | Hk]]; auto. right. right.
      now apply not_elem_of_cons in Hk as [_ ?]. }
    unfold update_field in Hf at 2.
    destruct (String.eqb k1 "order_number" || String.eqb k1 "source") eqn:Es;
      [now apply (IH _ _ _ _ Hk' Hf)|].
    assert (Hne : k1 <> k).
    { apply orb_false_elim in Es as [E1 E2].
      apply String.eqb_neq in E1, E2.
      destruct Hk as [-> | [-> | Hk]]; [congruence | congruence |].
      apply not_elem_of_cons in Hk as [Hk _]. cbn [fst] in Hk. congruence. }
    destruct v1; try (now apply (IH _ _ _ _ Hk' Hf));
      match type of Hf with
      | context [ if ?c then _ else _ ] => destruct c
      end;
      try (now apply (IH _ _ _ _ Hk' Hf));
      rewrite (IH _ _ _ _ Hk' Hf); now apply getattr_setattr_ne.
Qed.

(** A commit leaves the rows with other keys alone. *)
Lemma commit_order_others (o1 : Order) (target n : Z) (rows : list Order) :
  getattr o1 "id" = VInt target ->
  (forall (i : nat) (o : Order),
      rows !! i = Some o -> getattr o "id" = VInt (n + Z.of_nat i)) ->
  target < n ->
  commit_order o1 rows = rows.
Proof.
  intros Hid. revert n. induction rows as [|r rows IH]; intros n Hrows Hlt;
    [reflexivity|].
  unfold commit_order. cbn [fmap list_fmap]. f_equal.
  - rewrite (Hrows 0%nat r eq_refl), Hid. cbn [py_eq].
    destruct (Z.eqb_spec (n + Z.of_nat 0) target); [lia | reflexivity].
  - apply (IH (n + 1)); [|lia].
    intros i o Hi. rewrite (Hrows (S i) o Hi). f_equal. lia.
Qed.

(** A commit replaces the row that has the key of the session's copy. *)
Lemma commit_order_replaces (o0 o1 : Order) (l1 l2 : list Order) :
  forall n : Z,
    (forall (i : nat) (o : Order),
        (l1 ++ o0 :: l2) !! i = Some o ->
        getattr o "id" = VInt (n + Z.of_nat i)) ->
    getattr o1 "id" = getattr o0 "id" ->
    commit_order o1 (l1 ++ o0 :: l2) = l1 ++ o1 :: l2.
Proof.
  induction l1 as [|a l1 IH]; intros n Hrows Hid.
  - cbn [app] in *.
    pose proof (Hrows 0%nat o0 eq_refl) as H0.
    assert (Htail : commit_order o1 l2 = l2).
    { apply (commit_order_others o1 (n + Z.of_nat 0) (n + 1));
        [congruence | | lia].
      intros i o Hi. rewrite (Hrows (S i) o Hi). f_equal. lia. }
    change (commit_order o1 (o0 :: l2)) with
      ((if py_eq (getattr o0 "id") (getattr o1 "id") then o1 else o0)
       :: commit_order o1 l2).
    rewrite Htail, Hid, H0. cbn [py_eq]. now rewrite Z.eqb_refl.
  - cbn [app].
    pose proof (Hrows 0%nat a eq_refl) as Ha.
    assert (H0 : getattr o0 "id" = VInt (n + Z.of_nat (S (length l1)))).
    { apply Hrows. cbn. now apply list_lookup_middle. }
    assert (Htail : commit_order o1 (l1 ++ o0 :: l2) = l1 ++ o1 :: l2).
    { apply (IH (n + 1)); [|exact Hid].
      intros i o Hi. rewrite (Hrows (S i) o Hi). f_equal. lia. }
    change (commit_order o1 (a :: l1 ++ o0 :: l2)) with
      ((if py_eq (getattr a "id") (getattr o1 "id") then o1 else a)
       :: commit_order o1 (l1 ++ o0 :: l2)).
    rewrite Htail, Hid, Ha, H0. cbn [py_eq].
    destruct (Z.eqb_spec (n + Z.of_nat 0) (n + Z.of_nat (S (length l1))));
      [lia | reflexivity].
Qed.

(** The row found is the only row with the business key. *)
Lemma found_row_splits (k : string) (rows : list Order) (o0 : Order) :
  List.filter (has_number k) rows = [o0] ->
  exists l1 l2, rows = l1 ++ o0 :: l2 /\ has_number k o0 = true /\
                List.filter (has_number k) l1 = [] /\
                List.filter (has_number k) l2 = [].
Proof.
  intros Hf.
  assert (Hin : In o0 (List.filter (has_number k) rows)) by (rewrite Hf; now left).
  apply filter_In in Hin as [Hin Hk].
  apply list_elem_of_In, list_elem_of_split in Hin as (l1 & l2 & ->).
  exists l1, l2. split; [reflexivity|]. split; [exact Hk|].
  rewrite List.filter_app in Hf. cbn [List.filter] in Hf. rewrite Hk in Hf.
  destruct (List.filter (has_number k) l1) as [|x r].
  - split; [reflexivity|]. now injection Hf.
  - injection Hf as _ Hf. now destruct r.
Qed.

(** Replacing the middle row keeps the keys sequential. *)
Lemma sequential_ids_replace (o0 o1 : Order) (l1 l2 : list Order) :
  sequential_ids (l1 ++ o0 :: l2) ->
  getattr o1 "id" = getattr o0 "id" ->
  sequential_ids (l1 ++ o1 :: l2).
Proof.
  intros Hwf Hid i o Hi.
  destruct (lt_eq_lt_dec i (length l1)) as [[Hlt|Heq]|Hgt].
  - rewrite lookup_app_l in Hi by lia. apply Hwf.
    now rewrite lookup_app_l by lia.
  - subst i. rewrite list_lookup_middle in Hi by reflexivity.
    injection Hi as <-. rewrite Hid. apply Hwf.
    now apply list_lookup_middle.
  - rewrite lookup_app_r in Hi by lia. apply Hwf.
    rewrite lookup_app_r by lia.
    destruct (i - length l1)%nat as [|j] eqn:E; [lia | exact Hi].
Qed.

Lemma get_order_found (db : database) (k : string) (o0 : Order) :
  _get_order_by_number db k = Ok (Some o0) -> rows_with_number k db = [o0].
Proof.
  unfold _get_order_by_number.
  destruct (rows_with_number k db) as [|a [|b r]]; try discriminate.
  now intros [= ->].
Qed.

Lemma get_order_none (db : database) (k : string) :
  _get_order_by_number db k = Ok None -> rows_with_number k db = [].
Proof.
  unfold _get_order_by_number.
  now destruct (rows_with_number k db) as [|a [|b r]].
Qed.

(** What an update writes: nothing when the loop recorded no change;
    otherwise the row found is replaced in place by the row returned and one
    [updated] event, carrying the changes and the primary key of the row,
    is appended.  The row returned holds, for every change, the value as
    the driver hands it back. *)
Lemma update_existing_shape (t_db : datetime) (o0 : Order)
    (d : list (string * value)) (p : WebhookPayload) (db db1 : database)
    (o1 : Order) (k : string) :
  sequential_ids db.(orders) ->
  rows_with_number k db = [o0] ->
  NoDup d.*1 -> "id" ∉ d.*1 -> "updated_at" ∉ d.*1 ->
  _update_existing_order t_db o0 d p db = Ok (db1, o1) ->
  exists ch,
    (forall k' old v,
        (k', old, v) ∈ ch ->
        (k', v) ∈ d /\ v <> VNone /\
        k' <> "order_number" /\ k' <> "source" /\
        getattr o0 k' = old /\ getattr o1 k' = sqlite_roundtrip v /\
        sqlite_overflows v = false /\ py_eq old v = false) /\
    (forall k', k' <> "updated_at" ->
                (forall old v, (k', old, v) ∉ ch) ->
                getattr o1 k' = getattr o0 k') /\
    ((ch = [] /\ db1 = db /\ o1 = o0) \/
     (ch <> [] /\ getattr o1 "updated_at" = VDatetime t_db /\
      exists l1 l2,
        db.(orders) = l1 ++ o0 :: l2 /\
        db1.(orders) = l1 ++ o1 :: l2 /\
        db1.(events) =
          db.(events) ++
          [mkOrderEvent (Z.of_nat (length l1) + 1) "updated" ch p "webhook"
                        t_db])).
Proof.
  intros Hwf Hrows Hnd Hnoid Hnoupd H.
  destruct (found_row_splits _ _ _ Hrows) as (l1 & l2 & Hsplit & Hk & Hf1 & Hf2).
  apply update_existing_result in H as (o' & ch & Hfold & Hcases).
  destruct (update_fold_exact _ _ _ _ _ Hnd Hfold)
    as (new & Hnew & Hin & Hout & _).
  cbn [app] in Hnew. subst new.
  pose proof (update_fold_changes _ _ _ _ _ Hfold) as (new & Hnew & Hsame).
  cbn [app] in Hnew. subst new.
  assert (Hkeys : forall k' old v, (k', old, v) ∈ ch -> k' ∈ d.*1).
  { intros k' old v Hc. destruct (Hin _ _ _ Hc) as (Hd & _).
    now apply (list_elem_of_fmap_2 fst _ (k', v)). }
  assert (Huniq : forall k' old v old' v',
             (k', old, v) ∈ ch -> (k', old', v') ∈ ch -> v' = v).
  { intros k' old v old' v' Hc Hc'.
    destruct (Hin _ _ _ Hc) as (Hd & _). destruct (Hin _ _ _ Hc') as (Hd' & _).
    apply elem_of_dict_get in Hd, Hd'; try exact Hnd. congruence. }
  exists ch. destruct Hcases as [(-> & -> & ->) | (Hne & Hov & -> & ->)].
  - rewrite Hsame by reflexivity.
    split; [|split; [reflexivity | now left]].
    intros k' old v Hk'. now apply elem_of_nil in Hk'.
  - assert (Hget : forall k', k' <> "updated_at" ->
               (forall old v, (k', old, v) ∉ ch) ->
               getattr (setattr (refresh ch o') "updated_at" (VDatetime t_db)) k'
               = getattr o0 k').
    { intros k' Hk' Hnot. rewrite getattr_setattr_ne by congruence.
      rewrite refresh_other by exact Hnot. now apply Hout. }
    split; [|split; [exact Hget|]].
    + intros k' old v Hk'.
      destruct (Hin k' old v Hk') as (H1 & H2 & H3 & H4 & H5 & H6 & H7).
      repeat split; try assumption.
      * rewrite getattr_setattr_ne.
        -- apply (refresh_changed _ _ _ old _ Hk').
           intros old' v' Hc. exact (Huniq _ _ _ _ _ Hk' Hc).
        -- intros <-. apply Hnoupd. exact (Hkeys _ _ _ Hk').
      * destruct (sqlite_overflows v) eqn:Eo; [|reflexivity].
        rewrite <- Hov. symmetry. apply existsb_exists.
        exists (k', old, v). split; [now apply list_elem_of_In | exact Eo].
    + right. split; [exact Hne|]. split; [apply getattr_setattr|].
      exists l1, l2. split; [exact Hsplit|].
      assert (Hid0 : getattr o0 "id" = VInt (Z.of_nat (length l1) + 1)).
      { apply Hwf. rewrite Hsplit. now apply list_lookup_middle. }
      assert (Hid : getattr (setattr (refresh ch o') "updated_at"
                               (VDatetime t_db)) "id" = getattr o0 "id").
      { apply Hget; [discriminate|].
        intros old v Hc. apply Hnoid. exact (Hkeys _ _ _ Hc). }
      cbn [orders events]. rewrite Hid0. split; [|reflexivity].
      rewrite Hsplit in Hwf |- *.
      apply (commit_order_replaces o0 _ l1 l2 1); [|exact Hid].
      intros i o Hi. rewrite (Hwf i o Hi). f_equal. lia.
Qed.

(** After an update the row returned is the one row with the key. *)
Lemma update_existing_keeps_key (t_db : datetime) (o0 : Order)
    (d : list (string * value)) (p : WebhookPayload) (db db1 : database)
    (o1 : Order) (k : string) :
  sequential_ids db.(orders) ->
  rows_with_number k db = [o0] ->
  NoDup d.*1 -> "id" ∉ d.*1 -> "updated_at" ∉ d.*1 ->
  _update_existing_order t_db o0 d p db = Ok (db1, o1) ->
  rows_with_number k db1 = [o1] /\ sequential_ids db1.(orders).
Proof.
  intros Hwf Hrows Hnd Hnoid Hnoupd H.
  destruct (found_row_splits _ _ _ Hrows) as (l1 & l2 & Hsplit & Hk & Hf1 & Hf2).
  destruct (update_existing_shape _ _ _ _ _ _ _ _ Hwf Hrows Hnd Hnoid Hnoupd H)
    as (ch & Hin & Hout & [(_ & -> & ->) | (_ & _ & l1' & l2' & H1 & H2 & _)]);
    [now split|].
  assert (Hid : getattr o1 "id" = getattr o0 "id").
  { apply Hout; [discriminate|]. intros old v Hc.
    destruct (Hin _ _ _ Hc) as (Hd & _). apply Hnoid.
    now apply (list_elem_of_fmap_2 fst _ ("id", v)). }
  assert (Hnum : has_number k o1 = true).
  { unfold has_number. rewrite Hout; [exact Hk | discriminate |].
    intros old v Hc. destruct (Hin _ _ _ Hc) as (_ & _ & Hx & _).
    exact (Hx eq_refl). }
  assert (Hl : l1' = l1 /\ l2' = l2).
  { assert (Hid0 : getattr o0 "id" = VInt (Z.of_nat (length l1) + 1)).
    { apply Hwf. rewrite Hsplit. now apply list_lookup_middle. }
    assert (Hid0' : getattr o0 "id" = VInt (Z.of_nat (length l1') + 1)).
    { apply Hwf. rewrite H1. now apply list_lookup_middle. }
    rewrite Hid0 in Hid0'. injection Hid0' as Hlen.
    rewrite Hsplit in H1.
    apply app_inj_1 in H1 as [-> [= <-]]; [now split | lia]. }
  destruct Hl as [-> ->]. unfold rows_with_number. rewrite H2. split.
  - rewrite List.filter_app. cbn [List.filter]. now rewrite Hf1, Hnum, Hf2.
  - apply (sequential_ids_replace o0); [now rewrite <- Hsplit | exact Hid].
Qed.

(** After a creation the row returned is the one row with the key. *)
Lemma create_new_keeps_key (t_db : datetime) (d : list (string * value))
    (p : WebhookPayload) (db db1 : database) (o1 : Order) :
  sequential_ids db.(orders) ->
  NoDup d.*1 ->
  dict_get d "order_number" = Some (VStr p.(order_number)) ->
  _create_new_order t_db d p db = Ok (db1, o1) ->
  rows_with_number p.(order_number) db1 = [o1] /\
  sequential_ids db1.(orders).
Proof.
  intros Hwf Hnd Hkey H.
  pose proof (created_value _ _ _ _ _ _ "order_number" _ Hnd H Hkey) as Hnum.
  apply create_new_order_returns in H as (Ho & Hrows & Hnone & _).
  split.
  - unfold rows_with_number in *. rewrite Hrows, List.filter_app, Hnone.
    cbn [List.filter app]. unfold has_number.
    rewrite Hnum by discriminate. cbn [py_eq sqlite_roundtrip].
    now rewrite String.eqb_refl.
  - rewrite Hrows. intros i o Hi.
    destruct (decide (i < length db.(orders))%nat) as [Hlt|Hge].
    + rewrite lookup_app_l in Hi by lia. now apply Hwf.
    + rewrite lookup_app_r in Hi by lia.
      destruct (i - length db.(orders))%nat as [|j] eqn:E; [|discriminate].
      injection Hi as <-. rewrite Ho.
      rewrite !getattr_setattr_ne by discriminate.
      rewrite getattr_setattr. unfold next_order_id. f_equal. lia.
Qed.

(** The columns the database fills are not keys of the mapping. *)
Lemma map_keys_not_database (now : datetime) (p : WebhookPayload) (k : string) :
  k ∈ (_map_webhook_to_order now p).*1 ->
  k <> "id" /\ k <> "qty_received" /\ k <> "created_at" /\ k <> "updated_at".
Proof.
  rewrite map_keys. intros Hk.
  repeat (apply elem_of_cons in Hk as [-> | Hk]; [repeat split; discriminate|]).
  now apply elem_of_nil in Hk.
Qed.

(** ** The default product (C9) *)

(** The row an application returns is the row stored under the order
    number, and the only one. *)
Lemma applied_row_is_stored (t_map t_db : datetime) (p : WebhookPayload)
    (db db' : database) (o : Order) :
  sequential_ids db.(orders) ->
  create_order_from_webhook t_map t_db p db = Ok (db', o) ->
  rows_with_number p.(order_number) db' = [o] /\
  sequential_ids db'.(orders).
Proof.
  intros Hwf H.
  pose proof (map_keys_NoDup t_map p) as Hnd.
  assert (Hnoid : "id" ∉ (_map_webhook_to_order t_map p).*1).
  { intros Hin. now destruct (map_keys_not_database _ _ _ Hin) as [? _]. }
  assert (Hnoupd : "updated_at" ∉ (_map_webhook_to_order t_map p).*1).
  { intros Hin. destruct (map_keys_not_database _ _ _ Hin) as (_ & _ & _ & Hx).
    exact (Hx eq_refl). }
  apply create_order_from_webhook_cases in H as [(o0 & Hget & H) | (_ & H)].
  - assert (Hfound : rows_with_number p.(order_number) db = [o0]).
    { unfold _get_order_by_number in Hget.
      destruct (rows_with_number p.(order_number) db) as [|a [|b r]];
        try discriminate. now injection Hget as ->. }
    exact (update_existing_keeps_key _ _ _ _ _ _ _ _ Hwf Hfound Hnd Hnoid
             Hnoupd H).
  - exact (create_new_keeps_key _ _ _ _ _ _ Hwf Hnd eq_refl H).
Qed.

(** C9.  When none of [product], [product_name] and [item] carries a
    non-empty value, the mapping yields the literal [Unknown Product] and
    the order an application returns holds it in its [product] column,
    whether the order was created or updated; on a store with sequential
    primary keys that order is the one row stored under the order number. *)
Theorem unknown_product_default (t_map t_db : datetime) (p : WebhookPayload)
    (db db' : database) (o : Order) :
  truthy (ostr p.(product)) = false ->
  truthy (ostr p.(product_name)) = false ->
  truthy (ostr p.(item)) = false ->
  create_order_from_webhook t_map t_db p db = Ok (db', o) ->
  dict_get (_map_webhook_to_order t_map p) "product"
    = Some (VStr "Unknown Product") /\
  getattr o "product" = VStr "Unknown Product" /\
  (sequential_ids db.(orders) ->
   rows_with_number p.(order_number) db' = [o]).
Proof.
  intros H1 H2 H3 H.
  assert (Hk : dict_get (_map_webhook_to_order t_map p) "product"
               = Some (VStr "Unknown Product")).
  { simpl. now rewrite !py_or_falsy by assumption. }
  split; [exact Hk|]. split.
  - destruct (applied_value _ _ _ _ _ _ _ _ H Hk) as [Ho | Ho];
      try congruence; try discriminate.
    + exact Ho.
    + now apply py_eq_VStr.
  - intros Hwf. now apply (applied_row_is_stored t_map t_db p db db' o Hwf).
Qed.

(** C9 on a payload that carries only its order number, applied to an empty
    store. *)
Lemma unknown_product_default_witness :
  match create_order_from_webhook 0 0 (bare_payload "A1") empty_db with
  | Ok (db', o) =>
      getattr o "product" = VStr "Unknown Product" /\
      rows_with_number "A1" db' = [o]
  | Raise _ => False
  end.
Proof.
  destruct (create_order_from_webhook 0 0 (bare_payload "A1") empty_db)
    as [[db' o]|e] eqn:E.
  - destruct (unknown_product_default 0 0 (bare_payload "A1") empty_db db' o)
      as (_ & Hp & Hrow); try reflexivity; [exact E|].
    split; [exact Hp|]. apply Hrow.
    intros i r Hi. destruct i; discriminate Hi.
  - assert (Hok : is_ok (create_order_from_webhook 0 0 (bare_payload "A1")
                           empty_db) = true) by (vm_compute; reflexivity).
    rewrite E in Hok. discriminate Hok.
Defined.

(** ** The silent replay *)

(** Idempotent replay, where it holds.  On a store with sequential primary
    keys, a payload that carries a date of its own, no date with a time
    zone and no NaN, applied once and then applied again at any later time,
    is found under its order number, changes nothing and logs nothing: the
    second application returns the store and the row of the first. *)
Theorem replay_with_date_is_silent (t1 t1' t2 t2' : datetime)
    (p : WebhookPayload) (db db1 : database) (o1 : Order) :
  sequential_ids db.(orders) ->
  has_date p = true ->
  naive_dates p = true ->
  nan_free p = true ->
  create_order_from_webhook t1 t1' p db = Ok (db1, o1) ->
  create_order_from_webhook t2 t2' p db1 = Ok (db1, o1) /\
  rows_with_number p.(order_number) db1 = [o1] /\
  sequential_ids db1.(orders).
Proof.
  intros Hwf Hdate Hnaive Hnan H1.
  pose proof (map_keys_NoDup t1 p) as Hnd.
  pose proof (applied_row_is_stored t1 t1' p db db1 o1 Hwf H1) as Hrow.
  split; [|exact Hrow]. destruct Hrow as [Hrow _].
  assert (Hheld : Forall (fun kv => kv.1 = "order_number" \/ kv.1 = "source" \/
                            kv.2 = VNone \/ py_eq (getattr o1 kv.1) kv.2 = true)
                    (_map_webhook_to_order t1 p)).
  { apply Forall_forall. intros [k v] Hin. cbn [fst snd].
    destruct (String.eqb_spec k "order_number"); [now left|].
    destruct (String.eqb_spec k "source"); [now right; left|].
    assert (Hnone : v = VNone \/ v <> VNone)
      by (destruct v; (now left) || (right; discriminate)).
    destruct Hnone as [|Hv]; [now right; right; left|].
    right. right. right.
    destruct (map_keys_not_database t1 p k) as (N1 & N2 & N3 & N4).
    { now apply (list_elem_of_fmap_2 fst _ (k, v)). }
    destruct (applied_value _ _ _ _ _ _ k v H1 (elem_of_dict_get _ _ _ Hnd Hin))
      as [-> | Heq]; try assumption.
    pose proof (map_comes_back t1 p Hnan Hnaive) as Hself.
    rewrite Forall_forall in Hself. exact (Hself (k, v) Hin). }
  unfold create_order_from_webhook.
  rewrite (map_independent_of_clock t1 t2 p Hdate).
  unfold _get_order_by_number. rewrite Hrow. cbn [mbind result_bind].
  unfold _update_existing_order. now rewrite (update_fold_noop _ _ _ Hheld).
Qed.

(** The replay of a dated payload on an empty store. *)
Lemma replay_with_date_witness :
  match create_order_from_webhook 0 0 three_decimals_payload empty_db with
  | Ok (db1, o1) =>
      create_order_from_webhook 5 5 three_decimals_payload db1 = Ok (db1, o1)
  | Raise _ => False
  end.
Proof.
  destruct (create_order_from_webhook 0 0 three_decimals_payload empty_db)
    as [[db1 o1]|e] eqn:E.
  - eapply (replay_with_date_is_silent 0 0 5 5 three_decimals_payload empty_db).
    + intros i o Hi. destruct i; discriminate Hi.
    + reflexivity.
    + reflexivity.
    + reflexivity.
    + exact E.
  - assert (Hok : is_ok (create_order_from_webhook 0 0 three_decimals_payload
                           empty_db) = true) by (vm_compute; reflexivity).
    rewrite E in Hok. discriminate Hok.
Defined.

(** ** Backpressure and requeue-all *)

(** A full queue rejects the envelope: [enqueue] returns [False],
    [total_received] stays, [total_failed] is incremented and the queue is
    untouched.  With room, the envelope goes to the back with a retry count
    of zero, [total_received] is incremented and the peak follows. *)
Theorem enqueue_backpressure (now : datetime) (wd : webhook_data)
    (q : WebhookQueue) :
  let r := enqueue now wd q in
  ((queue_maxsize <= length q.(queue))%nat ->
   r.2 = false /\ r.1.(queue) = q.(queue) /\
   r.1.(total_received) = q.(total_received) /\
   r.1.(total_failed) = q.(total_failed) + 1) /\
  ((length q.(queue) < queue_maxsize)%nat ->
   r.2 = true /\
   r.1.(queue) =
     q.(queue) ++ [mkMessage wd now 0 (now, q.(total_received)) None None] /\
   r.1.(total_received) = q.(total_received) + 1 /\
   r.1.(total_failed) = q.(total_failed) /\
   Z.of_nat (length r.1.(queue)) <= r.1.(queue_size_peak) /\
   (length r.1.(queue) <= queue_maxsize)%nat).
Proof.
  cbv zeta. unfold enqueue.
  destruct (Nat.ltb_spec (length q.(queue)) queue_maxsize) as [Hlt|Hge];
    cbn [fst snd queue total_received total_failed queue_size_peak].
  - split; [intros; lia|]. intros _. repeat split.
    + destruct (Z.ltb_spec q.(queue_size_peak)
                  (Z.of_nat (length (q.(queue) ++
                     [mkMessage wd now 0 (now, q.(total_received)) None None]))));
        lia.
    + rewrite length_app. cbn [length]. lia.
  - split; [intros _; repeat split | intros; lia].
Qed.

(** The loop of [retry_dead_letters]: the dead letters that find room go to
    the back of the queue; the first one that finds none is held. *)
Lemma retry_loop_spec (dead : list message) :
  forall (queue : list message) (n : Z),
    retry_loop dead queue n =
    let room := (queue_maxsize - length queue)%nat in
    match dead !! room with
    | None =>
        ([], queue ++ (reset_retry_count <$> dead),
         Retried (n + Z.of_nat (length dead)))
    | Some m =>
        (drop (S room) dead,
         queue ++ (reset_retry_count <$> take room dead),
         WaitingToPut (reset_retry_count m) (n + Z.of_nat room))
    end.
Proof.
  induction dead as [|m rest IH]; intros queue n; cbv zeta.
  - cbn [retry_loop lookup list_lookup fmap list_fmap length].
    rewrite lookup_nil, app_nil_r, Z.add_0_r. reflexivity.
  - cbn [retry_loop].
    destruct (Nat.ltb_spec (length queue) queue_maxsize) as [Hlt|Hge].
    + rewrite IH. cbv zeta. rewrite length_app. cbn [length].
      replace (queue_maxsize - length queue)%nat
        with (S (queue_maxsize - (length queue + 1))) by lia.
      remember (queue_maxsize - (length queue + 1))%nat as k eqn:Ek.
      replace ((m :: rest) !! S k) with (rest !! k) by reflexivity.
      clear Ek.
      destruct (rest !! k) as [m'|];
        cbn [drop take fmap list_fmap length]; rewrite <- app_assoc;
        cbn [app].
      * rewrite (Nat2Z.inj_succ k).
        now replace (n + Z.succ (Z.of_nat k)) with (n + 1 + Z.of_nat k) by lia.
      * rewrite (Nat2Z.inj_succ (length rest)).
        now replace (n + Z.succ (Z.of_nat (length rest)))
          with (n + 1 + Z.of_nat (length rest)) by lia.
    + replace (queue_maxsize - length queue)%nat with 0%nat by lia.
      cbn [lookup list_lookup drop take fmap list_fmap].
      now rewrite app_nil_r, Z.add_0_r.
Qed.

(** Requeue-all, as far as the queue has room.  The dead letters go back to
    the queue oldest first, each with its retry count reset to zero and
    otherwise as it was; no counter moves.  When the queue has room for all
    of them, the call returns their number and leaves the deque empty.
    When it has not, the call waits in [put]: the dead letters that found
    room are at the back of the queue, the next one has left the deque and
    is held by the call with its count reset, and the others are still in
    the deque. *)
Theorem retry_dead_letters_requeues_all (q : WebhookQueue) :
  let r := retry_dead_letters q in
  let room := (queue_maxsize - length q.(queue))%nat in
  r.1.(queue) =
    q.(queue) ++ (reset_retry_count <$> take room q.(dead_letter_queue)) /\
  r.1.(total_received) = q.(total_received) /\
  r.1.(total_processed) = q.(total_processed) /\
  r.1.(total_failed) = q.(total_failed) /\
  ((length q.(dead_letter_queue) <= room)%nat ->
   r.2 = Retried (Z.of_nat (length q.(dead_letter_queue))) /\
   r.1.(dead_letter_queue) = [] /\
   r.1.(queue) = q.(queue) ++ (reset_retry_count <$> q.(dead_letter_queue))) /\
  ((room < length q.(dead_letter_queue))%nat ->
   exists m,
     q.(dead_letter_queue) !! room = Some m /\
     r.2 = WaitingToPut (reset_retry_count m) (Z.of_nat room) /\
     r.1.(dead_letter_queue) = drop (S room) q.(dead_letter_queue)).
Proof.
  cbv zeta. unfold retry_dead_letters.
  rewrite retry_loop_spec. cbv zeta.
  destruct (q.(dead_letter_queue) !! (queue_maxsize - length q.(queue))%nat)
    as [m|] eqn:Hm; cbn [fst snd queue dead_letter_queue total_received
                          total_processed total_failed].
  - pose proof (lookup_lt_Some _ _ _ Hm) as Hlt.
    repeat split; try (intros; lia).
    intros _. exists m. now repeat split.
  - pose proof (lookup_ge_None_1 _ _ Hm) as Hge.
    rewrite take_ge by lia.
    repeat split; try (intros; lia).
Qed.

(** Two dead letters and an empty queue. *)
Lemma retry_dead_letters_requeues_all_witness :
  let r := retry_dead_letters two_dead_letters in
  r.2 = Retried 2 /\
  r.1.(dead_letter_queue) = [] /\
  r.1.(queue) =
    two_dead_letters.(queue) ++
    (reset_retry_count <$> two_dead_letters.(dead_letter_queue)).
Proof.
  cbv zeta.
  destruct (retry_dead_letters_requeues_all two_dead_letters)
    as (_ & _ & _ & _ & Hroom & _).
  apply Hroom. vm_compute. lia.
Defined.

(** ** What an update records *)

(** What a creation writes. *)
Lemma create_new_order_shape (t_db : datetime) (d : list (string * value))
    (p : WebhookPayload) (db db' : database) (o : Order) :
  _create_new_order t_db d p db = Ok (db', o) ->
  rows_with_number p.(order_number) db = [] /\
  db'.(orders) = db.(orders) ++ [o] /\
  db'.(events) =
    db.(events) ++ [mkOrderEvent (next_order_id db) "created" [] p "webhook" t_db] /\
  getattr o "id" = VInt (next_order_id db) /\
  getattr o "qty_received" = VInt 0 /\
  getattr o "created_at" = VDatetime t_db /\
  getattr o "updated_at" = VDatetime t_db.
Proof.
  unfold _create_new_order.
  destruct (existsb (fun kv : string * value => sqlite_overflows kv.2) d);
    [discriminate|].
  destruct (rows_with_number _ _); [|discriminate].
  intros H. injection H as Hdb Ho. subst db' o. cbn [orders events].
  repeat split;
    repeat (rewrite getattr_setattr_ne by discriminate); apply getattr_setattr.
Qed.

(** The update path of an application, with the facts of the mapping
    filled in. *)
Lemma applied_update_shape (t_map t_db : datetime) (p : WebhookPayload)
    (db db' : database) (o0 o : Order) :
  sequential_ids db.(orders) ->
  _get_order_by_number db p.(order_number) = Ok (Some o0) ->
  create_order_from_webhook t_map t_db p db = Ok (db', o) ->
  exists ch,
    (forall k' old v,
        (k', old, v) ∈ ch ->
        (k', v) ∈ _map_webhook_to_order t_map p /\ v <> VNone /\
        k' <> "order_number" /\ k' <> "source" /\
        getattr o0 k' = old /\ getattr o k' = sqlite_roundtrip v /\
        sqlite_overflows v = false /\ py_eq old v = false) /\
    (forall k', k' <> "updated_at" ->
                (forall old v, (k', old, v) ∉ ch) ->
                getattr o k' = getattr o0 k') /\
    ((ch = [] /\ db' = db /\ o = o0) \/
     (ch <> [] /\ getattr o "updated_at" = VDatetime t_db /\
      exists l1 l2,
        db.(orders) = l1 ++ o0 :: l2 /\
        db'.(orders) = l1 ++ o :: l2 /\
        db'.(events) =
          db.(events) ++
          [mkOrderEvent (Z.of_nat (length l1) + 1) "updated" ch p "webhook"
                        t_db])).
Proof.
  intros Hwf Hget H.
  apply create_order_from_webhook_cases in H as [(o0' & Hget' & H) | (Hget' & _)];
    rewrite Hget in Hget'; [|discriminate Hget'].
  injection Hget' as <-.
  apply (update_existing_shape _ _ _ _ _ _ _ _ Hwf (get_order_found _ _ _ Hget)
           (map_keys_NoDup t_map p)); [| |exact H];
    intros Hin; destruct (map_keys_not_database _ _ _ Hin) as (H1 & _ & _ & H4);
    [exact (H1 eq_refl) | exact (H4 eq_refl)].
Qed.

(** ** One event for each write *)

(** An application that returns has written nothing, or it has written one
    row and one event: a creation appends the row returned and a [created]
    event without changes; an update replaces the row found by the row
    returned, keeps the number of rows and appends an [updated] event that
    lists at least one change.  In both cases the event carries the primary
    key of the row returned, the payload, the source [webhook] and the
    reading of the clock. *)
Theorem application_writes_one_event (t_map t_db : datetime)
    (p : WebhookPayload) (db db' : database) (o : Order) :
  sequential_ids db.(orders) ->
  create_order_from_webhook t_map t_db p db = Ok (db', o) ->
  (db' = db /\ rows_with_number p.(order_number) db = [o]) \/
  (exists e,
      db'.(events) = db.(events) ++ [e] /\
      getattr o "id" = VInt e.(order_id) /\
      e.(event_metadata) = p /\ e.(event_source) = "webhook" /\
      e.(event_created_at) = t_db /\
      ((e.(event_type) = "created" /\ e.(description) = [] /\
        rows_with_number p.(order_number) db = [] /\
        db'.(orders) = db.(orders) ++ [o]) \/
       (e.(event_type) = "updated" /\ e.(description) <> [] /\
        length db'.(orders) = length db.(orders) /\
        exists o0 l1 l2,
          rows_with_number p.(order_number) db = [o0] /\
          db.(orders) = l1 ++ o0 :: l2 /\
          db'.(orders) = l1 ++ o :: l2))).
Proof.
  intros Hwf H.
  destruct (_get_order_by_number db p.(order_number)) as [[o0|]|err] eqn:Hget.
  - destruct (applied_update_shape _ _ _ _ _ _ _ Hwf Hget H)
      as (ch & Hin & Hout & [(-> & -> & ->) | (Hch & Hupd & l1 & l2 & H1 & H2 & H3)]).
    + left. split; [reflexivity | now apply get_order_found].
    + right. eexists. split; [exact H3|]. cbn.
      assert (Hid0 : getattr o0 "id" = VInt (Z.of_nat (length l1) + 1)).
      { apply Hwf. rewrite H1. now apply list_lookup_middle. }
      split.
      { rewrite <- Hid0. apply Hout; [discriminate|].
        intros old v Hk. destruct (Hin _ _ _ Hk) as (Hd & _).
        apply (list_elem_of_fmap_2 fst) in Hd.
        destruct (map_keys_not_database _ _ "id" Hd) as (Hx & _).
        exact (Hx eq_refl). }
      repeat split. right. repeat split; [exact Hch | |].
      * rewrite H1, H2, !length_app. reflexivity.
      * exists o0, l1, l2. split; [now apply get_order_found | now split].
  - apply create_order_from_webhook_cases in H as [(o0 & Hget' & _) | (_ & H)];
      [rewrite Hget in Hget'; discriminate Hget'|].
    apply create_new_order_shape in H as (Hnone & Hrows & Hev & Hid & _).
    right. eexists. split; [exact Hev|]. cbn.
    split; [exact Hid|]. repeat split. left. now repeat split.
  - apply create_order_from_webhook_cases in H as [(o0 & Hget' & _) | (Hget' & _)];
      rewrite Hget in Hget'; discriminate Hget'.
Qed.

(** A first application to the empty store: one [created] event. *)
Lemma application_writes_one_event_witness :
  match create_order_from_webhook 0 0 three_decimals_payload empty_db with
  | Ok (db', o) =>
      (db' = empty_db /\ rows_with_number "A1" empty_db = [o]) \/
      (exists e,
          db'.(events) = [e] /\
          getattr o "id" = VInt e.(order_id) /\
          e.(event_metadata) = three_decimals_payload /\
          e.(event_source) = "webhook" /\
          e.(event_created_at) = 0 /\
          ((e.(event_type) = "created" /\ e.(description) = [] /\
            rows_with_number "A1" empty_db = [] /\
            db'.(orders) = [o]) \/
           (e.(event_type) = "updated" /\ e.(description) <> [] /\
            length db'.(orders) = 0%nat /\
            exists o0 l1 l2,
              rows_with_number "A1" empty_db = [o0] /\
              [] = l1 ++ o0 :: l2 /\
              db'.(orders) = l1 ++ o :: l2)))
  | Raise _ => False
  end.
Proof.
  destruct (create_order_from_webhook 0 0 three_decimals_payload empty_db)
    as [[db' o]|e] eqn:E.
  - apply (application_writes_one_event 0 0 three_decimals_payload empty_db);
      [|exact E].
    intros i r Hi. destruct i; discriminate Hi.
  - assert (Hok : is_ok (create_order_from_webhook 0 0 three_decimals_payload
                           empty_db) = true) by (vm_compute; reflexivity).
    rewrite E in Hok. discriminate Hok.
Defined.

(** ** What an update may change *)

(** The event of an update is an exact record.  When an application finds
    a row, the changes it logs are those it made: every logged change names
    a key of the mapping other than [order_number] and [source], its old
    value is the one the row found held, its new value is the one of the
    mapping, is not [None], fits the 64 bits of the driver and differs from
    the old one; the row returned holds that value as the driver hands it
    back (a NaN as [None], a date with an offset without it, any other value
    as it is).  A key without a logged change keeps its value ([updated_at]
    apart), so a [None] of the mapping never erases a stored value; and
    without a change nothing is written. *)
Theorem update_event_is_exact (t_map t_db : datetime) (p : WebhookPayload)
    (db db' : database) (o0 o : Order) :
  sequential_ids db.(orders) ->
  _get_order_by_number db p.(order_number) = Ok (Some o0) ->
  create_order_from_webhook t_map t_db p db = Ok (db', o) ->
  exists ch,
    ((ch = [] /\ db' = db /\ o = o0) \/
     (ch <> [] /\
      exists e, db'.(events) = db.(events) ++ [e] /\
                e.(event_type) = "updated" /\ e.(description) = ch)) /\
    (forall k old v,
        (k, old, v) ∈ ch ->
        dict_get (_map_webhook_to_order t_map p) k = Some v /\
        v <> VNone /\ k <> "order_number" /\ k <> "source" /\
        getattr o0 k = old /\ getattr o k = sqlite_roundtrip v /\
        sqlite_overflows v = false /\ py_eq old v = false) /\
    (forall k, k <> "updated_at" ->
               (forall old v, (k, old, v) ∉ ch) ->
               getattr o k = getattr o0 k) /\
    (forall k, dict_get (_map_webhook_to_order t_map p) k = Some VNone ->
               getattr o k = getattr o0 k).
Proof.
  intros Hwf Hget H.
  pose proof (map_keys_NoDup t_map p) as Hnd.
  destruct (applied_update_shape _ _ _ _ _ _ _ Hwf Hget H)
    as (ch & Hin & Hout & Hcases).
  exists ch. split; [|split; [|split]].
  - destruct Hcases as [(-> & -> & ->) | (Hch & _ & l1 & l2 & _ & _ & Hev)].
    + left. now repeat split.
    + right. split; [exact Hch|]. eexists. split; [exact Hev|]. now split.
  - intros k old v Hk.
    destruct (Hin k old v Hk) as (H1 & H2 & H3 & H4 & H5 & H6 & H7 & H8).
    split; [now apply elem_of_dict_get|]. now repeat split.
  - exact Hout.
  - intros k Hk.
    assert (Hkey : k ∈ (_map_webhook_to_order t_map p).*1).
    { apply dict_get_elem_of in Hk.
      now apply (list_elem_of_fmap_2 fst _ (k, VNone)). }
    destruct (map_keys_not_database _ _ _ Hkey) as (_ & _ & _ & Hupd).
    apply Hout; [exact Hupd|].
    intros old v Hc. destruct (Hin k old v Hc) as (H1 & H2 & _).
    apply elem_of_dict_get in H1; [|exact Hnd].
    rewrite Hk in H1. injection H1 as <-. now apply H2.
Qed.

(** A creation of [A1], then a message for [A1] with another price. *)
Lemma update_event_is_exact_witness :
  match create_order_from_webhook 0 0 three_decimals_payload empty_db with
  | Ok (db1, o1) =>
      match create_order_from_webhook 5 5 four_decimals_payload db1 with
      | Ok (db2, o2) =>
          exists ch,
            ((ch = [] /\ db2 = db1 /\ o2 = o1) \/
             (ch <> [] /\
              exists e, db2.(events) = db1.(events) ++ [e] /\
                        e.(event_type) = "updated" /\ e.(description) = ch)) /\
            (forall k old v,
                (k, old, v) ∈ ch ->
                dict_get (_map_webhook_to_order 5 four_decimals_payload) k
                  = Some v /\
                v <> VNone /\ k <> "order_number" /\ k <> "source" /\
                getattr o1 k = old /\ getattr o2 k = sqlite_roundtrip v /\
                sqlite_overflows v = false /\ py_eq old v = false) /\
            (forall k, k <> "updated_at" ->
                       (forall old v, (k, old, v) ∉ ch) ->
                       getattr o2 k = getattr o1 k) /\
            (forall k,
                dict_get (_map_webhook_to_order 5 four_decimals_payload) k
                  = Some VNone ->
                getattr o2 k = getattr o1 k)
      | Raise _ => False
      end
  | Raise _ => False
  end.
Proof.
  assert (Hok : is_ok (apply_two 0 three_decimals_payload 5
                         four_decimals_payload empty_db) = true)
    by (vm_compute; reflexivity).
  unfold apply_two in Hok.
  destruct (create_order_from_webhook 0 0 three_decimals_payload empty_db)
    as [[db1 o1]|e] eqn:E1; [|discriminate Hok].
  cbn [mbind result_bind fst] in Hok.
  assert (Hwf0 : sequential_ids empty_db.(orders)).
  { intros i r Hi. destruct i; discriminate Hi. }
  destruct (applied_row_is_stored _ _ _ _ _ _ Hwf0 E1) as [Hrow Hwf1].
  destruct (create_order_from_webhook 5 5 four_decimals_payload db1)
    as [[db2 o2]|e] eqn:E2; [|discriminate Hok].
  apply (update_event_is_exact 5 5 four_decimals_payload db1 db2 o1 o2 Hwf1);
    [|exact E2].
  unfold _get_order_by_number.
  change (order_number four_decimals_payload) with
    (order_number three_decimals_payload).
  now rewrite Hrow.
Defined.

(** The identity of an order is out of reach of a webhook.  When an
    application finds a row, the row returned holds the same primary key,
    order number, source, creation time and received quantity as the row
    found, whatever the payload carries; its order number is the one of the
    payload. *)
Theorem update_keeps_identity (t_map t_db : datetime) (p : WebhookPayload)
    (db db' : database) (o0 o : Order) :
  sequential_ids db.(orders) ->
  _get_order_by_number db p.(order_number) = Ok (Some o0) ->
  create_order_from_webhook t_map t_db p db = Ok (db', o) ->
  getattr o "id" = getattr o0 "id" /\
  getattr o "order_number" = VStr p.(order_number) /\
  getattr o "source" = getattr o0 "source" /\
  getattr o "created_at" = getattr o0 "created_at" /\
  getattr o "qty_received" = getattr o0 "qty_received".
Proof.
  intros Hwf Hget H.
  destruct (applied_update_shape _ _ _ _ _ _ _ Hwf Hget H)
    as (ch & Hin & Hout & _).
  assert (Hdb : forall k, k ∉ (_map_webhook_to_order t_map p).*1 ->
                          forall old v, (k, old, v) ∉ ch).
  { intros k Hk old v Hc. destruct (Hin k old v Hc) as (Hd & _).
    apply Hk. now apply (list_elem_of_fmap_2 fst _ (k, v)). }
  assert (Hnum : getattr o0 "order_number" = VStr p.(order_number)).
  { apply get_order_found, found_row_splits in Hget
      as (l1 & l2 & _ & Hk & _). now apply py_eq_VStr. }
  repeat split.
  - apply Hout; [discriminate|]. apply Hdb. intros Hk.
    destruct (map_keys_not_database _ _ _ Hk) as (Hx & _). exact (Hx eq_refl).
  - rewrite <- Hnum. apply Hout; [discriminate|].
    intros old v Hc. destruct (Hin _ old v Hc) as (_ & _ & Hx & _).
    exact (Hx eq_refl).
  - apply Hout; [discriminate|].
    intros old v Hc. destruct (Hin _ old v Hc) as (_ & _ & _ & Hx & _).
    exact (Hx eq_refl).
  - apply Hout; [discriminate|]. apply Hdb. intros Hk.
    destruct (map_keys_not_database _ _ _ Hk) as (_ & _ & Hx & _).
    exact (Hx eq_refl).
  - apply Hout; [discriminate|]. apply Hdb. intros Hk.
    destruct (map_keys_not_database _ _ _ Hk) as (_ & Hx & _).
    exact (Hx eq_refl).
Qed.

(** A creation of [A1], then a message for [A1] with another price: the
    row keeps its key, number, source, creation time and received
    quantity. *)
Lemma update_keeps_identity_witness :
  match create_order_from_webhook 0 0 three_decimals_payload empty_db with
  | Ok (db1, o1) =>
      match create_order_from_webhook 5 5 four_decimals_payload db1 with
      | Ok (db2, o2) =>
          getattr o2 "id" = getattr o1 "id" /\
          getattr o2 "order_number" = VStr "A1" /\
          getattr o2 "source" = getattr o1 "source" /\
          getattr o2 "created_at" = getattr o1 "created_at" /\
          getattr o2 "qty_received" = getattr o1 "qty_received"
      | Raise _ => False
      end
  | Raise _ => False
  end.
Proof.
  assert (Hok : is_ok (apply_two 0 three_decimals_payload 5
                         four_decimals_payload empty_db) = true)
    by (vm_compute; reflexivity).
  unfold apply_two in Hok.
  destruct (create_order_from_webhook 0 0 three_decimals_payload empty_db)
    as [[db1 o1]|e] eqn:E1; [|discriminate Hok].
  cbn [mbind result_bind fst] in Hok.
  assert (Hwf0 : sequential_ids empty_db.(orders)).
  { intros i r Hi. destruct i; discriminate Hi. }
  destruct (applied_row_is_stored _ _ _ _ _ _ Hwf0 E1) as [Hrow Hwf1].
  destruct (create_order_from_webhook 5 5 four_decimals_payload db1)
    as [[db2 o2]|e] eqn:E2; [|discriminate Hok].
  apply (update_keeps_identity 5 5 four_decimals_payload db1 db2 o1 o2 Hwf1);
    [|exact E2].
  unfold _get_order_by_number.
  change (order_number four_decimals_payload) with
    (order_number three_decimals_payload).
  now rewrite Hrow.
Defined.

(** ** The invariants of the store *)

Lemma filter_replace_length (k : string) (o0 o1 : Order) (l1 l2 : list Order) :
  has_number k o1 = has_number k o0 ->
  length (List.filter (has_number k) (l1 ++ o1 :: l2)) =
  length (List.filter (has_number k) (l1 ++ o0 :: l2)).
Proof.
  intros H. rewrite !List.filter_app. cbn [List.filter]. rewrite H.
  rewrite !length_app. now destruct (has_number k o0).
Qed.

Lemma sequential_ids_nil : sequential_ids [].
Proof. intros i o Hi. destruct i; discriminate Hi. Qed.

Lemma store_ok_empty : store_ok empty_db.
Proof.
  split; [exact sequential_ids_nil|]. split; [|constructor].
  intros k. cbn. lia.
Qed.

(** One application keeps the invariants. *)
Lemma store_ok_step (t_map t_db : datetime) (p : WebhookPayload)
    (db db' : database) (o : Order) :
  store_ok db ->
  create_order_from_webhook t_map t_db p db = Ok (db', o) ->
  store_ok db'.
Proof.
  intros (Hwf & Huniq & Hev) H.
  pose proof (map_keys_NoDup t_map p) as Hnd.
  destruct (_get_order_by_number db p.(order_number)) as [[o0|]|err] eqn:Hget.
  - destruct (applied_update_shape _ _ _ _ _ _ _ Hwf Hget H)
      as (ch & Hin & Hout &
          [(_ & -> & _) | (Hch & _ & l1 & l2 & H1 & H2 & H3)]);
      [now repeat split|].
    assert (Hid : getattr o "id" = getattr o0 "id").
    { apply Hout; [discriminate|].
      intros old v Hc. destruct (Hin _ old v Hc) as (Hd & _).
      apply (list_elem_of_fmap_2 fst) in Hd.
      destruct (map_keys_not_database _ _ "id" Hd) as (Hx & _).
      exact (Hx eq_refl). }
    assert (Hnum : getattr o "order_number" = getattr o0 "order_number").
    { apply Hout; [discriminate|].
      intros old v Hc. destruct (Hin _ old v Hc) as (_ & _ & Hx & _).
      exact (Hx eq_refl). }
    split; [|split].
    + rewrite H2. apply (sequential_ids_replace o0); [|exact Hid].
      now rewrite <- H1.
    + intros k. unfold rows_with_number. rewrite H2.
      rewrite (filter_replace_length k o0) by (unfold has_number; now rewrite Hnum).
      rewrite <- H1. apply Huniq.
    + rewrite H3. apply Forall_app. split.
      * rewrite H2, H1 in *. rewrite !length_app in *. exact Hev.
      * constructor; [|constructor]. cbn [order_id].
        rewrite H2, length_app. cbn [length]. lia.
  - apply create_order_from_webhook_cases in H as [(o0 & Hget' & _) | (_ & H)];
      [rewrite Hget in Hget'; discriminate Hget'|].
    pose proof (created_value _ _ _ _ _ _ "order_number" _ Hnd H eq_refl) as Hnum.
    pose proof (create_new_keeps_key _ _ _ _ _ _ Hwf Hnd eq_refl H) as [_ Hwf'].
    apply create_new_order_shape in H as (Hnone & Hrows & Hevs & _).
    split; [exact Hwf'|]. split.
    + intros k. unfold rows_with_number in *. rewrite Hrows, List.filter_app.
      cbn [List.filter]. destruct (has_number k o) eqn:Hk.
      * unfold has_number in Hk. rewrite Hnum in Hk by discriminate.
        cbn [py_eq] in Hk. apply String.eqb_eq in Hk. subst k.
        rewrite Hnone. cbn. lia.
      * rewrite app_nil_r. apply Huniq.
    + rewrite Hevs, Hrows. apply Forall_app. split.
      * eapply Forall_impl; [exact Hev|]. cbn beta. intros e He.
        rewrite length_app. cbn [length]. lia.
      * constructor; [|constructor]. cbn [order_id]. unfold next_order_id.
        rewrite length_app. cbn [length]. lia.
  - apply create_order_from_webhook_cases in H as [(o0 & Hget' & _) | (Hget' & _)];
      rewrite Hget in Hget'; discriminate Hget'.
Qed.

Lemma overflows_py_or (a b : value) :
  sqlite_overflows a = false -> sqlite_overflows b = false ->
  sqlite_overflows (py_or a b) = false.
Proof. unfold py_or. now destruct (truthy a). Qed.

Lemma overflows_ostr (o : option string) : sqlite_overflows (ostr o) = false.
Proof. now destruct o. Qed.

Lemma overflows_ofloat (o : option float) : sqlite_overflows (ofloat o) = false.
Proof. now destruct o. Qed.

Lemma overflows_odatetime (o : option pydatetime) :
  sqlite_overflows (odatetime o) = false.
Proof. now destruct o. Qed.

Lemma overflows_str_dict_get (d : list (string * string)) (k : string) :
  sqlite_overflows (str_dict_get d k) = false.
Proof.
  induction d as [|[k' v] d IH]; [reflexivity|].
  cbn [str_dict_get]. now destruct (String.eqb k' k).
Qed.

Lemma overflows_map_status (p : WebhookPayload) :
  sqlite_overflows (map_status p) = false.
Proof.
  unfold map_status.
  destruct (truthy _); [|reflexivity].
  destruct (py_or _ _); try reflexivity. apply overflows_str_dict_get.
Qed.

(** The quantity is the one integer of the mapping. *)
Lemma map_fits (now : datetime) (p : WebhookPayload) :
  quantity_fits p = true ->
  existsb (fun kv => sqlite_overflows kv.2) (_map_webhook_to_order now p)
    = false.
Proof.
  unfold quantity_fits. intros Hq. apply negb_true_iff in Hq.
  unfold _map_webhook_to_order. cbv zeta. cbn [existsb snd].
  rewrite !orb_false_iff.
  repeat split;
    auto using overflows_py_or, overflows_ostr, overflows_ofloat,
      overflows_odatetime, overflows_map_status.
Qed.

Lemma update_existing_total (t_db : datetime) (o0 : Order)
    (d : list (string * value)) (p : WebhookPayload) (db : database) :
  NoDup d.*1 ->
  existsb (fun kv => sqlite_overflows kv.2) d = false ->
  is_ok (_update_existing_order t_db o0 d p db) = true.
Proof.
  intros Hnd Hfit. unfold _update_existing_order.
  destruct (fold_left update_field d (o0, [])) as [o' ch] eqn:Hfold.
  destruct ch as [|c ch]; [reflexivity|].
  destruct (update_fold_exact _ _ _ _ _ Hnd Hfold) as (new & Hnew & Hin & _).
  cbn [app] in Hnew. subst new.
  match goal with
  | |- context [existsb ?f (c :: ch)] => destruct (existsb f (c :: ch)) eqn:E
  end; [|reflexivity].
  apply existsb_exists in E as ([[k old] v] & Hc & Ho). cbn [snd] in Ho.
  apply list_elem_of_In in Hc. destruct (Hin _ _ _ Hc) as (Hd & _).
  exfalso. apply not_true_iff_false in Hfit. apply Hfit.
  apply existsb_exists.
  exists (k, v). split; [now apply list_elem_of_In | exact Ho].
Qed.

Lemma create_new_total (t_db : datetime) (d : list (string * value))
    (p : WebhookPayload) (db : database) :
  existsb (fun kv => sqlite_overflows kv.2) d = false ->
  rows_with_number p.(order_number) db = [] ->
  is_ok (_create_new_order t_db d p db) = true.
Proof. unfold _create_new_order. now intros -> ->. Qed.

Lemma create_order_from_webhook_eq (t_map t_db : datetime)
    (p : WebhookPayload) (db : database) :
  create_order_from_webhook t_map t_db p db =
  match _get_order_by_number db p.(order_number) with
  | Ok (Some o) =>
      _update_existing_order t_db o (_map_webhook_to_order t_map p) p db
  | Ok None => _create_new_order t_db (_map_webhook_to_order t_map p) p db
  | Raise e => Raise e
  end.
Proof.
  unfold create_order_from_webhook.
  now destruct (_get_order_by_number db p.(order_number)) as [[o|]|e].
Qed.

(** Where no order number is held by two rows, an application of a payload
    whose quantity fits returns. *)
Lemma application_succeeds (t_map t_db : datetime) (p : WebhookPayload)
    (db : database) :
  quantity_fits p = true ->
  (length (rows_with_number p.(order_number) db) <= 1)%nat ->
  is_ok (create_order_from_webhook t_map t_db p db) = true.
Proof.
  intros Hfit Huniq. rewrite create_order_from_webhook_eq.
  unfold _get_order_by_number.
  destruct (rows_with_number p.(order_number) db) as [|a [|b r]] eqn:E.
  - apply create_new_total; [now apply map_fits | exact E].
  - apply update_existing_total; [apply map_keys_NoDup | now apply map_fits].
  - cbn [length] in Huniq. lia.
Qed.

(** The store keeps its invariants.  The empty store has sequential
    primary keys, at most one row for an order number and no event without
    a row; every application that returns hands these on to the store it
    leaves: the order number stays a key, and every event points at a row
    of the table. *)
Theorem store_invariant_kept :
  store_ok empty_db /\
  forall (t_map t_db : datetime) (p : WebhookPayload) (db db' : database)
         (o : Order),
    store_ok db ->
    create_order_from_webhook t_map t_db p db = Ok (db', o) ->
    store_ok db' /\ rows_with_number p.(order_number) db' = [o].
Proof.
  split; [exact store_ok_empty|].
  intros t_map t_db p db db' o Hok H. split.
  - exact (store_ok_step _ _ _ _ _ _ Hok H).
  - destruct Hok as (Hwf & _).
    now destruct (applied_row_is_stored _ _ _ _ _ _ Hwf H).
Qed.

(** No history of payloads the driver can bind makes the upsert raise.
    Whatever payloads are applied one after the other to the empty store, at
    whatever times, every application returns, provided the quantity the
    mapping takes from each payload fits the 64 bits of the driver (a larger
    one makes the insertion raise [OverflowError]): the lookup never finds
    two rows for an order number and the insertion never meets the unique
    index. *)
Theorem history_never_raises
    (l : list (datetime * datetime * WebhookPayload)) :
  Forall (fun x => quantity_fits x.2 = true) l ->
  exists db, apply_all l empty_db = Ok db /\ store_ok db.
Proof.
  generalize store_ok_empty. generalize empty_db.
  induction l as [|[[t_map t_db] p] l IH]; intros db Hok Hfit.
  - exists db. now split.
  - cbn [apply_all].
    apply Forall_cons in Hfit as [Hp Hfit]. cbn [snd] in Hp.
    destruct Hok as (Hwf & Huniq & Hev).
    pose proof (application_succeeds t_map t_db p db Hp (Huniq _)) as Hs.
    destruct (create_order_from_webhook t_map t_db p db) as [[db' o]|e] eqn:E;
      [|discriminate Hs].
    cbn [mbind result_bind fst].
    apply IH; [|exact Hfit].
    exact (store_ok_step _ _ _ _ _ _ (conj Hwf (conj Huniq Hev)) E).
Qed.

(** A creation of [A1], then an update of it. *)
Lemma history_never_raises_witness :
  exists db,
    apply_all [(0, 0, three_decimals_payload); (5, 5, four_decimals_payload)]
      empty_db = Ok db /\ store_ok db.
Proof.
  apply (history_never_raises
           [(0, 0, three_decimals_payload); (5, 5, four_decimals_payload)]).
  repeat constructor.
Defined.

(** ** The accounts of a worker *)

Lemma length_deque_append {A : Type} (n : nat) (l : list A) (x : A) :
  length (deque_append n l x) = Nat.min n (S (length l)).
Proof.
  unfold deque_append. rewrite length_drop, length_app. cbn [length]. lia.
Qed.

Section WorkerAccounts.
Context {W : Type}.
Variable process : clock -> message -> W -> result W.

(** The books of one iteration. *)
Lemma worker_iteration_balance (clk : clock) (q q1 : WebhookQueue) (w w1 : W)
    (o : outcome) :
  worker_iteration process clk q w = (q1, w1, o) ->
  (length q1.(queue) + length (committed [o]) + length (dead_lettered [o])
   = length q.(queue))%nat /\
  q1.(total_processed) = q.(total_processed) + Z.of_nat (length (committed [o])) /\
  q1.(total_failed) = q.(total_failed) + Z.of_nat (length (dead_lettered [o])) /\
  q1.(total_received) = q.(total_received) /\
  q1.(queue_size_peak) = q.(queue_size_peak) /\
  (length q1.(dead_letter_queue)
   <= Nat.max (length q.(dead_letter_queue)) dead_letter_maxlen)%nat /\
  (length q1.(processing_times)
   <= Nat.max (length q.(processing_times)) processing_times_maxlen)%nat.
Proof.
  unfold worker_iteration.
  destruct q.(queue) as [|h t] eqn:Hq.
  - intros [= <- <- <-]. rewrite Hq. cbn. repeat split; lia.
  - destruct (process clk h w) as [w'|e].
    + intros [= <- <- <-].
      cbn [queue total_processed total_failed total_received queue_size_peak
           dead_letter_queue processing_times committed dead_lettered length].
      rewrite length_deque_append. repeat split; lia.
    + cbv zeta.
      destruct (retry_count (retried h) <=? max_retries q);
        intros [= <- <- <-];
        cbn [queue total_processed total_failed total_received queue_size_peak
             dead_letter_queue processing_times committed dead_lettered length];
        rewrite ?length_app, ?length_deque_append; cbn [length];
        repeat split; lia.
Qed.

Lemma committed_cons (o : outcome) (os : list outcome) :
  length (committed (o :: os)) = (length (committed [o]) + length (committed os))%nat.
Proof. now destruct o. Qed.

Lemma dead_lettered_cons (o : outcome) (os : list outcome) :
  length (dead_lettered (o :: os)) =
  (length (dead_lettered [o]) + length (dead_lettered os))%nat.
Proof. now destruct o. Qed.

(** The books of a run. *)
Lemma worker_balance (clks : list clock) :
  forall (q : WebhookQueue) (w : W),
    let r := _worker process clks q w in
    (length r.1.1.(queue) + length (committed r.2) + length (dead_lettered r.2)
     = length q.(queue))%nat /\
    r.1.1.(total_processed) =
      q.(total_processed) + Z.of_nat (length (committed r.2)) /\
    r.1.1.(total_failed) =
      q.(total_failed) + Z.of_nat (length (dead_lettered r.2)) /\
    r.1.1.(total_received) = q.(total_received) /\
    r.1.1.(queue_size_peak) = q.(queue_size_peak) /\
    (length r.1.1.(dead_letter_queue)
     <= Nat.max (length q.(dead_letter_queue)) dead_letter_maxlen)%nat /\
    (length r.1.1.(processing_times)
     <= Nat.max (length q.(processing_times)) processing_times_maxlen)%nat.
Proof.
  induction clks as [|clk clks IH]; intros q w; cbv zeta.
  - cbn [_worker fst snd committed dead_lettered length]. repeat split; lia.
  - destruct q.(is_running) eqn:Hrun.
    2: { cbn [_worker]. rewrite Hrun.
         cbn [fst snd committed dead_lettered length]. repeat split; lia. }
    rewrite worker_cons by assumption. cbv zeta. cbn [fst snd].
    destruct (worker_iteration process clk q w) as [[q1 w1] o] eqn:Hit.
    cbn [fst snd].
    apply worker_iteration_balance in Hit
      as (H1 & H2 & H3 & H4 & H5 & H6 & H7).
    destruct (IH q1 w1) as (I1 & I2 & I3 & I4 & I5 & I6 & I7).
    rewrite committed_cons, dead_lettered_cons.
    repeat split; lia.
Qed.

(** No message is lost, and the counters say what happened.  In every run
    of a worker, each message that was queued is still queued, or was
    committed, or was dead-lettered; [total_processed] grows by the number
    of commits, [total_failed] by the number of dead letters, and
    [total_received] stays.  When the run is long enough to drain the
    queue, every message that was queued ended as a commit or as a dead
    letter. *)
Theorem worker_loses_no_message (clks : list clock) (q : WebhookQueue)
    (w : W) :
  let r := _worker process clks q w in
  (length r.1.1.(queue) + length (committed r.2) + length (dead_lettered r.2)
   = length q.(queue))%nat /\
  r.1.1.(total_processed) =
    q.(total_processed) + Z.of_nat (length (committed r.2)) /\
  r.1.1.(total_failed) =
    q.(total_failed) + Z.of_nat (length (dead_lettered r.2)) /\
  r.1.1.(total_received) = q.(total_received) /\
  (q.(is_running) = true ->
   Forall (fun m => m.(retry_count) <= q.(max_retries)) q.(queue) ->
   (work q.(max_retries) q.(queue) <= length clks)%nat ->
   r.1.1.(queue) = [] /\
   (length (committed r.2) + length (dead_lettered r.2) = length q.(queue))%nat).
Proof.
  cbv zeta. destruct (worker_balance clks q w) as (H1 & H2 & H3 & H4 & _).
  do 4 (split; [assumption|]).
  intros Hrun Hb Hw.
  pose proof (worker_drains process clks q w Hrun Hb Hw) as Hd.
  split; [exact Hd|]. rewrite Hd in H1. cbn [length] in H1. lia.
Qed.

(** A worker keeps the buffers within their bounds. *)
Lemma worker_keeps_bounds (clks : list clock) (q : WebhookQueue) (w : W) :
  queue_ok q -> queue_ok (_worker process clks q w).1.1.
Proof.
  intros (B1 & B2 & B3 & B4).
  destruct (worker_balance clks q w) as (H1 & _ & _ & _ & H5 & H6 & H7).
  unfold queue_ok. rewrite H5. repeat split; lia.
Qed.
End WorkerAccounts.

Lemma enqueue_keeps_bounds (now : datetime) (wd : webhook_data)
    (q : WebhookQueue) :
  queue_ok q -> queue_ok (enqueue now wd q).1.
Proof.
  intros (B1 & B2 & B3 & B4). unfold enqueue, queue_ok.
  destruct (Nat.ltb_spec (length q.(queue)) queue_maxsize) as [Hlt|Hge];
    cbn [fst queue dead_letter_queue processing_times queue_size_peak].
  - rewrite length_app. cbn [length].
    destruct (Z.ltb_spec q.(queue_size_peak)
                (Z.of_nat (length q.(queue) + 1))); repeat split; lia.
  - now repeat split.
Qed.

(** The buffers stay bounded.  A new queue holds at most 10000 messages,
    1000 dead letters and 100 processing times, and its high-water mark is
    at least its size; accepting an envelope and running a worker, for any
    number of iterations and whatever the processing does, keep all four. *)
Theorem buffers_stay_bounded :
  (forall max_workers max_retries : Z,
      queue_ok (new_WebhookQueue max_workers max_retries)) /\
  (forall (now : datetime) (wd : webhook_data) (q : WebhookQueue),
      queue_ok q -> queue_ok (enqueue now wd q).1) /\
  (forall (W : Type) (process : clock -> message -> W -> result W)
          (clks : list clock) (q : WebhookQueue) (w : W),
      queue_ok q -> queue_ok (_worker process clks q w).1.1).
Proof.
  split; [|split].
  - intros a b. unfold queue_ok, new_WebhookQueue. cbn. repeat split; lia.
  - exact enqueue_keeps_bounds.
  - intros W process. exact (worker_keeps_bounds process).
Qed.

(** ** The pipeline on the store *)

(** A property of the store that every successful processing step hands on
    is handed on by a run of the worker. *)
Lemma worker_preserves {W : Type}
    (process : clock -> message -> W -> result W) (P : W -> Prop) :
  (forall clk m w w', P w -> process clk m w = Ok w' -> P w') ->
  forall (clks : list clock) (q : WebhookQueue) (w : W),
    P w -> P (_worker process clks q w).1.2.
Proof.
  intros Hstep. induction clks as [|clk clks IH]; intros q w Hw; [exact Hw|].
  destruct q.(is_running) eqn:Hrun.
  2: { cbn [_worker]. now rewrite Hrun. }
  rewrite worker_cons by assumption. cbv zeta. cbn [fst snd].
  destruct (worker_iteration process clk q w) as [[q1 w1] o] eqn:Hit.
  cbn [fst snd]. apply IH.
  apply worker_iteration_cases in Hit
    as (_ & _ & [(_ & _ & -> & _) | [(h & t & _ & Hp & _)
         | [(h & t & e & _ & _ & _ & _ & _ & _ & _ & ->)
           | (h & t & e & _ & _ & _ & _ & _ & _ & _ & ->)]]]);
    try exact Hw.
  exact (Hstep _ _ _ _ Hw Hp).
Qed.

Section PipelineFacts.
Variable json_loads : string -> result value.
Variable validate_str : value -> result string.
Variable validate_float : value -> result float.
Variable validate_int : value -> result Z.
Variable validate_email : value -> result string.
Variable validate_datetime : value -> result pydatetime.

(** The three stages of a processing step that returns. *)
Lemma process_webhook_stages (clk : clock) (m : message) (db db' : database) :
  _process_webhook json_loads validate_str validate_float validate_int
    validate_email validate_datetime clk m db = Ok db' ->
  exists d p o,
    parse_webhook_content json_loads clk.(t_parse) m.(data).(body)
      (Some m.(data).(content_type)) = Ok d /\
    validate_WebhookPayload validate_str validate_float validate_int
      validate_email validate_datetime d = Ok p /\
    create_order_from_webhook clk.(t_map) clk.(t_db) p db = Ok (db', o).
Proof.
  unfold _process_webhook, mbind, result_bind. cbv zeta.
  destruct (parse_webhook_content _ _ _ _) as [d|e] eqn:Ep; [|discriminate].
  destruct (validate_WebhookPayload _ _ _ _ _ d) as [p|e] eqn:Ev;
    [|discriminate].
  destruct (create_order_from_webhook _ _ p db) as [[db1 o]|e] eqn:E;
    [|discriminate].
  cbn [fst]. intros [= <-]. now exists d, p, o.
Qed.

(** The pipeline keeps the store sound.  A message that is processed was
    parsed and validated, and the order number of the validated payload is
    then held by exactly one row; the store keeps sequential keys, unique
    order numbers and events that point at rows.  So does a whole run of a
    worker over the pipeline, whatever the messages, the decoder and the
    validators: a message that fails leaves no trace in the store. *)
Theorem pipeline_keeps_store_invariant :
  (forall (clk : clock) (m : message) (db db' : database),
      store_ok db ->
      _process_webhook json_loads validate_str validate_float validate_int
        validate_email validate_datetime clk m db = Ok db' ->
      store_ok db' /\
      exists d p o,
        parse_webhook_content json_loads clk.(t_parse) m.(data).(body)
          (Some m.(data).(content_type)) = Ok d /\
        validate_WebhookPayload validate_str validate_float validate_int
          validate_email validate_datetime d = Ok p /\
        rows_with_number p.(order_number) db' = [o]) /\
  (forall (clks : list clock) (q : WebhookQueue) (db : database),
      store_ok db ->
      store_ok (_worker (_process_webhook json_loads validate_str
                           validate_float validate_int validate_email
                           validate_datetime) clks q db).1.2).
Proof.
  assert (Hstep : forall clk m db db',
             store_ok db ->
             _process_webhook json_loads validate_str validate_float
               validate_int validate_email validate_datetime clk m db
               = Ok db' ->
             store_ok db').
  { intros clk m db db' Hok H.
    apply process_webhook_stages in H as (d & p & o & _ & _ & H).
    exact (store_ok_step _ _ _ _ _ _ Hok H). }
  split.
  - intros clk m db db' Hok H. split; [exact (Hstep _ _ _ _ Hok H)|].
    apply process_webhook_stages in H as (d & p & o & Hp & Hv & H).
    exists d, p, o. do 2 (split; [assumption|]).
    destruct Hok as (Hwf & _).
    now destruct (applied_row_is_stored _ _ _ _ _ _ Hwf H).
  - intros clks q db Hok. now apply worker_preserves.
Qed.
End PipelineFacts.

(** ** What the text parser returns *)

(** A step that may raise leaves the keys it does not assign alone. *)
Lemma step_other {A : Type} (o : option string) (conv : string -> result A)
    (upd : A -> list (string * value)) (data data' : list (string * value))
    (k : string) :
  match o with
  | Some g => match conv g with Ok a => Ok (upd a) | Raise e => Raise e end
  | None => Ok data
  end = Ok data' ->
  (forall a, dict_get (upd a) k = dict_get data k) ->
  dict_get data' k = dict_get data k.
Proof.
  intros H Hk. destruct o as [g|]; [destruct (conv g); [|discriminate H]|];
    injection H as <-; [apply Hk | reflexivity].
Qed.

Lemma set_line_same (r : regex) (key text : string)
    (d : list (string * value)) :
  dict_get (set_line r key text d) key =
  match search r text with
  | Some g => Some (VStr (strip g))
  | None => dict_get d key
  end.
Proof.
  unfold set_line. destruct (search r text); [apply dict_get_set | reflexivity].
Qed.

(** Looks a key up in the dictionary the text parser builds. *)
Ltac dict_lookup :=
  repeat first
    [ rewrite dict_get_set
    | rewrite dict_get_set_ne by discriminate
    | rewrite set_line_other by discriminate
    | rewrite set_line_same
    | match goal with
      | H : forall k, _ -> dict_get ?a k = _ |- dict_get ?a _ = _ =>
          rewrite H by discriminate
      | H : forall k, _ -> _ -> dict_get ?a k = _ |- dict_get ?a _ = _ =>
          rewrite H by discriminate
      | |- match search ?r ?t with _ => _ end = _ => destruct (search r t)
      | |- dict_get (match search ?r ?t with _ => _ end) _ = _ =>
          destruct (search r t)
      end ];
  try reflexivity.

(** Each key of the result comes from its own label. *)
Lemma parse_refract_message_fields (now : datetime) (text : string)
    (d : list (string * value)) :
  parse_refract_message now text = Ok d ->
  dict_get d "order_number" =
    (fun g => VStr (lstrip_with (Ascii.eqb "#") (strip g)))
      <$> search order_re text /\
  dict_get d "status" =
    (fun g => str_dict_get text_status_map (lower (strip g)))
      <$> search status_re text /\
  dict_get d "order_date" = Some (VDatetime now) /\
  dict_get d "order_time" = Some (VStr (strftime_12h now)) /\
  (exists q, dict_get d "quantity" = Some (VInt q) /\
             (search quantity_re text = None -> q = 1)) /\
  dict_get d "product" = (fun g => VStr (strip g)) <$> search product_re text /\
  dict_get d "email" = (fun g => VStr (strip g)) <$> search email_re text /\
  dict_get d "profile" = (fun g => VStr (strip g)) <$> search profile_re text /\
  dict_get d "proxy_list" = (fun g => VStr (strip g)) <$> search proxy_re text /\
  dict_get d "tracking_number" =
    (fun g => VStr (strip g)) <$> search tracking_re text /\
  dict_get d "reference_number" =
    (fun g => VStr (strip g)) <$> search reference_re text.
Proof.
  unfold parse_refract_message. intros H. peel_binds H.
  rename a into d1, a0 into d2, a1 into d3, a2 into d4.
  assert (E1 : forall k, k <> "price" -> k <> "total" ->
                 dict_get d1 k = dict_get (set_line product_re "product" text []) k).
  { intros k N1 N2. apply (step_other _ _ _ _ _ _ Heqr). intros f.
    now rewrite !dict_get_set_ne by congruence. }
  clear Heqr.
  assert (E3 : forall k, k <> "total" -> dict_get d3 k = dict_get d2 k).
  { intros k N. apply (step_other _ _ _ _ _ _ Heqr1). intros f.
    now rewrite dict_get_set_ne by congruence. }
  clear Heqr1.
  assert (E4 : forall k, k <> "commission" -> dict_get d4 k = dict_get d3 k).
  { intros k N. apply (step_other _ _ _ _ _ _ Heqr2). intros f.
    now rewrite dict_get_set_ne by congruence. }
  clear Heqr2.
  assert (E2 : exists q X,
             d2 = dict_set
                    (set_line email_re "email" text
                       match search order_re text with
                       | Some g =>
                           dict_set
                             (set_line proxy_re "proxy_list" text
                                (set_line profile_re "profile" text d1))
                             "order_number"
                             (VStr (lstrip_with (Ascii.eqb "#") (strip g)))
                       | None =>
                           set_line proxy_re "proxy_list" text
                             (set_line profile_re "profile" text d1)
                       end) "quantity" (VInt q) /\
             X = q /\ (search quantity_re text = None -> q = 1)).
  { destruct (search quantity_re text) as [gq|];
      [destruct (py_int gq) as [q|]; [|discriminate Heqr0]|];
      injection Heqr0 as <-; eexists; eexists;
      (split; [reflexivity|]); split; (reflexivity || discriminate). }
  clear Heqr0. destruct E2 as (q & _ & -> & _ & Hq1).
  injection H as <-.
  split; [dict_lookup|]. split; [dict_lookup|].
  split; [dict_lookup|]. split; [dict_lookup|].
  split; [exists q; split; [dict_lookup | exact Hq1]|].
  split; [dict_lookup|]. split; [dict_lookup|].
  split; [dict_lookup|]. split; [dict_lookup|].
  split; [dict_lookup|]. dict_lookup.
Qed.

Lemma py_float_error (s e : string) :
  py_float s = Raise e ->
  e = "ValueError: could not convert string to float".
Proof.
  unfold py_float. destruct (split_point s) as [ip fp].
  destruct (_ && _)%bool; [discriminate|]. now intros [= <-].
Qed.

(** An amount step returns when [float] accepts the group. *)
Lemma amount_step_ok (r : regex) (text : string)
    (upd : float -> list (string * value)) (data x : list (string * value)) :
  match search r text with
  | Some g =>
      match py_float (remove_commas g) with
      | Ok a => Ok (upd a)
      | Raise e => Raise e
      end
  | None => Ok data
  end = Ok x ->
  bad_amount r text = false.
Proof.
  unfold bad_amount. destruct (search r text) as [g|]; [|reflexivity].
  now destruct (py_float (remove_commas g)).
Qed.

(** An amount step raises when [float] rejects the group. *)
Lemma amount_step_raise (r : regex) (text : string)
    (upd : float -> list (string * value)) (data : list (string * value))
    (e : string) :
  match search r text with
  | Some g =>
      match py_float (remove_commas g) with
      | Ok a => Ok (upd a)
      | Raise e => Raise e
      end
  | None => Ok data
  end = Raise e ->
  bad_amount r text = true /\
  e = "ValueError: could not convert string to float".
Proof.
  unfold bad_amount. destruct (search r text) as [g|]; [|discriminate].
  destruct (py_float (remove_commas g)) as [f|e'] eqn:Hf; [discriminate|].
  intros [= <-]. split; [reflexivity | exact (py_float_error _ _ Hf)].
Qed.

(** The quantity step returns when [int] accepts the group. *)
Lemma quantity_step_ok (text : string) (data x : list (string * value)) :
  match search quantity_re text with
  | Some g =>
      match py_int g with
      | Ok q => Ok (dict_set data "quantity" (VInt q))
      | Raise e => Raise e
      end
  | None => Ok (dict_set data "quantity" (VInt 1))
  end = Ok x ->
  bad_quantity text = false.
Proof.
  unfold bad_quantity. destruct (search quantity_re text) as [g|]; [|reflexivity].
  now destruct (py_int g).
Qed.

(** The quantity step raises when the group is longer than [int]
    converts. *)
Lemma quantity_step_raise (text : string) (data : list (string * value))
    (e : string) :
  match search quantity_re text with
  | Some g =>
      match py_int g with
      | Ok q => Ok (dict_set data "quantity" (VInt q))
      | Raise e => Raise e
      end
  | None => Ok (dict_set data "quantity" (VInt 1))
  end = Raise e ->
  bad_quantity text = true /\
  e = "ValueError: Exceeds the limit (4300 digits) for integer string conversion".
Proof.
  unfold bad_quantity.
  destruct (search quantity_re text) as [g|] eqn:Hq; [|discriminate].
  rewrite (quantity_group_is_number _ _ Hq).
  destruct (int_max_str_digits <? String.length g)%nat; [|discriminate].
  intros [= <-]. now split.
Qed.

(** The quantity is malformed exactly when its digits are more than [int]
    converts. *)
Lemma bad_quantity_is_long (text : string) :
  bad_quantity text = true <->
  exists g, search quantity_re text = Some g /\
            (int_max_str_digits < String.length g)%nat.
Proof.
  unfold bad_quantity.
  destruct (search quantity_re text) as [g|] eqn:Hq.
  - rewrite (quantity_group_is_number _ _ Hq).
    destruct (Nat.ltb_spec int_max_str_digits (String.length g)) as [Hlt|Hge];
      cbn [is_ok negb].
    + split; [|reflexivity]. intros _. now exists g.
    + split; [discriminate|]. intros (g' & [= <-] & Hlt). lia.
  - split; [discriminate|]. now intros (g & Hg & _).
Qed.

(** The text parser fails on a malformed amount or quantity, and on nothing
    else.  On a text of ASCII characters it raises exactly when the group
    after a [Price], [Total] or [Commission] label is one that [float]
    rejects once the commas are removed, or the group after a [Quantity]
    label is one that [int] rejects, which is a run of more than 4300
    digits; it raises the [ValueError] of [float] or the one of [int].  A
    line with just a comma after [Price] is a text with a malformed amount.
    No other label can make it fail. *)
Theorem text_parser_raises_on_bad_amount (now : datetime) (text : string) :
  isascii text = true ->
  is_ok (parse_refract_message now text) =
    negb (bad_amount price_re text || bad_quantity text ||
          bad_amount total_re text || bad_amount commission_re text) /\
  (bad_quantity text = true <->
   exists g, search quantity_re text = Some g /\
             (int_max_str_digits < String.length g)%nat) /\
  (forall e, parse_refract_message now text = Raise e ->
             e = "ValueError: could not convert string to float" \/
             e = "ValueError: Exceeds the limit (4300 digits) for integer string conversion") /\
  bad_amount price_re (lines ["Price"; ","]) = true.
Proof.
  intros _.
  assert (Hmain :
            match parse_refract_message now text with
            | Ok _ =>
                bad_amount price_re text = false /\
                bad_quantity text = false /\
                bad_amount total_re text = false /\
                bad_amount commission_re text = false
            | Raise e =>
                (bad_amount price_re text = true \/
                 bad_quantity text = true \/
                 bad_amount total_re text = true \/
                 bad_amount commission_re text = true) /\
                (e = "ValueError: could not convert string to float" \/
                 e = "ValueError: Exceeds the limit (4300 digits) for integer string conversion")
            end).
  { destruct (parse_refract_message now text) as [d|e] eqn:H;
      unfold parse_refract_message in H.
    - peel_binds H.
      apply amount_step_ok in Heqr, Heqr1, Heqr2.
      apply quantity_step_ok in Heqr0. now repeat split.
    - unfold mbind, result_bind in H.
      match type of H with
      | (match ?m with Ok _ => _ | Raise _ => _ end) = Raise _ =>
          destruct m as [d1|e1] eqn:E1
      end.
      2: { injection H as <-.
           apply amount_step_raise in E1 as [Hb ->]. split; now left. }
      match type of H with
      | (match ?m with Ok _ => _ | Raise _ => _ end) = Raise _ =>
          destruct m as [d2|e2] eqn:E2
      end.
      2: { injection H as <-.
           apply quantity_step_raise in E2 as [Hb ->].
           split; [right; now left | now right]. }
      match type of H with
      | (match ?m with Ok _ => _ | Raise _ => _ end) = Raise _ =>
          destruct m as [d3|e3] eqn:E3
      end.
      2: { injection H as <-.
           apply amount_step_raise in E3 as [Hb ->].
           split; [right; right; now left | now left]. }
      match type of H with
      | (match ?m with Ok _ => _ | Raise _ => _ end) = Raise _ =>
          destruct m as [d4|e4] eqn:E4
      end.
      2: { injection H as <-.
           apply amount_step_raise in E4 as [Hb ->].
           split; [right; right; now right | now left]. }
      discriminate H. }
  split; [|split; [apply bad_quantity_is_long|split; [|vm_compute; reflexivity]]].
  - destruct (parse_refract_message now text) as [d|e].
    + destruct Hmain as (-> & -> & -> & ->). reflexivity.
    + destruct Hmain as ([-> | [-> | [-> | ->]]] & _); cbn [is_ok orb negb];
        repeat match goal with
          | |- context [bad_amount ?r text] => destruct (bad_amount r text)
          | |- context [bad_quantity text] => destruct (bad_quantity text)
          end; reflexivity.
  - intros e H. rewrite H in Hmain. now destruct Hmain.
Qed.

(** A text with a lone comma after [Price]: the parser raises. *)
Lemma text_parser_raises_on_bad_amount_witness :
  is_ok (parse_refract_message 7 (lines ["Price"; ","])) =
    negb (bad_amount price_re (lines ["Price"; ","]) ||
          bad_quantity (lines ["Price"; ","]) ||
          bad_amount total_re (lines ["Price"; ","]) ||
          bad_amount commission_re (lines ["Price"; ","])) /\
  (bad_quantity (lines ["Price"; ","]) = true <->
   exists g, search quantity_re (lines ["Price"; ","]) = Some g /\
             (int_max_str_digits < String.length g)%nat) /\
  (forall e, parse_refract_message 7 (lines ["Price"; ","]) = Raise e ->
             e = "ValueError: could not convert string to float" \/
             e = "ValueError: Exceeds the limit (4300 digits) for integer string conversion") /\
  bad_amount price_re (lines ["Price"; ","]) = true.
Proof.
  apply (text_parser_raises_on_bad_amount 7 (lines ["Price"; ","])).
  reflexivity.
Defined.

Lemma lstrip_hash_no_hash (s : string) :
  strip_prefix "#" (lstrip_with (Ascii.eqb "#") s) = None.
Proof.
  induction s as [|c s IH]; [reflexivity|]. cbn [lstrip_with].
  destruct (Ascii.eqb "#" c) eqn:E; [exact IH|].
  cbn [strip_prefix]. now rewrite E.
Qed.

Lemma str_dict_get_values (m : list (string * string)) (k : string) :
  str_dict_get m k = VNone \/
  exists s, str_dict_get m k = VStr s /\ s ∈ m.*2.
Proof.
  induction m as [|[a b] m IH]; [now left|]. cbn [str_dict_get].
  destruct (String.eqb a k).
  - right. exists b. split; [reflexivity|]. apply elem_of_cons. now left.
  - destruct IH as [IH | (s & Hs & Hin)]; [now left|].
    right. exists s. split; [exact Hs|]. apply elem_of_cons. now right.
Qed.

(** What the text parser adds by itself.  Whatever a text of ASCII
    characters says, a parse that returns stamps the result with the reading
    of the clock: [order_date] is the time of the parse and [order_time] its
    twelve-hour rendering, so two parses of one text at different times
    differ.  The result always carries a quantity, which is 1 when the text
    has no [Quantity] label. *)
Theorem text_parser_stamps_and_defaults (now : datetime) (text : string)
    (d : list (string * value)) :
  isascii text = true ->
  parse_refract_message now text = Ok d ->
  dict_get d "order_date" = Some (VDatetime now) /\
  dict_get d "order_time" = Some (VStr (strftime_12h now)) /\
  exists q, dict_get d "quantity" = Some (VInt q) /\
            (has_label "Quantity" text = false -> q = 1).
Proof.
  intros _ H.
  apply parse_refract_message_fields in H
    as (_ & _ & Hd & Ht & (q & Hq & Hq1) & _).
  do 2 (split; [assumption|]). exists q. split; [exact Hq|].
  intros Hl. apply Hq1. now apply search_label_absent.
Qed.

Lemma text_parser_stamps_and_defaults_witness :
  match parse_refract_message 7 refract_text with
  | Ok d =>
      dict_get d "order_date" = Some (VDatetime 7) /\
      dict_get d "order_time" = Some (VStr (strftime_12h 7)) /\
      exists q, dict_get d "quantity" = Some (VInt q) /\
                (has_label "Quantity" refract_text = false -> q = 1)
  | Raise _ => False
  end.
Proof.
  destruct (parse_refract_message 7 refract_text) as [d|e] eqn:E.
  - exact (text_parser_stamps_and_defaults 7 refract_text d eq_refl E).
  - rewrite refract_text_parsed in E. discriminate E.
Defined.

(** What the text parser normalises.  In a parse that returns, the order
    number, when there is one, is a string that does not begin with [#],
    and the status, when there is one, is [None] or one of the seven
    tokens of the parser's table: a status the table does not know,
    [refunded] among them, is dropped. *)
Theorem text_parser_normalises (now : datetime) (text : string)
    (d : list (string * value)) :
  parse_refract_message now text = Ok d ->
  (forall v, dict_get d "order_number" = Some v ->
             exists s, v = VStr s /\ strip_prefix "#" s = None) /\
  (forall v, dict_get d "status" = Some v ->
             v = VNone \/ exists s, v = VStr s /\ s ∈ text_statuses) /\
  "refunded" ∉ text_statuses.
Proof.
  intros H.
  apply parse_refract_message_fields in H as (Ho & Hs & _).
  split; [|split].
  - intros v Hv. rewrite Ho in Hv.
    destruct (search order_re text) as [g|]; [|discriminate Hv].
    injection Hv as <-. eexists. split; [reflexivity|].
    apply lstrip_hash_no_hash.
  - intros v Hv. rewrite Hs in Hv.
    destruct (search status_re text) as [g|]; [|discriminate Hv].
    cbn [fmap option_fmap option_map] in Hv.
    destruct (str_dict_get_values text_status_map (lower (strip g)))
      as [Hn | (s & Hs' & Hin)].
    + rewrite Hn in Hv. injection Hv as <-. now left.
    + rewrite Hs' in Hv. injection Hv as <-. right. now exists s.
  - unfold text_statuses. cbn. intros Hin.
    repeat (apply elem_of_cons in Hin as [Hin | Hin]; [discriminate Hin|]).
    now apply elem_of_nil in Hin.
Qed.

Lemma text_parser_normalises_witness :
  match parse_refract_message 7 refract_text with
  | Ok d =>
      (forall v, dict_get d "order_number" = Some v ->
                 exists s, v = VStr s /\ strip_prefix "#" s = None) /\
      (forall v, dict_get d "status" = Some v ->
                 v = VNone \/ exists s, v = VStr s /\ s ∈ text_statuses) /\
      "refunded" ∉ text_statuses
  | Raise _ => False
  end.
Proof.
  destruct (parse_refract_message 7 refract_text) as [d|e] eqn:E.
  - exact (text_parser_normalises 7 refract_text d E).
  - rewrite refract_text_parsed in E. discriminate E.
Defined.

(** ** The status column *)

Lemma map_status_values (p : WebhookPayload) :
  map_status p = VNone \/
  exists s, map_status p = VStr s /\ s ∈ statuses.
Proof.
  unfold map_status.
  destruct (truthy _); [|now left].
  destruct (py_or _ _); try (now left).
  apply str_dict_get_values.
Qed.

(** The status column only ever takes a known status.  The mapping turns
    the status of a payload into [None] or one of the eight tokens of its
    table.  A token is what the row returned then holds; [None] (no status,
    or one the table does not know) leaves the status of the row found as
    it was, and gives a new row no status. *)
Theorem status_allow_list (t_map t_db : datetime) (p : WebhookPayload)
    (db db' : database) (o : Order) :
  sequential_ids db.(orders) ->
  create_order_from_webhook t_map t_db p db = Ok (db', o) ->
  (map_status p = VNone \/
   exists s, map_status p = VStr s /\ s ∈ statuses) /\
  (map_status p <> VNone -> getattr o "status" = map_status p) /\
  (map_status p = VNone ->
   match _get_order_by_number db p.(order_number) with
   | Ok (Some o0) => getattr o "status" = getattr o0 "status"
   | _ => getattr o "status" = VNone
   end).
Proof.
  intros Hwf H.
  pose proof (map_keys_NoDup t_map p) as Hnd.
  assert (Hk : dict_get (_map_webhook_to_order t_map p) "status"
               = Some (map_status p)) by reflexivity.
  split; [apply map_status_values|]. split.
  - intros Hv.
    destruct (map_status_values p) as [Hn | (s & Hs & _)]; [contradiction|].
    destruct (applied_value _ _ _ _ _ _ "status" _ H Hk) as [He | He];
      try discriminate; try assumption; rewrite Hs in He |- *.
    + exact He.
    + now apply py_eq_VStr.
  - intros Hn.
    destruct (_get_order_by_number db p.(order_number)) as [[o0|]|err] eqn:Hget.
    + destruct (applied_update_shape _ _ _ _ _ _ _ Hwf Hget H)
        as (ch & Hin & Hout & _).
      apply Hout; [discriminate|].
      intros old v Hc. destruct (Hin _ old v Hc) as (Hd & Hne & _).
      apply elem_of_dict_get in Hd; [|exact Hnd].
      rewrite Hk in Hd. injection Hd as <-. contradiction.
    + apply create_order_from_webhook_cases in H
        as [(o0 & Hget' & _) | (_ & H)];
        [rewrite Hget in Hget'; discriminate Hget'|].
      rewrite (created_value _ _ _ _ _ _ "status" _ Hnd H Hk)
        by discriminate.
      now rewrite Hn.
    + apply create_order_from_webhook_cases in H
        as [(o0 & Hget' & _) | (Hget' & _)];
        rewrite Hget in Hget'; discriminate Hget'.
Qed.

(** A payload without a status creates a row without a status. *)
Lemma status_allow_list_witness :
  match create_order_from_webhook 0 0 (bare_payload "A1") empty_db with
  | Ok (db', o) =>
      (map_status (bare_payload "A1") = VNone \/
       exists s, map_status (bare_payload "A1") = VStr s /\ s ∈ statuses) /\
      (map_status (bare_payload "A1") <> VNone ->
       getattr o "status" = map_status (bare_payload "A1")) /\
      (map_status (bare_payload "A1") = VNone ->
       match _get_order_by_number empty_db "A1" with
       | Ok (Some o0) => getattr o "status" = getattr o0 "status"
       | _ => getattr o "status" = VNone
       end)
  | Raise _ => False
  end.
Proof.
  destruct (create_order_from_webhook 0 0 (bare_payload "A1") empty_db)
    as [[db' o]|e] eqn:E.
  - apply (status_allow_list 0 0 (bare_payload "A1") empty_db db' o);
      [|exact E].
    intros i r Hi. destruct i; discriminate Hi.
  - assert (Hok : is_ok (create_order_from_webhook 0 0 (bare_payload "A1")
                           empty_db) = true) by (vm_compute; reflexivity).
    rewrite E in Hok. discriminate Hok.
Defined.

(** What the text parser raises is the [ValueError] of [float] or of
    [int]. *)
Lemma text_parser_error_is_value_error (now : datetime) (text e : string) :
  parse_refract_message now text = Raise e ->
  (e = "ValueError: could not convert string to float" \/
   e = "ValueError: Exceeds the limit (4300 digits) for integer string conversion") /\
  e <> "Could not parse webhook content as JSON or text format".
Proof.
  intros H. unfold parse_refract_message in H.
  unfold mbind, result_bind in H.
  assert (He : e = "ValueError: could not convert string to float" \/
               e = "ValueError: Exceeds the limit (4300 digits) for integer string conversion").
  { repeat match type of H with
      | (match ?m with Ok _ => _ | Raise _ => _ end) = Raise _ =>
          let E := fresh "E" in
          destruct m eqn:E;
          [ cbv beta iota in H
          | injection H as <-;
            first [ left; now apply amount_step_raise in E
                  | right; now apply quantity_step_raise in E ] ]
      end.
    discriminate H. }
  split; [exact He|]. destruct He as [-> | ->]; discriminate.
Qed.

(** ** The normaliser: which format is tried, and what is raised *)

Section NormaliserFacts.
Variable json_loads : string -> result value.

(** The text branch is the text parser. *)
Lemma text_branch (now : datetime) (content : string) :
  (data ← parse_refract_message now content; Ok (VDict data)) =
  VDict <$> parse_refract_message now content.
Proof. now destruct (parse_refract_message now content). Qed.

(** Where every [try] block fails, the text indicators decide: the text
    parser, or the message of the last block. *)
Lemma normaliser_after_failed_json (now : datetime) (content : string)
    (content_type : option string) :
  is_ok (try_json json_loads now content) = false ->
  parse_webhook_content json_loads now content content_type =
  if is_text_webhook content
  then VDict <$> parse_refract_message now content
  else Raise "Could not parse webhook content as JSON or text format".
Proof.
  intros Hj. unfold parse_webhook_content. cbv zeta. rewrite text_branch.
  destruct (try_json json_loads now content); [discriminate Hj|].
  now destruct (says_json content_type), (looks_like_json content),
    (is_text_webhook content).
Qed.

(** An envelope with an empty [embeds] makes a [try] block fail. *)
Lemma try_json_empty_embeds (now : datetime) (content : string)
    (d : list (string * value)) (v : value) :
  json_loads content = Ok (VDict d) ->
  dict_get d "embeds" = Some v ->
  truthy v = false ->
  try_json json_loads now content =
  Raise "ValueError: Discord webhook has no embeds".
Proof.
  intros Hj Hd Hv. unfold try_json. rewrite Hj. cbn [mbind result_bind].
  rewrite Hd. change (bool_decide (is_Some (Some v))) with true. cbv iota.
  unfold parse_discord_embed. now rewrite Hd, Hv.
Qed.
End NormaliserFacts.

(** A body that is neither JSON nor labelled text is rejected.  The
    normaliser raises the message [Could not parse webhook content as JSON
    or text format] exactly when the body carries none of the text
    indicators and the JSON attempt fails (the decoder rejects the body, or
    the embed envelope it decodes to cannot be read), for every content
    type: the cause is not reported. *)
Theorem unparseable_body_raises (json_loads : string -> result value)
    (now : datetime) (content : string) (content_type : option string) :
  parse_webhook_content json_loads now content content_type =
    Raise "Could not parse webhook content as JSON or text format" <->
  is_text_webhook content = false /\
  is_ok (try_json json_loads now content) = false.
Proof.
  split.
  - destruct (try_json json_loads now content) as [v|e] eqn:Hj.
    + unfold parse_webhook_content. cbv zeta. rewrite Hj, text_branch.
      destruct (says_json content_type), (looks_like_json content);
        try discriminate.
      destruct (is_text_webhook content); [|discriminate].
      destruct (parse_refract_message now content) as [d|e] eqn:Hp;
        [discriminate|].
      destruct (text_parser_error_is_value_error now content e Hp) as [_ Hne].
      intros [= He]. contradiction.
    + rewrite (normaliser_after_failed_json json_loads now content content_type)
        by now rewrite Hj.
      destruct (is_text_webhook content); [|now split].
      destruct (parse_refract_message now content) as [d|e'] eqn:Hp;
        [discriminate|].
      destruct (text_parser_error_is_value_error now content e' Hp) as [_ Hne].
      intros [= He]. contradiction.
  - intros [Ht Hj].
    rewrite (normaliser_after_failed_json json_loads now content content_type Hj).
    now rewrite Ht.
Qed.

Lemma unparseable_body_raises_witness :
  parse_webhook_content json_loads_rejecting 0 "hello" (Some "text/plain") =
  Raise "Could not parse webhook content as JSON or text format".
Proof.
  apply (unparseable_body_raises json_loads_rejecting 0 "hello"
           (Some "text/plain")). split; reflexivity.
Defined.

(** An envelope with an empty [embeds].  The embed parser raises [Discord
    webhook has no embeds], but the normaliser does not let that through:
    without a text indicator in the raw body the caller sees the general
    message, and with one (the words [Successful Checkout] anywhere in the
    JSON source are enough) the raw JSON source is handed to the text
    parser. *)
Theorem empty_embeds_falls_through (json_loads : string -> result value)
    (now : datetime) (content : string) (content_type : option string)
    (d : list (string * value)) (v : value) :
  json_loads content = Ok (VDict d) ->
  dict_get d "embeds" = Some v ->
  truthy v = false ->
  parse_discord_embed now (VDict d) =
    Raise "ValueError: Discord webhook has no embeds" /\
  (is_text_webhook content = false ->
   parse_webhook_content json_loads now content content_type =
   Raise "Could not parse webhook content as JSON or text format") /\
  (is_text_webhook content = true ->
   parse_webhook_content json_loads now content content_type =
   VDict <$> parse_refract_message now content).
Proof.
  intros Hj Hd Hv.
  pose proof (try_json_empty_embeds json_loads now content d v Hj Hd Hv) as Ht.
  assert (Hf : is_ok (try_json json_loads now content) = false)
    by now rewrite Ht.
  split; [|split].
  - unfold parse_discord_embed. now rewrite Hd, Hv.
  - intros Hi.
    rewrite (normaliser_after_failed_json json_loads now content content_type Hf).
    now rewrite Hi.
  - intros Hi.
    rewrite (normaliser_after_failed_json json_loads now content content_type Hf).
    now rewrite Hi.
Qed.

(** The body of a chat message with an empty list of embeds. *)
Lemma empty_embeds_falls_through_witness :
  parse_discord_embed 0
    (VDict [("content", VStr "Successful Checkout"); ("embeds", VList [])]) =
    Raise "ValueError: Discord webhook has no embeds" /\
  (is_text_webhook "{'content': 'Successful Checkout', 'embeds': []}" = false ->
   parse_webhook_content
     (fun _ => Ok (VDict [("content", VStr "Successful Checkout");
                          ("embeds", VList [])]))
     0 "{'content': 'Successful Checkout', 'embeds': []}"
     (Some "application/json") =
   Raise "Could not parse webhook content as JSON or text format") /\
  (is_text_webhook "{'content': 'Successful Checkout', 'embeds': []}" = true ->
   parse_webhook_content
     (fun _ => Ok (VDict [("content", VStr "Successful Checkout");
                          ("embeds", VList [])]))
     0 "{'content': 'Successful Checkout', 'embeds': []}"
     (Some "application/json") =
   VDict <$> parse_refract_message 0
               "{'content': 'Successful Checkout', 'embeds': []}").
Proof.
  apply (empty_embeds_falls_through
           (fun _ => Ok (VDict [("content", VStr "Successful Checkout");
                                ("embeds", VList [])]))
           0 "{'content': 'Successful Checkout', 'embeds': []}"
           (Some "application/json")
           [("content", VStr "Successful Checkout"); ("embeds", VList [])]
           (VList [])); reflexivity.
Defined.

(** A flat JSON object passes through untouched.  When the body decodes
    and the decoded value is not an embed envelope, the normaliser returns
    the decoded value as it is (no key is renamed, no value converted),
    provided JSON is tried before the text format: the content type says
    JSON, or the body is wrapped in braces, or the body has no text
    indicator. *)
Theorem flat_json_passes_unchanged (json_loads : string -> result value)
    (now : datetime) (content : string) (content_type : option string)
    (v : value) :
  json_loads content = Ok v ->
  (forall d, v = VDict d -> dict_get d "embeds" = None) ->
  says_json content_type = true \/ looks_like_json content = true \/
  is_text_webhook content = false ->
  parse_webhook_content json_loads now content content_type = Ok v.
Proof.
  intros Hj Hflat Hkind.
  assert (Ht : try_json json_loads now content = Ok v).
  { unfold try_json. rewrite Hj. cbn [mbind result_bind].
    destruct v as [| | | | | |l|d]; try reflexivity.
    now rewrite (Hflat d eq_refl). }
  unfold parse_webhook_content. cbv zeta. rewrite Ht.
  destruct Hkind as [-> | [-> | ->]]; [reflexivity | |];
    now destruct (says_json content_type), (looks_like_json content).
Qed.

Lemma flat_json_passes_unchanged_witness :
  parse_webhook_content (fun _ => Ok (VDict flat_priced_dict)) 0
    "{'order_number': 'A1', 'price': 5.0}" (Some "application/json")
  = Ok (VDict flat_priced_dict).
Proof.
  apply (flat_json_passes_unchanged (fun _ => Ok (VDict flat_priced_dict)) 0
           "{'order_number': 'A1', 'price': 5.0}" (Some "application/json")).
  - reflexivity.
  - intros d [= <-]. reflexivity.
  - left. reflexivity.
Defined.

(** A labelled text is parsed as text.  A body with a text indicator that
    is not announced as JSON and not wrapped in braces goes to the text
    parser without the decoder being asked; so does one that the decoder
    rejects, whatever the content type says.  What the text parser returns
    or raises is what the normaliser returns or raises. *)
Theorem text_body_is_parsed_as_text (json_loads : string -> result value)
    (now : datetime) (content : string) (content_type : option string) :
  is_text_webhook content = true ->
  is_ok (try_json json_loads now content) = false \/
  (says_json content_type = false /\ looks_like_json content = false) ->
  parse_webhook_content json_loads now content content_type =
  VDict <$> parse_refract_message now content.
Proof.
  intros Ht [Hj | [Hs Hl]].
  - rewrite (normaliser_after_failed_json json_loads now content content_type Hj).
    now rewrite Ht.
  - unfold parse_webhook_content. cbv zeta.
    rewrite Hs, Hl, Ht. apply text_branch.
Qed.

Lemma text_body_is_parsed_as_text_witness :
  parse_webhook_content json_loads_rejecting 0 refract_text
    (Some "application/json") =
  VDict <$> parse_refract_message 0 refract_text.
Proof.
  apply (text_body_is_parsed_as_text json_loads_rejecting 0 refract_text
           (Some "application/json")); [reflexivity | left; reflexivity].
Defined.

(** ** What validation reads *)

Lemma optional_present {T : Type} (validate : value -> result T)
    (d1 d2 : list (string * value)) (k : string) :
  present d1 k = present d2 k -> optional validate d1 k = optional validate d2 k.
Proof.
  unfold present, optional.
  destruct (dict_get d1 k) as [[]|], (dict_get d2 k) as [[]|];
    intros H; try discriminate H; try reflexivity; now injection H as <-.
Qed.

(** The order the pipeline builds depends on the declared fields only.
    Two objects that carry the same [order_number] and agree on the
    thirty-four optional fields, an explicit null counting as an absent
    key, are both rejected with the same error or are both accepted and
    mapped to the same order data: keys the schema does not declare have
    no influence on the order. *)
Theorem validation_reads_declared_fields
    (validate_str : value -> result string)
    (validate_float : value -> result float)
    (validate_int : value -> result Z)
    (validate_email : value -> result string)
    (validate_datetime : value -> result pydatetime)
    (now : datetime) (d1 d2 : list (string * value)) :
  dict_get d1 "order_number" = dict_get d2 "order_number" ->
  Forall (fun k => present d1 k = present d2 k) optional_fields ->
  _map_webhook_to_order now <$>
    validate_WebhookPayload validate_str validate_float validate_int
      validate_email validate_datetime (VDict d1) =
  _map_webhook_to_order now <$>
    validate_WebhookPayload validate_str validate_float validate_int
      validate_email validate_datetime (VDict d2).
Proof.
  intros Hkey Hopt. f_equal. unfold validate_WebhookPayload. cbv zeta.
  unfold required. rewrite Hkey. unfold optional_fields in Hopt.
  repeat match type of Hopt with
    | Forall _ (?k :: _) =>
        apply Forall_cons in Hopt as [?E Hopt]
    end.
  repeat match goal with
    | E : present d1 ?k = present d2 ?k |- _ =>
        first [ rewrite (optional_present validate_str d1 d2 k E)
              | rewrite (optional_present validate_float d1 d2 k E)
              | rewrite (optional_present validate_int d1 d2 k E)
              | rewrite (optional_present validate_email d1 d2 k E)
              | rewrite (optional_present validate_datetime d1 d2 k E) ];
        clear E
    end.
  reflexivity.
Qed.

(** An object, and the same object with a key the schema does not declare
    and an explicit null. *)
Lemma validation_reads_declared_fields_witness :
  _map_webhook_to_order 0 <$>
    validate_WebhookPayload exact_str exact_float exact_int exact_str
      exact_datetime (VDict flat_priced_dict) =
  _map_webhook_to_order 0 <$>
    validate_WebhookPayload exact_str exact_float exact_int exact_str
      exact_datetime
      (VDict (("store", VStr "Best Buy") :: ("product", VNone)
              :: flat_priced_dict)).
Proof.
  apply (validation_reads_declared_fields exact_str exact_float exact_int
           exact_str exact_datetime 0 flat_priced_dict
           (("store", VStr "Best Buy") :: ("product", VNone)
            :: flat_priced_dict)).
  - reflexivity.
  - repeat constructor.
Defined.

(** ** Store, then look up *)

(** On a table whose keys run from [n], the query by key selects the row
    at the position of the key. *)
Lemma filter_id_sequential (rows : list Order) :
  forall (n target : Z),
    (forall (i : nat) (o : Order),
        rows !! i = Some o -> getattr o "id" = VInt (n + Z.of_nat i)) ->
    List.filter (has_id target) rows =
    match (if n <=? target then rows !! Z.to_nat (target - n) else None) with
    | Some o => [o]
    | None => []
    end.
Proof.
  induction rows as [|r rows IH]; intros n target Hrows.
  - now destruct (n <=? target).
  - pose proof (Hrows 0%nat r eq_refl) as Hr.
    assert (Hrest : forall (i : nat) (o : Order),
               rows !! i = Some o -> getattr o "id" = VInt (n + 1 + Z.of_nat i)).
    { intros i o Hi. rewrite (Hrows (S i) o Hi). f_equal. lia. }
    cbn [List.filter]. unfold has_id at 1. rewrite Hr. cbn [py_eq].
    rewrite (IH (n + 1) target Hrest).
    destruct (Z.eqb_spec (n + Z.of_nat 0) target) as [He|Hne].
    + destruct (Z.leb_spec (n + 1) target); [lia|].
      destruct (Z.leb_spec n target); [|lia].
      replace (target - n) with 0 by lia. reflexivity.
    + destruct (Z.leb_spec (n + 1) target), (Z.leb_spec n target);
        try lia; [|reflexivity].
      replace (Z.to_nat (target - n)) with (S (Z.to_nat (target - (n + 1))))
        by lia.
      reflexivity.
Qed.

(** With sequential keys the query by key never raises: it returns the row
    at the position of the key, or nothing. *)
Lemma get_order_by_id_sequential (db : database) (oid : Z) :
  sequential_ids db.(orders) ->
  get_order_by_id db oid =
  Ok (if 1 <=? oid then db.(orders) !! Z.to_nat (oid - 1) else None).
Proof.
  intros Hwf. unfold get_order_by_id.
  rewrite (filter_id_sequential _ 1 oid).
  - now destruct (if 1 <=? oid then _ else _).
  - intros i o Hi. rewrite (Hwf i o Hi). f_equal. lia.
Qed.

Lemma lookup_replace_ne {A : Type} (l1 l2 : list A) (a b : A) (i : nat) :
  i <> length l1 -> (l1 ++ a :: l2) !! i = (l1 ++ b :: l2) !! i.
Proof.
  intros Hne. destruct (decide (i < length l1)%nat) as [Hlt|Hge].
  - now rewrite !lookup_app_l by lia.
  - rewrite !lookup_app_r by lia.
    destruct (i - length l1)%nat as [|j] eqn:E; [lia | reflexivity].
Qed.

Lemma filter_replace_other (k : string) (o0 o1 : Order) (l1 l2 : list Order) :
  has_number k o0 = false -> has_number k o1 = false ->
  List.filter (has_number k) (l1 ++ o1 :: l2) =
  List.filter (has_number k) (l1 ++ o0 :: l2).
Proof.
  intros H0 H1. rewrite !List.filter_app. cbn [List.filter].
  now rewrite H0, H1.
Qed.

(** What was stored is what is found, and nothing else has moved.  After
    an application, the lookup by the order number of the payload and the
    lookup by the primary key of the row returned both find the row
    returned; the lookup by any other order number and by any other
    primary key finds what it found before. *)
Theorem stored_order_is_found (t_map t_db : datetime) (p : WebhookPayload)
    (db db' : database) (o : Order) :
  sequential_ids db.(orders) ->
  create_order_from_webhook t_map t_db p db = Ok (db', o) ->
  _get_order_by_number db' p.(order_number) = Ok (Some o) /\
  exists i,
    getattr o "id" = VInt i /\
    get_order_by_id db' i = Ok (Some o) /\
    (forall k, k <> p.(order_number) ->
               _get_order_by_number db' k = _get_order_by_number db k) /\
    (forall j, j <> i -> get_order_by_id db' j = get_order_by_id db j).
Proof.
  intros Hwf H.
  pose proof (map_keys_NoDup t_map p) as Hnd.
  destruct (applied_row_is_stored _ _ _ _ _ _ Hwf H) as [Hrow Hwf'].
  split; [unfold _get_order_by_number; now rewrite Hrow|].
  destruct (_get_order_by_number db p.(order_number)) as [[o0|]|err] eqn:Hget.
  - pose proof (get_order_found _ _ _ Hget) as Hfound.
    destruct (found_row_splits _ _ _ Hfound) as (l1 & l2 & Hsplit & Hk0 & _).
    assert (Hid0 : getattr o0 "id" = VInt (Z.of_nat (length l1) + 1)).
    { apply Hwf. rewrite Hsplit. now apply list_lookup_middle. }
    destruct (applied_update_shape _ _ _ _ _ _ _ Hwf Hget H)
      as (ch & Hin & Hout & Hcases).
    assert (Hid : getattr o "id" = getattr o0 "id").
    { apply Hout; [discriminate|].
      intros old v Hc. destruct (Hin _ old v Hc) as (Hd & _).
      apply (list_elem_of_fmap_2 fst) in Hd.
      destruct (map_keys_not_database _ _ "id" Hd) as (Hx & _).
      exact (Hx eq_refl). }
    assert (Hnum : getattr o "order_number" = getattr o0 "order_number").
    { apply Hout; [discriminate|].
      intros old v Hc. destruct (Hin _ old v Hc) as (_ & _ & Hx & _).
      exact (Hx eq_refl). }
    assert (Horders : db'.(orders) = l1 ++ o :: l2).
    { destruct Hcases as [(_ & -> & ->) | (_ & _ & l1' & l2' & H1 & H2 & _)];
        [exact Hsplit|].
      rewrite H2. rewrite Hsplit in H1.
      assert (Hl : length l1 = length l1').
      { assert (Hid0' : getattr o0 "id" = VInt (Z.of_nat (length l1') + 1)).
        { apply Hwf. rewrite Hsplit, H1. now apply list_lookup_middle. }
        rewrite Hid0 in Hid0'. injection Hid0' as Hl. lia. }
      apply app_inj_1 in H1 as [-> [= <-]]; [reflexivity | exact Hl]. }
    exists (Z.of_nat (length l1) + 1).
    split; [now rewrite Hid|]. split; [|split].
    + rewrite (get_order_by_id_sequential _ _ Hwf'), Horders.
      destruct (Z.leb_spec 1 (Z.of_nat (length l1) + 1)); [|lia].
      replace (Z.to_nat (Z.of_nat (length l1) + 1 - 1)) with (length l1) by lia.
      now rewrite list_lookup_middle.
    + intros k Hk. unfold _get_order_by_number, rows_with_number.
      rewrite Horders, Hsplit.
      assert (Hk0' : has_number k o0 = false).
      { unfold has_number in *. apply py_eq_VStr in Hk0. rewrite Hk0.
        cbn [py_eq]. apply String.eqb_neq. congruence. }
      rewrite (filter_replace_other k o0 o); [reflexivity | exact Hk0' |].
      unfold has_number in *. now rewrite Hnum.
    + intros j Hj.
      rewrite (get_order_by_id_sequential _ _ Hwf'),
        (get_order_by_id_sequential _ _ Hwf), Horders, Hsplit.
      destruct (Z.leb_spec 1 j); [|reflexivity].
      f_equal. apply lookup_replace_ne. lia.
  - apply create_order_from_webhook_cases in H
      as [(o0 & Hget' & _) | (_ & H)];
      [rewrite Hget in Hget'; discriminate Hget'|].
    pose proof (created_value _ _ _ _ _ _ "order_number" _ Hnd H eq_refl) as Hnum.
    apply create_new_order_shape in H as (Hnone & Hrows & _ & Hid & _).
    exists (next_order_id db). split; [exact Hid|]. split; [|split].
    + rewrite (get_order_by_id_sequential _ _ Hwf'), Hrows.
      unfold next_order_id.
      destruct (Z.leb_spec 1 (Z.of_nat (length db.(orders)) + 1)); [|lia].
      replace (Z.to_nat (Z.of_nat (length db.(orders)) + 1 - 1))
        with (length db.(orders)) by lia.
      now rewrite list_lookup_middle.
    + intros k Hk. unfold _get_order_by_number, rows_with_number.
      rewrite Hrows, List.filter_app. cbn [List.filter].
      unfold has_number at 2. rewrite Hnum by discriminate.
      cbn [py_eq sqlite_roundtrip].
      destruct (String.eqb_spec p.(order_number) k); [congruence|].
      now rewrite app_nil_r.
    + intros j Hj.
      rewrite (get_order_by_id_sequential _ _ Hwf'),
        (get_order_by_id_sequential _ _ Hwf), Hrows.
      destruct (Z.leb_spec 1 j); [|reflexivity]. f_equal.
      unfold next_order_id in Hj.
      destruct (decide (Z.to_nat (j - 1) < length db.(orders))%nat).
      * now rewrite lookup_app_l by lia.
      * rewrite lookup_app_r by lia.
        rewrite (lookup_ge_None_2 db.(orders)) by lia.
        destruct (Z.to_nat (j - 1) - length db.(orders))%nat eqn:E; [lia|].
        reflexivity.
  - apply create_order_from_webhook_cases in H
      as [(o0 & Hget' & _) | (Hget' & _)];
      rewrite Hget in Hget'; discriminate Hget'.
Qed.

Lemma stored_order_is_found_witness :
  match create_order_from_webhook 0 0 three_decimals_payload empty_db with
  | Ok (db', o) =>
      _get_order_by_number db' "A1" = Ok (Some o) /\
      exists i,
        getattr o "id" = VInt i /\
        get_order_by_id db' i = Ok (Some o) /\
        (forall k, k <> "A1" ->
                   _get_order_by_number db' k = _get_order_by_number empty_db k) /\
        (forall j, j <> i -> get_order_by_id db' j = get_order_by_id empty_db j)
  | Raise _ => False
  end.
Proof.
  destruct (create_order_from_webhook 0 0 three_decimals_payload empty_db)
    as [[db' o]|e] eqn:E.
  - apply (stored_order_is_found 0 0 three_decimals_payload empty_db db' o);
      [exact sequential_ids_nil | exact E].
  - assert (Hok : is_ok (create_order_from_webhook 0 0 three_decimals_payload
                           empty_db) = true) by (vm_compute; reflexivity).
    rewrite E in Hok. discriminate Hok.
Defined.

(** ** The acceptor *)

Lemma hex_digit_ascii (n : nat) :
  (nat_of_ascii (hex_digit n) <? 128)%nat = true.
Proof. do 15 (destruct n as [|n]; [reflexivity|]). reflexivity. Qed.

(** A hexadecimal rendering is ASCII. *)
Lemma hex_ascii (bytes : string) : isascii (hex bytes) = true.
Proof.
  unfold isascii. induction bytes as [|b r IH]; [reflexivity|].
  cbn [hex list_ascii_of_string forallb]. now rewrite !hex_digit_ascii, IH.
Qed.

Lemma isascii_nonempty (s : string) : isascii s = false -> s <> "".
Proof. now intros H ->. Qed.

Section AcceptorFacts.
Variable hmac_sha256_digest : string -> string.
Variable decode : string -> result string.

(** What the signature check of the acceptor gives: nothing to check, a
    mismatch, a match, or a signature [compare_digest] cannot read. *)
Lemma signature_check_cases (req : request) :
  (if truthy (ostr req.(x_webhook_signature))
   then verify_webhook_signature hmac_sha256_digest req.(raw_body)
          req.(x_webhook_signature)
   else Ok true) =
  match req.(x_webhook_signature) with
  | None => Ok true
  | Some s =>
      if String.eqb s "" then Ok true
      else if isascii s
      then Ok (String.eqb s
                 (hmac_sha256_hexdigest hmac_sha256_digest req.(raw_body)))
      else Raise "TypeError: comparing strings with non-ASCII characters is not supported"
  end.
Proof.
  unfold verify_webhook_signature, compare_digest.
  destruct req.(x_webhook_signature) as [s|]; cbn [ostr truthy]; [|reflexivity].
  destruct (String.eqb s ""); cbn [negb]; [reflexivity|].
  unfold hmac_sha256_hexdigest. rewrite hex_ascii.
  now destruct (isascii s).
Qed.

(** The signature is checked only when there is one.  A request is
    answered 401 exactly when it carries a non-empty [X-Webhook-Signature]
    of ASCII characters that is not the HMAC of its body in hexadecimal.  A
    signature with a character outside ASCII is not compared: the
    comparison raises [TypeError], which nothing handles, and that happens
    for such a signature only.  In both cases no audit row is written and
    the queue and its counters are as they were.  A request without a
    signature, or with an empty one, is never answered 401. *)
Theorem signature_gate (now : datetime) (db_up : bool) (req : request)
    (logs : list WebhookLog) (q : WebhookQueue) (body_text : string) :
  decode req.(raw_body) = Ok body_text ->
  let r := receive_order_webhook hmac_sha256_digest decode now db_up req
             logs q in
  (r.2 = HTTPException 401 "Invalid webhook signature" <->
   exists s, req.(x_webhook_signature) = Some s /\ s <> "" /\
             isascii s = true /\
             s <> hmac_sha256_hexdigest hmac_sha256_digest req.(raw_body)) /\
  ((exists e, r.2 = Unhandled e) <->
   exists s, req.(x_webhook_signature) = Some s /\ isascii s = false) /\
  (r.2 = HTTPException 401 "Invalid webhook signature" \/
   (exists e, r.2 = Unhandled e) ->
   r.1.1 = logs /\ r.1.2 = q) /\
  (truthy (ostr req.(x_webhook_signature)) = false ->
   forall detail, r.2 <> HTTPException 401 detail).
Proof.
  intros Hdec. cbv zeta. unfold receive_order_webhook. rewrite Hdec.
  cbv zeta. rewrite signature_check_cases.
  assert (Hq : forall b : bool,
             let r := (let '(q', enqueued) :=
                         enqueue now
                           (mkWebhookData body_text
                              (header_get req.(request_headers)
                                 "content-type" "")) q in
                       if negb enqueued
                       then (if b then logs ++ [mkWebhookLog
                                 "/api/v2/webhooks/orders" "POST"
                                 req.(request_headers) body_text 202 false]
                             else logs, q',
                             HTTPException 503 "Service busy - retry")
                       else (if b then logs ++ [mkWebhookLog
                                 "/api/v2/webhooks/orders" "POST"
                                 req.(request_headers) body_text 202 false]
                             else logs, q',
                             Queued (Z.of_nat (length q'.(queue))))) in
             r.2 <> HTTPException 401 "Invalid webhook signature" /\
             (forall e, r.2 <> Unhandled e) /\
             (forall detail, r.2 <> HTTPException 401 detail)).
  { intros b. cbv zeta. destruct (enqueue now _ q) as [q' enq].
    destruct enq; cbn [negb snd]; repeat split; try discriminate;
      intros; discriminate. }
  destruct req.(x_webhook_signature) as [s|] eqn:Hs; cbn [ostr truthy].
  - destruct (String.eqb_spec s "") as [->|Hne]; cbn [negb].
    + destruct (Hq db_up) as (H1 & H2 & H3). cbv zeta in H1, H2, H3.
      split; [|split; [|split]].
      * split; [intros H; now apply H1 in H|].
        intros (s' & [= <-] & Hs' & _). contradiction.
      * split; [intros (e & He); now apply H2 in He|].
        intros (s' & [= <-] & Hs'). discriminate Hs'.
      * intros [H | (e & He)]; [now apply H1 in H | now apply H2 in He].
      * intros _. exact H3.
    + destruct (isascii s) eqn:Ha.
      * destruct (String.eqb_spec s
                    (hmac_sha256_hexdigest hmac_sha256_digest req.(raw_body)))
          as [He|Hd].
        -- destruct (Hq db_up) as (H1 & H2 & H3). cbv zeta in H1, H2, H3.
           split; [|split; [|split]].
           ++ split; [intros H; now apply H1 in H|].
              intros (s' & [= <-] & _ & _ & Hs'). contradiction.
           ++ split; [intros (e & He'); now apply H2 in He'|].
              intros (s' & [= <-] & Hs'). congruence.
           ++ intros [H | (e & He')]; [now apply H1 in H | now apply H2 in He'].
           ++ intros _. exact H3.
        -- cbn [fst snd]. split; [|split; [|split]].
           ++ split; [|reflexivity]. intros _. exists s. now repeat split.
           ++ split; [intros (e & He); discriminate He|].
              intros (s' & [= <-] & Hs'). congruence.
           ++ now intros _.
           ++ intros Ht. discriminate Ht.
      * cbn [fst snd]. split; [|split; [|split]].
        -- split; [discriminate|].
           intros (s' & [= <-] & _ & Hs' & _). congruence.
        -- split; [|intros _; eexists; reflexivity].
           intros _. now exists s.
        -- now intros _.
        -- intros _ detail. discriminate.
  - destruct (Hq db_up) as (H1 & H2 & H3). cbv zeta in H1, H2, H3.
    split; [|split; [|split]].
    + split; [intros H; now apply H1 in H|]. now intros (s' & Hs' & _).
    + split; [intros (e & He); now apply H2 in He|]. now intros (s' & Hs' & _).
    + intros [H | (e & He)]; [now apply H1 in H | now apply H2 in He].
    + intros _. exact H3.
Qed.

(** A request that is not rejected is logged and queued, or refused for
    lack of room.  The audit row carries the body, the status code 202 and
    [processed = False], and is written whether or not the queue has room;
    a failure to write it does not stop the request.  With room the answer
    is the acknowledgement with the new size of the queue, and the message
    at the back of the queue carries the decoded body and the content type
    of the request ([''] without one) with a retry count of zero; without
    room the answer is 503 and the queue is as it was. *)
Theorem acceptor_queues_or_refuses (now : datetime) (db_up : bool)
    (req : request) (logs : list WebhookLog) (q : WebhookQueue)
    (body_text : string) :
  decode req.(raw_body) = Ok body_text ->
  truthy (ostr req.(x_webhook_signature)) = false \/
  req.(x_webhook_signature) =
    Some (hmac_sha256_hexdigest hmac_sha256_digest req.(raw_body)) ->
  let r := receive_order_webhook hmac_sha256_digest decode now db_up req
             logs q in
  let wd := mkWebhookData body_text
              (header_get req.(request_headers) "content-type" "") in
  r.1.1 = (if db_up
           then logs ++ [mkWebhookLog "/api/v2/webhooks/orders" "POST"
                           req.(request_headers) body_text 202 false]
           else logs) /\
  r.1.2 = (enqueue now wd q).1 /\
  ((length q.(queue) < queue_maxsize)%nat ->
   r.2 = Queued (Z.of_nat (length q.(queue)) + 1) /\
   r.1.2.(queue) =
     q.(queue) ++ [mkMessage wd now 0 (now, q.(total_received)) None None]) /\
  ((queue_maxsize <= length q.(queue))%nat ->
   r.2 = HTTPException 503 "Service busy - retry" /\
   r.1.2.(queue) = q.(queue) /\
   r.1.2.(total_failed) = q.(total_failed) + 1).
Proof.
  intros Hdec Hpass. cbv zeta. unfold receive_order_webhook. rewrite Hdec.
  cbv zeta. rewrite signature_check_cases.
  assert (Hsig : match req.(x_webhook_signature) with
                 | None => Ok true
                 | Some s =>
                     if String.eqb s "" then Ok true
                     else if isascii s
                     then Ok (String.eqb s
                                (hmac_sha256_hexdigest hmac_sha256_digest
                                   req.(raw_body)))
                     else Raise "TypeError: comparing strings with non-ASCII characters is not supported"
                 end = Ok true).
  { destruct Hpass as [Ht | Hs].
    - destruct req.(x_webhook_signature) as [s|]; [|reflexivity].
      cbn [ostr truthy] in Ht. apply negb_false_iff in Ht. now rewrite Ht.
    - rewrite Hs. unfold hmac_sha256_hexdigest at 2.
      rewrite hex_ascii, String.eqb_refl. now destruct (String.eqb _ ""). }
  rewrite Hsig. unfold enqueue.
  destruct (Nat.ltb_spec (length q.(queue)) queue_maxsize) as [Hlt|Hge];
    cbn [negb fst snd queue total_failed].
  - repeat split; try (intros; lia).
    rewrite length_app. cbn [length]. f_equal. lia.
  - repeat split; intros; lia.
Qed.
End AcceptorFacts.

(** A request signed with something else than the HMAC of its body. *)
Lemma signature_gate_witness :
  let hmac := fun _ : string => "secret" in
  let req := mkRequest "hello" [("content-type", "text/plain")]
               (Some "decaf") in
  let r := receive_order_webhook hmac Ok 0 true req []
             (new_WebhookQueue 1 3) in
  (r.2 = HTTPException 401 "Invalid webhook signature" <->
   exists s, req.(x_webhook_signature) = Some s /\ s <> "" /\
             isascii s = true /\
             s <> hmac_sha256_hexdigest hmac req.(raw_body)) /\
  ((exists e, r.2 = Unhandled e) <->
   exists s, req.(x_webhook_signature) = Some s /\ isascii s = false) /\
  (r.2 = HTTPException 401 "Invalid webhook signature" \/
   (exists e, r.2 = Unhandled e) ->
   r.1.1 = [] /\ r.1.2 = new_WebhookQueue 1 3) /\
  (truthy (ostr req.(x_webhook_signature)) = false ->
   forall detail, r.2 <> HTTPException 401 detail).
Proof.
  cbv zeta.
  apply (signature_gate (fun _ => "secret") Ok 0 true
           (mkRequest "hello" [("content-type", "text/plain")] (Some "decaf"))
           [] (new_WebhookQueue 1 3) "hello").
  reflexivity.
Defined.

(** An unsigned request to an empty queue. *)
Lemma acceptor_queues_or_refuses_witness :
  let hmac := fun _ : string => "secret" in
  let req := mkRequest "hello" [("content-type", "text/plain")] None in
  let q := new_WebhookQueue 1 3 in
  let r := receive_order_webhook hmac Ok 0 true req [] q in
  let wd := mkWebhookData "hello" "text/plain" in
  r.1.1 = [mkWebhookLog "/api/v2/webhooks/orders" "POST"
             [("content-type", "text/plain")] "hello" 202 false] /\
  r.1.2 = (enqueue 0 wd q).1 /\
  ((length q.(queue) < queue_maxsize)%nat ->
   r.2 = Queued (Z.of_nat (length q.(queue)) + 1) /\
   r.1.2.(queue) =
     q.(queue) ++ [mkMessage wd 0 0 (0, q.(total_received)) None None]) /\
  ((queue_maxsize <= length q.(queue))%nat ->
   r.2 = HTTPException 503 "Service busy - retry" /\
   r.1.2.(queue) = q.(queue) /\
   r.1.2.(total_failed) = q.(total_failed) + 1).
Proof.
  cbv zeta.
  apply (acceptor_queues_or_refuses (fun _ => "secret") Ok 0 true
           (mkRequest "hello" [("content-type", "text/plain")] None)
           [] (new_WebhookQueue 1 3) "hello").
  - reflexivity.
  - left. reflexivity.
Defined.

(** ** Listing dead letters with a limit that is not positive *)

(** A limit of zero lists everything.  The listing is the slice from
    [-limit]: with [limit = 0] that is the whole deque, not an empty list,
    and with a negative limit it is the deque without its [-limit] oldest
    entries.  The endpoint hands the limit of the request on unchecked. *)
Theorem dead_letters_nonpositive_limit (limit : Z) (q : WebhookQueue) :
  limit <= 0 ->
  get_dead_letters limit q = drop (Z.to_nat (- limit)) q.(dead_letter_queue) /\
  (limit = 0 -> get_dead_letters limit q = q.(dead_letter_queue)).
Proof.
  intros Hl.
  assert (H : get_dead_letters limit q
              = drop (Z.to_nat (- limit)) q.(dead_letter_queue)).
  { unfold get_dead_letters, slice_from.
    destruct (Z.ltb_spec (- limit) 0) as [|_]; [lia|].
    destruct (Z.le_gt_cases (- limit) (Z.of_nat (length q.(dead_letter_queue)))).
    - now rewrite Z.min_l by assumption.
    - rewrite Z.min_r by lia. now rewrite !drop_ge by lia. }
  split; [exact H|]. intros ->. now rewrite H.
Qed.

Lemma dead_letters_nonpositive_limit_witness :
  get_dead_letters 0 two_dead_letters = two_dead_letters.(dead_letter_queue).
Proof.
  destruct (dead_letters_nonpositive_limit 0 two_dead_letters) as [_ H];
    [lia|]. now apply H.
Defined.

(** ** Pages of orders *)

(** Pages partition the result.  The endpoint answers exactly when
    [page >= 1], [1 <= page_size <= 1000] and the offset
    [(page - 1) * page_size] fits the 64 bits of the driver (a larger one
    passes the bounds of the declarations and makes the query raise).  The
    page then holds at most [page_size] orders, namely the rows of the query
    from position [(page - 1) * page_size] on, in the order of the query;
    [total] is the number of rows of the query; [has_next] holds exactly
    when the query has rows after this page, and [has_previous] exactly
    when this is not the first page. *)
Theorem pagination_is_exact (matching : list Order) (page_ page_size_ : Z) :
  (is_ok (get_orders matching page_ page_size_) = true <->
   1 <= page_ /\ 1 <= page_size_ <= 1000 /\
   (page_ - 1) * page_size_ < 2 ^ 63) /\
  (get_orders matching page_ page_size_ = Raise "OverflowError" <->
   1 <= page_ /\ 1 <= page_size_ <= 1000 /\
   2 ^ 63 <= (page_ - 1) * page_size_) /\
  forall pg,
    get_orders matching page_ page_size_ = Ok pg ->
    Z.of_nat (length pg.(page_orders)) <= page_size_ /\
    (forall i : nat,
        Z.of_nat i < page_size_ ->
        pg.(page_orders) !! i =
        matching !! (Z.to_nat ((page_ - 1) * page_size_) + i)%nat) /\
    pg.(page_total) = Z.of_nat (length matching) /\
    (pg.(has_next) = true <->
     drop (Z.to_nat (page_ * page_size_)) matching <> []) /\
    (pg.(has_previous) = true <-> 1 < page_).
Proof.
  unfold get_orders, sqlite_overflows. split; [|split].
  - destruct (Z.ltb_spec page_ 1), (Z.ltb_spec page_size_ 1),
      (Z.ltb_spec 1000 page_size_); cbn [orb is_ok];
      try (split; intros H'; [discriminate H' | lia]).
    destruct (Z.leb_spec (- 2 ^ 63) ((page_ - 1) * page_size_)),
      (Z.ltb_spec ((page_ - 1) * page_size_) (2 ^ 63));
      cbn [andb negb is_ok];
      split; intros H'; try discriminate H'; try reflexivity; nia.
  - destruct (Z.ltb_spec page_ 1), (Z.ltb_spec page_size_ 1),
      (Z.ltb_spec 1000 page_size_); cbn [orb];
      try (split; intros H'; [discriminate H' | lia]).
    destruct (Z.leb_spec (- 2 ^ 63) ((page_ - 1) * page_size_)),
      (Z.ltb_spec ((page_ - 1) * page_size_) (2 ^ 63));
      cbn [andb negb];
      split; intros H'; try discriminate H'; try reflexivity; nia.
  - intros pg.
    destruct (Z.ltb_spec page_ 1), (Z.ltb_spec page_size_ 1),
      (Z.ltb_spec 1000 page_size_); cbn [orb]; try discriminate.
    destruct (negb _); [discriminate|].
    intros [= <-].
    cbn [page_orders page_total has_next has_previous].
    split; [rewrite length_take; lia|]. split; [|split; [reflexivity|split]].
    + intros i Hi. rewrite lookup_take_lt by lia. apply lookup_drop.
    + split.
      * intros Hn. apply Z.ltb_lt in Hn. intros He.
        apply (f_equal (@length Order)) in He.
        rewrite length_drop in He. cbn [length] in He. nia.
      * intros Hne. apply Z.ltb_lt.
        destruct (Z.lt_ge_cases (page_ * page_size_)
                    (Z.of_nat (length matching))) as [|Hge]; [assumption|].
        exfalso. apply Hne. now rewrite drop_ge by nia.
    + apply Z.ltb_lt.
Qed.
